(** * Reconciliation scripts for the NeMo tooling blueprint: a shallow embedding

    The two scripts under [blueprints/scripts] are sequences of blocking
    SDK calls, [print]s and [try]/[except] blocks over JSON-shaped
    dictionaries.  They are embedded here as functions of a small
    log-producing error monad:

    - data is JSON ([json]); a Python dict is an association list that
      keeps insertion order ([dict]);
    - every SDK call is answered by a [remote], a deterministic function
      of the calls made so far, and is recorded in the log together with
      its answer; [print] appends a line to the same log;
    - a computation ends by returning, by raising ([Raise]) or through
      [sys.exit] ([Exit]).

    Three conventions are fixed once and used everywhere:

    - strings are byte strings and [str.lower] acts on the letters A-Z
      only (the markers searched for are ASCII);
    - members that the service model types as strings (identifiers, ARNs,
      the account number, the targets of a grant) are read with [as_str],
      [as_str_opt] and [set_update], which raise a [TypeError] on any
      other JSON type, where Python would carry the value along.  The
      embedding follows the code on answers that keep to the service
      model; the properties below either assume such answers or hold of
      the code on the others as well;
    - the text of an exception that Python itself raises ([KeyError]
      apart) depends on the interpreter and on the type of the value at
      hand; the embedding keeps one short text for each kind, so the text
      of a warning printed for a malformed answer is not the
      interpreter's.  The errors of the remote side carry their own
      text. *)

From stdpp Require Import base strings list gmap pretty.
From Stdlib Require Import ZArith Ascii String.

Set Warnings "-register-all".

(** ** Python strings *)

Definition nl : string := String (ascii_of_nat 10) EmptyString.

Definition lower_ascii (c : ascii) : ascii :=
  let n := nat_of_ascii c in
  if ((65 <=? n) && (n <=? 90))%nat then ascii_of_nat (n + 32) else c.

(** [s.lower()] *)
Fixpoint lower (s : string) : string :=
  match s with
  | EmptyString => EmptyString
  | String c t => String (lower_ascii c) (lower t)
  end.

(** [needle in hay] for two strings *)
Fixpoint contains (needle hay : string) : bool :=
  String.prefix needle hay ||
  match hay with
  | EmptyString => false
  | String _ t => contains needle t
  end.

(** [sep.join(l)] *)
Definition join (sep : string) (l : list string) : string := String.concat sep l.

(** [c * n] *)
Fixpoint repeat_str (n : nat) (c : string) : string :=
  match n with
  | O => EmptyString
  | S k => c +:+ repeat_str k c
  end.

(** ** JSON values and Python dictionaries *)

Inductive json : Type :=
| JNull
| JBool (b : bool)
| JNum (n : Z)
| JStr (s : string)
| JArr (l : list json)
| JObj (kv : list (string * json)).

Abbreviation dict := (list (string * json)).

(** [d.get(k)] as an option; the first binding of [k] is the only one in
    a dict built by [dict_set]. *)
Fixpoint dict_get (d : dict) (k : string) : option json :=
  match d with
  | [] => None
  | (k', v) :: d' => if String.eqb k' k then Some v else dict_get d' k
  end.

(** [d.get(k, dflt)] *)
Definition dict_get_or (d : dict) (k : string) (dflt : json) : json :=
  default dflt (dict_get d k).

(** [d[k] = v]: overwrite in place, or append a new key *)
Fixpoint dict_set (d : dict) (k : string) (v : json) : dict :=
  match d with
  | [] => [(k, v)]
  | (k', v') :: d' =>
      if String.eqb k' k then (k', v) :: d' else (k', v') :: dict_set d' k v
  end.

Definition dict_keys (d : dict) : list string := d.*1.

(** Python truthiness *)
Definition truthy (j : json) : bool :=
  match j with
  | JNull => false
  | JBool b => b
  | JNum n => negb (n =? 0)%Z
  | JStr s => negb (String.eqb s "")
  | JArr l => match l with [] => false | _ => true end
  | JObj d => match d with [] => false | _ => true end
  end.

Definition truthy_str (s : string) : bool := negb (String.eqb s "").

(** truthiness of an optional string ([None] is falsy) *)
Definition truthy_opt (o : option string) : bool :=
  match o with
  | None => false
  | Some s => truthy_str s
  end.

(** [j == s] for a string [s]: only an equal string compares equal *)
Definition eq_str (j : json) (s : string) : bool :=
  match j with
  | JStr s' => String.eqb s' s
  | _ => false
  end.

(** ** Exceptions *)

(** [exn_code] is [e.response["Error"]["Code"]] for the SDK's
    [ClientError] and [None] for every other exception; [exn_str] is
    [str(e)]. *)
Record exn : Type := MkExn { exn_code : option string; exn_str : string }.

Definition KeyError (k : string) : exn := MkExn None ("'" +:+ k +:+ "'").
Definition TypeError (msg : string) : exn := MkExn None msg.
Definition AttributeError (msg : string) : exn := MkExn None msg.

Abbreviation result A := (exn + A)%type.

Definition rbind {A B} (r : result A) (f : A → result B) : result B :=
  match r with
  | inl e => inl e
  | inr a => f a
  end.

(** [j.get(k, dflt)]: only a dict has [get] *)
Definition py_get (j : json) (k : string) (dflt : json) : result json :=
  match j with
  | JObj d => inr (dict_get_or d k dflt)
  | _ => inl (AttributeError "object has no attribute 'get'")
  end.

(** [j[k]] for a string key *)
Definition py_index (j : json) (k : string) : result json :=
  match j with
  | JObj d =>
      match dict_get d k with
      | Some v => inr v
      | None => inl (KeyError k)
      end
  | JStr _ => inl (TypeError "string indices must be integers")
  | JArr _ => inl (TypeError "list indices must be integers or slices, not str")
  | _ => inl (TypeError "object is not subscriptable")
  end.

(** [d[k]] on a dict *)
Definition dict_index (d : dict) (k : string) : result json := py_index (JObj d) k.

Fixpoint chars (s : string) : list json :=
  match s with
  | EmptyString => []
  | String c t => JStr (String c EmptyString) :: chars t
  end.

(** the elements a [for] loop visits *)
Definition py_iter (j : json) : result (list json) :=
  match j with
  | JArr l => inr l
  | JObj d => inr (JStr <$> dict_keys d)
  | JStr s => inr (chars s)
  | _ => inl (TypeError "object is not iterable")
  end.

(** [s in j] for a string [s] *)
Definition py_contains (s : string) (j : json) : result bool :=
  match j with
  | JObj d => inr (bool_decide (is_Some (dict_get d s)))
  | JArr l => inr (existsb (λ x, eq_str x s) l)
  | JStr h => inr (contains s h)
  | _ => inl (TypeError "argument is not iterable")
  end.

(** a member the service model types as a string *)
Definition as_str (j : json) : result string :=
  match j with
  | JStr s => inr s
  | _ => inl (TypeError "expected str")
  end.

(** a member read with [.get]: [None] when absent or null *)
Definition as_str_opt (o : option json) : result (option string) :=
  match o with
  | None | Some JNull => inr None
  | Some (JStr s) => inr (Some s)
  | Some _ => inl (TypeError "expected str")
  end.

(** ** The remote side and the log *)

Record call : Type := MkCall { svc : string; op : string; kwargs : dict }.

(** What a paginator yields: the pages it delivers in order, then either
    the end of the listing or an error on the next fetch.  Pages are
    fetched lazily, so a consumer that stops early never sees the error. *)
Record page_stream : Type := MkPages { ps_pages : list dict; ps_error : option exn }.

Inductive entry : Type :=
| Called (c : call) (r : result dict)
| Paginated (c : call) (ps : page_stream)
| Printed (line : string).

Abbreviation log := (list entry).

Definition is_remote (e : entry) : bool :=
  match e with
  | Printed _ => false
  | _ => true
  end.

(** what the remote side has seen so far *)
Definition remote_view (l : log) : log := List.filter is_remote l.

Record remote : Type := MkRemote {
  invoke : log → call → result dict;
  paginate : log → call → page_stream
}.

Definition stdout (l : log) : list string :=
  omap (λ e, match e with Printed s => Some s | _ => None end) l.

Definition calls (l : log) : list call :=
  omap (λ e, match e with
             | Called c _ => Some c
             | Paginated c _ => Some c
             | Printed _ => None
             end) l.

(** ** The monad: a computation reads the log so far and yields an
    outcome together with the entries it appended *)

Inductive outcome (A : Type) : Type :=
| Ret (a : A)
| Raise (e : exn)
| Exit (code : Z).
Arguments Ret {A} a.
Arguments Raise {A} e.
Arguments Exit {A} code.

Definition M (A : Type) : Type := log → outcome A * log.

Definition ret {A} (a : A) : M A := λ _, (Ret a, []).

Definition bind {A B} (m : M A) (f : A → M B) : M B :=
  λ h,
    match m h with
    | (Ret a, l1) => let '(o, l2) := f a (h ++ l1) in (o, l1 ++ l2)
    | (Raise e, l1) => (Raise e, l1)
    | (Exit n, l1) => (Exit n, l1)
    end.

Definition raise {A} (e : exn) : M A := λ _, (Raise e, []).

(** [sys.exit(n)] *)
Definition sys_exit {A} (n : Z) : M A := λ _, (Exit n, []).

Definition print (s : string) : M unit := λ _, (Ret tt, [Printed s]).

Definition lift {A} (r : result A) : M A :=
  match r with
  | inl e => raise e
  | inr a => ret a
  end.

(** [try: body / except Exception as e: handler(e)]; [SystemExit] is not
    an [Exception] and passes through *)
Definition try_except {A} (body : M A) (handler : exn → M A) : M A :=
  λ h,
    match body h with
    | (Raise e, l1) => let '(o, l2) := handler e (h ++ l1) in (o, l1 ++ l2)
    | r => r
    end.

(** [try: body / except: handler]; a bare [except] also catches
    [SystemExit] *)
Definition try_bare {A} (body : M A) (handler : M A) : M A :=
  λ h,
    match body h with
    | (Ret a, l1) => (Ret a, l1)
    | (_, l1) => let '(o, l2) := handler (h ++ l1) in (o, l1 ++ l2)
    end.

Declare Scope py_scope.
Delimit Scope py_scope with py.
Notation "x <- m ;; k" := (bind m (λ x, k))
  (at level 100, m at next level, right associativity) : py_scope.
Notation "m ;; k" := (bind m (λ _, k))
  (at level 100, right associativity) : py_scope.
Local Open Scope py_scope.

Section Remote.
Variable R : remote.

(** an SDK operation *)
Definition sdk (service operation : string) (args : dict) : M dict :=
  λ h,
    let c := MkCall service operation args in
    let r := invoke R (remote_view h) c in
    (match r with inl e => Raise e | inr d => Ret d end, [Called c r]).

(** the pages of [client.get_paginator(operation)] for the given arguments *)
Definition sdk_pages (service operation : string) (args : dict) : M page_stream :=
  λ h,
    let c := MkCall service operation args in
    let ps := paginate R (remote_view h) c in
    (Ret ps, [Paginated c ps]).
End Remote.

(** the process exit status of a script whose entry point had outcome [o] *)
Definition exit_code {A} (o : outcome A) : Z :=
  match o with
  | Ret _ => 0
  | Raise _ => 1
  | Exit n => n
  end.

(** * setup-blueprint.py *)

Module SetupBlueprint.

(** What the script reads from its process: [os.environ] and the template
    file next to the script ([template_path] is the resolved path,
    [template_exists] the result of [Path.exists]). *)
Record host : Type := MkHost {
  environ : gmap string string;
  template_path : string;
  template_exists : bool
}.

(** The dict [get_config] returns has exactly these four keys. *)
Record config : Type := MkConfig {
  AWS_PROFILE : string;
  AWS_REGION : string;
  DOMAIN_ID : string;
  PROJECT_PROFILE_NAME : string
}.

Definition required : list string := ["AWS_REGION"; "DOMAIN_ID"].

(** [[k for k in required if not os.environ.get(k)]] *)
Definition missing (env : gmap string string) : list string :=
  List.filter (λ k, negb (truthy_opt (env !! k))) required.

(** in the second branch the two required keys are set; the defaults
    given for them there are never used *)
Definition get_config (H : host) : M config :=
  match missing (environ H) with
  | _ :: _ =>
      print ("Error: Missing env vars: " +:+ join ", " (missing (environ H)));;
      print "Run: make env ENV=<name> first, or set in .env";;
      sys_exit 1
  | [] =>
      ret {| AWS_PROFILE := default "default" (environ H !! "AWS_PROFILE");
             AWS_REGION := default "" (environ H !! "AWS_REGION");
             DOMAIN_ID := default "" (environ H !! "DOMAIN_ID");
             PROJECT_PROFILE_NAME :=
               default "NeMo-HyperPod-Profile" (environ H !! "PROJECT_PROFILE_NAME") |}
  end.

(** [user_parameter k d v] is one entry of the parameter table *)
Definition user_parameter (key description dflt : string) : json :=
  JObj [("fieldType", JStr "STRING"); ("keyName", JStr key);
        ("description", JStr description); ("isOptional", JBool true);
        ("defaultValue", JStr dflt)].

Definition get_nemo_tooling_user_parameters : list json :=
  [ user_parameter "HyperPodClusterName" "Base name for the HyperPod cluster" "nemo-hyperpod";
    user_parameter "NeMoContainerRepository" "ECR repository for NeMo container" "nemo-framework-hyperpod";
    user_parameter "NeMoContainerTag" "NeMo container image tag" "25.04-eks";
    user_parameter "InstanceType1" "Instance type for training nodes (Karpenter manages scaling)" "ml.p4d.24xlarge";
    user_parameter "KubernetesVersion" "Kubernetes version for EKS cluster" "1.33";
    user_parameter "EnableTaskGovernance" "Enable HyperPod task governance (true/false)" "true";
    user_parameter "EnableFSxLustre" "Create FSx for Lustre file system (true/false)" "true";
    user_parameter "FSxStorageCapacity" "FSx storage capacity in GiB (1200, 2400, or multiples of 2400)" "1200";
    user_parameter "FSxPerUnitStorageThroughput" "FSx throughput per TiB (125/250/500/1000)" "250";
    user_parameter "DevModeDisableRollback" "Dev mode: disable nested stack rollback (true/false)" "true" ]
  ++ ((λ i : nat,
         user_parameter ("InstanceGroupSettings" +:+ pretty i)
           ("Reserved: instance group settings " +:+ pretty i +:+
            " (JSON array string). Leave empty to use defaults.")
           "") <$> seq 1 20).

(** ** Resource lookup *)

(** [for x in items: if x.get('name') == name: return x] *)
Fixpoint first_named (name : string) (items : list json) : result (option dict) :=
  match items with
  | [] => inr None
  | x :: rest =>
      match x with
      | JObj d =>
          if eq_str (dict_get_or d "name" JNull) name then inr (Some d)
          else first_named name rest
      | _ => inl (AttributeError "object has no attribute 'get'")
      end
  end.

(** the two nested loops of a lookup: they stop at the first match and
    fetch a further page only when the pages so far had none *)
Fixpoint scan_pages (name : string) (pages : list dict) (err : option exn)
  : result (option dict) :=
  match pages with
  | [] =>
      match err with
      | Some e => inl e
      | None => inr None
      end
  | page :: rest =>
      match rbind (py_iter (dict_get_or page "items" (JArr []))) (first_named name) with
      | inl e => inl e
      | inr (Some d) => inr (Some d)
      | inr None => scan_pages name rest err
      end
  end.

Definition find_stream (name : string) (ps : page_stream) : result (option dict) :=
  scan_pages name (ps_pages ps) (ps_error ps).

(** the loops of [get_tooling_blueprint_config]: [break] leaves the inner
    loop only, so a later page with a blueprint named Tooling overwrites
    the id found on an earlier one *)
Fixpoint scan_tooling (pages : list dict) (err : option exn) (tooling_id : option string)
  : result (option string) :=
  match pages with
  | [] =>
      match err with
      | Some e => inl e
      | None => inr tooling_id
      end
  | page :: rest =>
      match rbind (py_iter (dict_get_or page "items" (JArr []))) (first_named "Tooling") with
      | inl e => inl e
      | inr (Some bp) =>
          match rbind (dict_index bp "id") as_str with
          | inl e => inl e
          | inr i => scan_tooling rest err (Some i)
          end
      | inr None => scan_tooling rest err tooling_id
      end
  end.

(** the arguments of the two blueprint grants *)
Definition blueprint_grant_args
    (domain_id entity_id policy_type domain_unit_id : string) (detail : json) : dict :=
  [("domainIdentifier", JStr domain_id);
   ("entityType", JStr "ENVIRONMENT_BLUEPRINT_CONFIGURATION");
   ("entityIdentifier", JStr entity_id);
   ("policyType", JStr policy_type);
   ("principal",
    JObj [("project",
           JObj [("projectDesignation", JStr "CONTRIBUTOR");
                 ("projectGrantFilter",
                  JObj [("domainUnitFilter",
                         JObj [("domainUnit", JStr domain_unit_id);
                               ("includeChildDomainUnits", JBool true)])])])]);
   ("detail", detail)].

(** ** Environment configurations *)

Definition tooling_config (tooling_blueprint_id region account_id : string) : dict :=
  [("environmentBlueprintId", JStr tooling_blueprint_id);
   ("name", JStr "Tooling");
   ("description", JStr "Base tooling environment (IAM roles, security groups)");
   ("deploymentMode", JStr "ON_CREATE");
   ("deploymentOrder", JNum 0);
   ("awsAccount", JObj [("awsAccountId", JStr account_id)]);
   ("awsRegion", JObj [("regionName", JStr region)])].

Definition nemo_tooling_config (nemo_tooling_blueprint_id region account_id : string) : dict :=
  [("environmentBlueprintId", JStr nemo_tooling_blueprint_id);
   ("name", JStr "NeMo Tooling");
   ("description", JStr "SageMaker domain with FSx and HyperPod cluster");
   ("deploymentMode", JStr "ON_CREATE");
   ("deploymentOrder", JNum 1);
   ("awsAccount", JObj [("awsAccountId", JStr account_id)]);
   ("awsRegion", JObj [("regionName", JStr region)])].

(** The two configuration dicts are objects shared between the local
    variables [tooling_config], [nemo_tooling_config] and the list
    [environment_configs], which is built before the ids are copied in.
    The store holds the objects; the list holds references into it. *)
Definition tooling_ref : nat := 0.
Definition nemo_tooling_ref : nat := 1.

(** [obj[k] = v] on the object behind reference [r] *)
Definition store_set (σ : list dict) (r : nat) (k : string) (v : json) : list dict :=
  match σ !! r with
  | Some d => <[r := dict_set d k v]> σ
  | None => σ
  end.

(** the list of dicts a call receives for a list of references *)
Definition deref_all (σ : list dict) (refs : list nat) : json :=
  JArr (omap (λ r, JObj <$> σ !! r) refs).

(** one iteration of the loop over the existing configurations *)
Definition preserve_id (tooling_blueprint_id nemo_tooling_blueprint_id : string)
    (ec : json) (σ : list dict) : list dict * option exn :=
  match ec with
  | JObj d =>
      let bp_id := dict_get_or d "environmentBlueprintId" JNull in
      let ec_id := dict_get_or d "id" JNull in
      if eq_str bp_id tooling_blueprint_id && truthy ec_id
      then (store_set σ tooling_ref "id" ec_id, None)
      else if eq_str bp_id nemo_tooling_blueprint_id && truthy ec_id
      then (store_set σ nemo_tooling_ref "id" ec_id, None)
      else (σ, None)
  | _ => (σ, Some (AttributeError "object has no attribute 'get'"))
  end.

Fixpoint preserve_ids (tooling_blueprint_id nemo_tooling_blueprint_id : string)
    (existing_configs : list json) (σ : list dict) : list dict * option exn :=
  match existing_configs with
  | [] => (σ, None)
  | ec :: rest =>
      match preserve_id tooling_blueprint_id nemo_tooling_blueprint_id ec σ with
      | (σ', None) => preserve_ids tooling_blueprint_id nemo_tooling_blueprint_id rest σ'
      | (σ', Some e) => (σ', Some e)
      end
  end.

(** ** Existing all-users grants *)

(** [existing_profiles.update(profiles)]: the targets are added in order.
    They are strings in the service model; at an element that is not a
    string the embedding stops with a [TypeError], where Python would add
    any hashable value. *)
Fixpoint set_update (acc : gset string) (items : list json) : gset string * option exn :=
  match items with
  | [] => (acc, None)
  | JStr s :: rest => set_update (acc ∪ {[s]}) rest
  | _ :: _ => (acc, Some (TypeError "expected str"))
  end.

(** the target list of [g] when [g] is an all-users grant *)
Definition all_users_profiles (g : json) : result (option json) :=
  rbind (py_get g "principal" (JObj [])) (λ principal,
  rbind (py_contains "user" principal) (λ has_user,
  if (has_user : bool) then
    rbind (py_index g "principal") (λ principal,
    rbind (py_index principal "user") (λ user,
    rbind (py_contains "allUsersGrantFilter" user) (λ all_users,
    if (all_users : bool) then
      rbind (py_get g "detail" (JObj [])) (λ detail,
      rbind (py_get detail "createProjectFromProjectProfile" (JObj [])) (λ create,
      rbind (py_get create "projectProfiles" (JArr [])) (λ profiles,
      inr (Some profiles))))
    else inr None)))
  else inr None)).

Inductive scan_status : Type :=
| ScanDone
| ScanFound
| ScanRaised (e : exn).

(** the loop over the grant list, with the set it has built when it stops *)
Fixpoint scan_grants (profile_id : string) (grants : list json) (existing_profiles : gset string)
  : gset string * scan_status :=
  match grants with
  | [] => (existing_profiles, ScanDone)
  | g :: rest =>
      match all_users_profiles g with
      | inl e => (existing_profiles, ScanRaised e)
      | inr None => scan_grants profile_id rest existing_profiles
      | inr (Some profiles) =>
          match py_iter profiles with
          | inl e => (existing_profiles, ScanRaised e)
          | inr items =>
              match set_update existing_profiles items with
              | (existing_profiles, Some e) => (existing_profiles, ScanRaised e)
              | (existing_profiles, None) =>
                  match py_contains profile_id profiles with
                  | inl e => (existing_profiles, ScanRaised e)
                  | inr true => (existing_profiles, ScanFound)
                  | inr false => scan_grants profile_id rest existing_profiles
                  end
              end
          end
      end
  end.

(** the arguments of the all-users grant *)
Definition all_users_grant_args (domain_id domain_unit_id : string) (all_profiles : list string)
  : dict :=
  [("domainIdentifier", JStr domain_id);
   ("entityIdentifier", JStr domain_unit_id);
   ("entityType", JStr "DOMAIN_UNIT");
   ("policyType", JStr "CREATE_PROJECT_FROM_PROJECT_PROFILE");
   ("principal", JObj [("user", JObj [("allUsersGrantFilter", JObj [])])]);
   ("detail",
    JObj [("createProjectFromProjectProfile",
           JObj [("includeChildDomainUnits", JBool true);
                 ("projectProfiles", JArr (JStr <$> all_profiles))])])].


Section Script.
Variable R : remote.
Variable H : host.

Definition get_clients (cfg : config) : M unit :=
  sdk R "boto3" "Session"
    [("profile_name", JStr (AWS_PROFILE cfg)); ("region_name", JStr (AWS_REGION cfg))];;
  sdk R "boto3" "client" [("service_name", JStr "datazone")];;
  sdk R "boto3" "client" [("service_name", JStr "s3")];;
  sdk R "boto3" "client" [("service_name", JStr "sts")];;
  ret tt.

Definition find_blueprint (domain_id blueprint_name : string) : M (option dict) :=
  try_except
    (ps <- sdk_pages R "datazone" "list_environment_blueprints"
             [("domainIdentifier", JStr domain_id); ("managed", JBool false)];;
     lift (find_stream blueprint_name ps))
    (λ e, print ("Warning: Could not list blueprints: " +:+ exn_str e);; ret None).

Definition find_project_profile (domain_id profile_name : string) : M (option dict) :=
  try_except
    (ps <- sdk_pages R "datazone" "list_project_profiles"
             [("domainIdentifier", JStr domain_id)];;
     lift (find_stream profile_name ps))
    (λ e, print ("Warning: Could not list project profiles: " +:+ exn_str e);; ret None).

Definition template_key : string := "blueprints/nemo-tooling-blueprint.yaml".

Definition upload_nemo_tooling_template (bucket_name region account_id : string) : M string :=
  (if template_exists H then ret tt
   else print ("Error: Template not found at " +:+ template_path H);; sys_exit 1);;
  try_bare
    (sdk R "s3" "head_bucket" [("Bucket", JStr bucket_name)];; ret tt)
    (print ("Creating bucket " +:+ bucket_name +:+ "...");;
     (if String.eqb region "us-east-1"
      then sdk R "s3" "create_bucket" [("Bucket", JStr bucket_name)]
      else sdk R "s3" "create_bucket"
             [("Bucket", JStr bucket_name);
              ("CreateBucketConfiguration", JObj [("LocationConstraint", JStr region)])]);;
     ret tt);;
  print ("Uploading template to s3://" +:+ bucket_name +:+ "/" +:+ template_key +:+ "...");;
  sdk R "s3" "upload_file"
    [("Filename", JStr (template_path H)); ("Bucket", JStr bucket_name);
     ("Key", JStr template_key)];;
  ret ("https://" +:+ bucket_name +:+ ".s3." +:+ region +:+ ".amazonaws.com/" +:+ template_key).

Definition blueprint_description : string :=
  "NeMo Tooling - SageMaker domain with FSx and HyperPod cluster for distributed AI training".

(** the falsy values of [existing] are [None] and the empty dict *)
Definition if_existing (existing : option dict) : option dict :=
  match existing with
  | Some ((_ :: _) as d) => Some d
  | _ => None
  end.

Definition create_or_update_nemo_tooling_blueprint
    (domain_id provisioning_role_arn : string) (manage_access_role_arn : option string)
    (region account_id : string) : M string :=
  let bucket_name := "nemo-hyperpod-templates-" +:+ account_id +:+ "-" +:+ region in
  template_url <- upload_nemo_tooling_template bucket_name region account_id;;
  let blueprint_name := "NeMo-Tooling" in
  existing <- find_blueprint domain_id blueprint_name;;
  blueprint_id <-
    match if_existing existing with
    | Some existing =>
        blueprint_id <- lift (rbind (dict_index existing "id") as_str);;
        print ("Blueprint '" +:+ blueprint_name +:+ "' exists (ID: " +:+ blueprint_id +:+ ")");;
        print "Updating blueprint...";;
        sdk R "datazone" "update_environment_blueprint"
          [("domainIdentifier", JStr domain_id);
           ("identifier", JStr blueprint_id);
           ("description", JStr blueprint_description);
           ("provisioningProperties",
            JObj [("cloudFormation", JObj [("templateUrl", JStr template_url)])]);
           ("userParameters", JArr get_nemo_tooling_user_parameters)];;
        print "✓ Blueprint updated";;
        ret blueprint_id
    | None =>
        print ("Creating blueprint '" +:+ blueprint_name +:+ "'...");;
        response <- sdk R "datazone" "create_environment_blueprint"
          [("domainIdentifier", JStr domain_id);
           ("name", JStr blueprint_name);
           ("description", JStr blueprint_description);
           ("provisioningProperties",
            JObj [("cloudFormation", JObj [("templateUrl", JStr template_url)])]);
           ("userParameters", JArr get_nemo_tooling_user_parameters)];;
        blueprint_id <- lift (rbind (dict_index response "id") as_str);;
        print ("✓ Blueprint created (ID: " +:+ blueprint_id +:+ ")");;
        ret blueprint_id
    end;;
  print ("Enabling blueprint in " +:+ region +:+ "...");;
  let config_params :=
    [("domainIdentifier", JStr domain_id);
     ("environmentBlueprintIdentifier", JStr blueprint_id);
     ("enabledRegions", JArr [JStr region]);
     ("provisioningRoleArn", JStr provisioning_role_arn)] in
  let config_params :=
    match manage_access_role_arn with
    | Some arn =>
        if truthy_str arn then dict_set config_params "manageAccessRoleArn" (JStr arn)
        else config_params
    | None => config_params
    end in
  try_bare
    (sdk R "datazone" "put_environment_blueprint_configuration" config_params;;
     print "✓ Blueprint enabled")
    (print "✓ Blueprint already enabled");;
  ret blueprint_id.

(** ** The managed Tooling blueprint *)

Definition get_tooling_blueprint_config (domain_id : string)
  : M (option string * option string) :=
  ps <- sdk_pages R "datazone" "list_environment_blueprints"
          [("domainIdentifier", JStr domain_id); ("managed", JBool true)];;
  tooling_id <- lift (scan_tooling (ps_pages ps) (ps_error ps) None);;
  if negb (truthy_opt tooling_id) then ret (None, None)
  else
    try_bare
      (config <- sdk R "datazone" "get_environment_blueprint_configuration"
                   [("domainIdentifier", JStr domain_id);
                    ("environmentBlueprintIdentifier", JStr (default "" tooling_id))];;
       arn <- lift (as_str_opt (dict_get config "manageAccessRoleArn"));;
       ret (tooling_id, arn))
      (ret (tooling_id, None)).

Definition get_tooling_blueprint_id (domain_id : string) : M (option string) :=
  r <- get_tooling_blueprint_config domain_id;;
  ret r.1.

(** ** Grants for the blueprint *)

Definition authorize_blueprint_for_domain_unit
    (domain_id blueprint_id domain_unit_id account_id : string) : M unit :=
  let entity_id := account_id +:+ ":" +:+ blueprint_id in
  try_except
    (sdk R "datazone" "add_policy_grant"
       (blueprint_grant_args domain_id entity_id "CREATE_ENVIRONMENT_PROFILE" domain_unit_id
          (JObj [("createEnvironmentProfile", JObj [("domainUnitId", JStr domain_unit_id)])]));;
     print "✓ CREATE_ENVIRONMENT_PROFILE grant added")
    (λ e,
       if contains "conflict" (lower (exn_str e))
       then print "✓ CREATE_ENVIRONMENT_PROFILE grant already exists"
       else print ("Warning: Could not add CREATE_ENVIRONMENT_PROFILE grant: " +:+ exn_str e));;
  try_except
    (sdk R "datazone" "add_policy_grant"
       (blueprint_grant_args domain_id entity_id "CREATE_ENVIRONMENT_FROM_BLUEPRINT"
          domain_unit_id
          (JObj [("createEnvironmentFromBlueprint", JObj [])]));;
     print "✓ CREATE_ENVIRONMENT_FROM_BLUEPRINT grant added")
    (λ e,
       if contains "conflict" (lower (exn_str e))
       then print "✓ CREATE_ENVIRONMENT_FROM_BLUEPRINT grant already exists"
       else print ("Warning: Could not add CREATE_ENVIRONMENT_FROM_BLUEPRINT grant: "
                   +:+ exn_str e)).

(** ** The project profile *)

Definition profile_description : string := "Project profile for NeMo Framework on HyperPod".

Definition create_or_update_project_profile
    (domain_id profile_name nemo_tooling_blueprint_id tooling_blueprint_id
     region account_id : string) : M string :=
  existing <- find_project_profile domain_id profile_name;;
  (* the two dicts live in a store; [environment_configs] holds references *)
  let σ := [tooling_config tooling_blueprint_id region account_id;
            nemo_tooling_config nemo_tooling_blueprint_id region account_id] in
  let environment_configs := [tooling_ref; nemo_tooling_ref] in
  match if_existing existing with
  | Some existing =>
      profile_id <- lift (rbind (dict_index existing "id") as_str);;
      print ("Project profile '" +:+ profile_name +:+ "' exists (ID: " +:+ profile_id +:+ ")");;
      σ <- try_except
             (profile_details <- sdk R "datazone" "get_project_profile"
                                   [("domainIdentifier", JStr domain_id);
                                    ("identifier", JStr profile_id)];;
              existing_configs <-
                lift (py_iter (dict_get_or profile_details "environmentConfigurations"
                                 (JArr [])));;
              match preserve_ids tooling_blueprint_id nemo_tooling_blueprint_id
                      existing_configs σ with
              | (σ', None) => ret σ'
              | (σ', Some e) =>
                  (* the assignments made before the error stay in place *)
                  print ("Warning: Could not get profile details: " +:+ exn_str e);; ret σ'
              end)
             (λ e, print ("Warning: Could not get profile details: " +:+ exn_str e);; ret σ);;
      print "Updating project profile...";;
      sdk R "datazone" "update_project_profile"
        [("domainIdentifier", JStr domain_id);
         ("identifier", JStr profile_id);
         ("description", JStr profile_description);
         ("environmentConfigurations", deref_all σ environment_configs)];;
      print "✓ Project profile updated";;
      ret profile_id
  | None =>
      print ("Creating project profile '" +:+ profile_name +:+ "'...");;
      response <- sdk R "datazone" "create_project_profile"
        [("domainIdentifier", JStr domain_id);
         ("name", JStr profile_name);
         ("description", JStr profile_description);
         ("environmentConfigurations", deref_all σ environment_configs);
         ("status", JStr "ENABLED")];;
      profile_id <- lift (rbind (dict_index response "id") as_str);;
      print ("✓ Project profile created (ID: " +:+ profile_id +:+ ")");;
      ret profile_id
  end.

(** ** The all-users grant *)

Definition authorize_all_users (domain_id profile_id : string) : M unit :=
  print "Authorizing all users for project profile...";;
  domain_unit_id <-
    try_except
      (profile <- sdk R "datazone" "get_project_profile"
                    [("domainIdentifier", JStr domain_id); ("identifier", JStr profile_id)];;
       domain_unit_id <- lift (as_str_opt (dict_get profile "domainUnitId"));;
       if negb (truthy_opt domain_unit_id)
       then print "Warning: No domain unit ID found on profile";; ret None
       else ret domain_unit_id)
      (λ e, print ("Warning: Could not get profile details: " +:+ exn_str e);; ret None);;
  match domain_unit_id with
  | None => ret tt
  | Some domain_unit_id =>
      scanned <-
        try_except
          (grants <- sdk R "datazone" "list_policy_grants"
                       [("domainIdentifier", JStr domain_id);
                        ("entityType", JStr "DOMAIN_UNIT");
                        ("entityIdentifier", JStr domain_unit_id);
                        ("policyType", JStr "CREATE_PROJECT_FROM_PROJECT_PROFILE")];;
           grant_list <- lift (py_iter (dict_get_or grants "grantList" (JArr [])));;
           match scan_grants profile_id grant_list ∅ with
           | (existing_profiles, ScanFound) =>
               print "✓ Authorization already exists";; ret (existing_profiles, true)
           | (existing_profiles, ScanDone) => ret (existing_profiles, false)
           | (existing_profiles, ScanRaised e) =>
               (* what the loop added before the error stays in the set *)
               print ("Warning: Could not check existing grants: " +:+ exn_str e);;
               ret (existing_profiles, false)
           end)
          (λ e, print ("Warning: Could not check existing grants: " +:+ exn_str e);;
                ret (∅, false));;
      let '(existing_profiles, returned) := scanned in
      if (returned : bool) then ret tt
      else
        (* [list(set)]: Python leaves the order open, [elements] fixes one *)
        let all_profiles := elements (existing_profiles ∪ {[profile_id]}) in
        try_except
          (sdk R "datazone" "add_policy_grant"
             (all_users_grant_args domain_id domain_unit_id all_profiles);;
           print "✓ All users authorized")
          (λ e,
             if contains "already exists" (lower (exn_str e))
                || contains "conflict" (lower (exn_str e))
             then print "✓ Authorization already exists"
             else print ("Warning: Could not add authorization: " +:+ exn_str e))
  end.

(** ** The entry point *)

Definition banner : string := repeat_str 60 "=".

Definition main : M unit :=
  print banner;;
  print "NeMo Tooling Blueprint Setup";;
  print banner;;
  config <- get_config H;;
  let domain_id := DOMAIN_ID config in
  get_clients config;;
  identity <- sdk R "sts" "get_caller_identity" [];;
  account_id <- lift (rbind (dict_index identity "Account") as_str);;
  let provisioning_role_arn :=
    "arn:aws:iam::" +:+ account_id +:+ ":role/service-role/AmazonSageMakerProvisioning-"
    +:+ account_id in
  let region := AWS_REGION config in
  let profile_name := PROJECT_PROFILE_NAME config in
  print (nl +:+ "Configuration:");;
  print ("  Domain ID: " +:+ domain_id);;
  print ("  Region: " +:+ region);;
  print ("  Account: " +:+ account_id);;
  print ("  Profile: " +:+ profile_name);;
  print "";;
  print "Step 1: Finding Tooling blueprint...";;
  tooling <- get_tooling_blueprint_config domain_id;;
  let '(tooling_blueprint_id, manage_access_role_arn) := tooling in
  (if negb (truthy_opt tooling_blueprint_id)
   then print "Error: Tooling blueprint not found. Ensure domain is properly configured.";;
        sys_exit 1
   else ret tt);;
  let tooling_blueprint_id := default "" tooling_blueprint_id in
  print ("✓ Tooling blueprint ID: " +:+ tooling_blueprint_id);;
  (if truthy_opt manage_access_role_arn
   then print ("✓ ManageAccessRole: " +:+ default "" manage_access_role_arn)
   else ret tt);;
  print (nl +:+ "Step 2: Setting up NeMo-Tooling blueprint...");;
  nemo_tooling_blueprint_id <-
    create_or_update_nemo_tooling_blueprint domain_id provisioning_role_arn
      manage_access_role_arn region account_id;;
  print (nl +:+ "Step 3: Authorizing blueprints for domain unit...");;
  domain <- sdk R "datazone" "get_domain" [("identifier", JStr domain_id)];;
  root_domain_unit_id <- lift (as_str_opt (dict_get domain "rootDomainUnitId"));;
  (if truthy_opt root_domain_unit_id
   then authorize_blueprint_for_domain_unit domain_id nemo_tooling_blueprint_id
          (default "" root_domain_unit_id) account_id
   else print "Warning: Could not find root domain unit ID");;
  print (nl +:+ "Step 4: Setting up project profile...");;
  profile_id <-
    create_or_update_project_profile domain_id profile_name nemo_tooling_blueprint_id
      tooling_blueprint_id region account_id;;
  print (nl +:+ "Step 5: Authorizing users...");;
  authorize_all_users domain_id profile_id;;
  print (nl +:+ banner);;
  print "Setup complete!";;
  print banner;;
  print (nl +:+ "NeMo-Tooling Blueprint ID: " +:+ nemo_tooling_blueprint_id);;
  print ("Project Profile ID: " +:+ profile_id);;
  print (nl +:+ "Next steps:");;
  print "  1. Go to SageMaker Unified Studio";;
  print ("  2. Create a new project using '" +:+ profile_name +:+ "'");;
  print "  3. The HyperPod cluster will be provisioned automatically".
End Script.

End SetupBlueprint.

(** * setup_domain_connection_role.py *)

Module DomainConnectionRole.

Definition ROLE_NAME : string := "DataZoneDomainConnectionCreator".

(** [except ClientError as e]: only the SDK's [ClientError] (the
    exceptions that carry an error code) is caught *)
Definition try_client_error {A} (body : M A) (handler : exn → string → M A) : M A :=
  λ h,
    match body h with
    | (Raise e, l1) =>
        match exn_code e with
        | Some code => let '(o, l2) := handler e code (h ++ l1) in (o, l1 ++ l2)
        | None => (Raise e, l1)
        end
    | r => r
    end.

Definition role_pattern (account_id : string) : string :=
  "arn:aws:iam::" +:+ account_id +:+ ":role/DataZone-Env-*-ConnectionCreatorRole-*".

Definition trust_policy (account_id domain_id : string) : json :=
  JObj [("Version", JStr "2012-10-17");
        ("Statement",
         JArr [JObj [("Effect", JStr "Allow");
                     ("Principal",
                      JObj [("AWS", JStr ("arn:aws:iam::" +:+ account_id +:+ ":root"))]);
                     ("Action", JArr [JStr "sts:AssumeRole"; JStr "sts:TagSession"]);
                     ("Condition",
                      JObj [("ArnLike",
                             JObj [("aws:PrincipalArn", JStr (role_pattern account_id))]);
                            ("StringLike",
                             JObj [("aws:RequestTag/datazone:projectId", JStr "*")]);
                            ("StringEquals",
                             JObj [("aws:RequestTag/datazone:domainId", JStr domain_id)])])]])].

Definition policy_doc (account_id domain_id : string) : json :=
  JObj [("Version", JStr "2012-10-17");
        ("Statement",
         JArr [JObj [("Sid", JStr "DomainScoped");
                     ("Effect", JStr "Allow");
                     ("Action",
                      JArr [JStr "datazone:CreateUserProfile"; JStr "datazone:GetUserProfile";
                            JStr "datazone:CreateProjectMembership";
                            JStr "datazone:DeleteProjectMembership"]);
                     ("Resource", JStr "*")];
               JObj [("Sid", JStr "IAMValidation");
                     ("Effect", JStr "Allow");
                     ("Action", JArr [JStr "iam:GetRole"]);
                     ("Resource",
                      JStr ("arn:aws:iam::" +:+ account_id
                            +:+ ":role/DataZone-Env-*-ConnectionCreatorRole-*"))];
               JObj [("Sid", JStr "ProjectScoped");
                     ("Effect", JStr "Allow");
                     ("Action",
                      JArr [JStr "datazone:CreateConnection"; JStr "datazone:GetConnection";
                            JStr "datazone:DeleteConnection"; JStr "datazone:UpdateConnection"]);
                     ("Resource", JStr "*");
                     ("Condition",
                      JObj [("StringEquals",
                             JObj [("datazone:domainId", JStr domain_id);
                                   ("datazone:projectId",
                                    JStr "${aws:PrincipalTag/datazone:projectId}")])])]])].

(** [response["Role"]["Arn"]] *)
Definition role_arn_of (response : dict) : result string :=
  rbind (dict_index response "Role") (λ role, rbind (py_index role "Arn") as_str).

Section Script.
Variable R : remote.
(** [os.environ] *)
Variable environ : gmap string string.
(** [json.dumps], the standard library's serializer *)
Variable json_dumps : json → string.

Definition get_clients : M unit :=
  sdk R "boto3" "Session"
    [("profile_name", from_option JStr JNull (environ !! "AWS_PROFILE"));
     ("region_name", JStr (default "us-east-1" (environ !! "AWS_REGION")))];;
  sdk R "boto3" "client" [("service_name", JStr "iam")];;
  sdk R "boto3" "client" [("service_name", JStr "datazone")];;
  sdk R "boto3" "client" [("service_name", JStr "sts")];;
  ret tt.

Definition get_account_id : M string :=
  identity <- sdk R "sts" "get_caller_identity" [];;
  lift (rbind (dict_index identity "Account") as_str).

Definition create_role (account_id domain_id : string) : M string :=
  let trust_policy := trust_policy account_id domain_id in
  print ("Allowed caller pattern: " +:+ role_pattern account_id);;
  try_client_error
    (response <- sdk R "iam" "create_role"
       [("RoleName", JStr ROLE_NAME);
        ("AssumeRolePolicyDocument", JStr (json_dumps trust_policy));
        ("Description",
         JStr "Shared role for blueprint Lambdas to create DataZone connections")];;
     print ("Created role: " +:+ ROLE_NAME);;
     lift (role_arn_of response))
    (λ e code,
       if String.eqb code "EntityAlreadyExists" then
         print ("Role " +:+ ROLE_NAME +:+ " already exists, updating trust policy...");;
         sdk R "iam" "update_assume_role_policy"
           [("RoleName", JStr ROLE_NAME);
            ("PolicyDocument", JStr (json_dumps trust_policy))];;
         response <- sdk R "iam" "get_role" [("RoleName", JStr ROLE_NAME)];;
         lift (role_arn_of response)
       else raise e).

Definition attach_policy (account_id domain_id : string) : M unit :=
  sdk R "iam" "put_role_policy"
    [("RoleName", JStr ROLE_NAME);
     ("PolicyName", JStr "DataZoneConnectionCreatorPolicy");
     ("PolicyDocument", JStr (json_dumps (policy_doc account_id domain_id)))];;
  print "Attached inline policy".

Definition create_user_profile (domain_id role_arn : string) : M string :=
  try_client_error
    (response <- sdk R "datazone" "create_user_profile"
       [("domainIdentifier", JStr domain_id);
        ("userIdentifier", JStr role_arn);
        ("userType", JStr "IAM_ROLE")];;
     id <- lift (rbind (dict_index response "id") as_str);;
     print ("Created user profile: " +:+ id);;
     ret id)
    (λ e code,
       if contains "existing" (lower (exn_str e))
          || bool_decide (code ∈ ["ConflictException"; "ValidationException"])
       then
         print "User profile already exists";;
         response <- sdk R "datazone" "get_user_profile"
           [("domainIdentifier", JStr domain_id);
            ("userIdentifier", JStr role_arn);
            ("type", JStr "IAM")];;
         lift (rbind (dict_index response "id") as_str)
       else raise e).

Definition add_as_domain_owner (domain_id root_unit_id role_arn : string) : M unit :=
  try_client_error
    (sdk R "datazone" "add_entity_owner"
       [("domainIdentifier", JStr domain_id);
        ("entityType", JStr "DOMAIN_UNIT");
        ("entityIdentifier", JStr root_unit_id);
        ("owner", JObj [("user", JObj [("userIdentifier", JStr role_arn)])])];;
     print "Added as root domain owner")
    (λ e code,
       if String.eqb code "ValidationException"
          && contains "already exists" (lower (exn_str e))
       then print "Already a domain owner"
       else raise e).

(** [main] returns the status that the script passes to [exit] *)
Definition main : M Z :=
  let domain_id := environ !! "DOMAIN_ID" in
  if negb (truthy_opt domain_id) then print "Error: DOMAIN_ID not set";; ret 1%Z
  else
    let domain_id := default "" domain_id in
    print ("Domain: " +:+ domain_id);;
    get_clients;;
    account_id <- get_account_id;;
    print ("Account: " +:+ account_id);;
    role_arn <- create_role account_id domain_id;;
    attach_policy account_id domain_id;;
    domain <- sdk R "datazone" "get_domain" [("identifier", JStr domain_id)];;
    root_unit_id <- lift (rbind (dict_index domain "rootDomainUnitId") as_str);;
    print ("Root domain unit: " +:+ root_unit_id);;
    create_user_profile domain_id role_arn;;
    add_as_domain_owner domain_id root_unit_id role_arn;;
    print (nl +:+ "Done! Role ARN: " +:+ role_arn);;
    ret 0%Z.

Definition script : M unit := status <- main;; sys_exit status.
End Script.

End DomainConnectionRole.

(** * Vocabulary of the properties *)

(** ** Resource lookup *)

Definition named (name : string) (d : dict) : bool :=
  eq_str (dict_get_or d "name" JNull) name.

(** the first resource called [name] in a listing given page by page *)
Definition first_listed (name : string) (listing : list (list dict)) : option dict :=
  List.find (named name) (List.concat listing).

(** the pages of [ps] carry the resources of [listing], page by page *)
Definition delivers (ps : page_stream) (listing : list (list dict)) : Prop :=
  Forall2 (λ page items, dict_get page "items" = Some (JArr (JObj <$> items)))
    (ps_pages ps) listing.

Definition list_blueprints_call (domain_id : string) : call :=
  MkCall "datazone" "list_environment_blueprints"
    [("domainIdentifier", JStr domain_id); ("managed", JBool false)].

Definition list_profiles_call (domain_id : string) : call :=
  MkCall "datazone" "list_project_profiles" [("domainIdentifier", JStr domain_id)].

(** ** JSON paths *)

(** [j[k1][k2]...] where every step is a dict lookup *)
Fixpoint at_path (j : json) (path : list string) : option json :=
  match path with
  | [] => Some j
  | k :: rest =>
      match j with
      | JObj d => dict_get d k ≫= λ v, at_path v rest
      | _ => None
      end
  end.


(** * Judgements on runs *)

(** every run of [m], from any past, appends a log that satisfies [G] *)
Definition emits {A} (G : log → Prop) (m : M A) : Prop := ∀ h, G (m h).2.

(** properties of logs that hold of the empty log and of concatenations *)
Class Closed (G : log → Prop) : Prop := {
  closed_nil : G [];
  closed_app l1 l2 : G l1 → G l2 → G (l1 ++ l2)
}.

(** a property of entries that constrains the calls only *)
Definition on_calls (P : call → Prop) (e : entry) : Prop :=
  match e with
  | Called c _ => P c
  | Paginated c _ => P c
  | Printed _ => True
  end.

(** ** The trust policy on the wire *)


(** what a lookup by [name] yields on a well-formed listing: the first
    resource of that name if the pages delivered hold one, else nothing,
    with a warning if the listing ended in an error *)
Definition lookup_result (c : call) (ps : page_stream) (warning name : string)
    (listing : list (list dict)) : outcome (option dict) * log :=
  match first_listed name listing, ps_error ps with
  | Some d, _ => (Ret (Some d), [Paginated c ps])
  | None, None => (Ret None, [Paginated c ps])
  | None, Some e => (Ret None, [Paginated c ps; Printed (warning +:+ exn_str e)])
  end.

(** ** Policy grants *)

(** The grants of one entity and policy type, as the data model has
    them: a principal selector and the target profiles of the detail
    payload. *)
Inductive principal : Type :=
| AllUsers
| User (user_id : string)
| Project (designation : string).

Record policy_grant : Type := MkGrant {
  grant_principal : principal;
  grant_profiles : list string
}.

Definition is_all_users (g : policy_grant) : bool :=
  match grant_principal g with
  | AllUsers => true
  | _ => false
  end.

(** The grant [g] of a listing reads as [pg], whatever further members
    its objects have (a grant id, its creation time and author, a filter)
    and in whatever order: its principal selects all users exactly when
    [pg] does (a member "user" that has the member
    "allUsersGrantFilter"), and an all-users grant names the target
    profiles of [pg]. *)
Definition lists_grant (g : json) (pg : policy_grant) : Prop :=
  ∃ d p,
    g = JObj d ∧
    dict_get d "principal" = Some (JObj p) ∧
    if is_all_users pg then
      (∃ u, dict_get p "user" = Some (JObj u) ∧ is_Some (dict_get u "allUsersGrantFilter")) ∧
      at_path g ["detail"; "createProjectFromProjectProfile"; "projectProfiles"] =
        Some (JArr (JStr <$> grant_profiles pg))
    else
      dict_get p "user" = None ∨
      ∃ u, dict_get p "user" = Some (JObj u) ∧ dict_get u "allUsersGrantFilter" = None.

(** the answer to a listing shows the grants [gs]; an answer without a
    list shows none, and a token for a further page is not part of what
    it shows *)
Definition answer_shows (grants : dict) (gs : list policy_grant) : Prop :=
  ∃ gl, dict_get_or grants "grantList" (JArr []) = JArr gl ∧ Forall2 lists_grant gl gs.

(** the profiles that the all-users grants of [gs] authorize *)
Fixpoint authorized (gs : list policy_grant) : gset string :=
  match gs with
  | [] => ∅
  | g :: rest =>
      if is_all_users g then list_to_set (grant_profiles g) ∪ authorized rest
      else authorized rest
  end.

Definition get_profile_call (domain_id profile_id : string) : call :=
  MkCall "datazone" "get_project_profile"
    [("domainIdentifier", JStr domain_id); ("identifier", JStr profile_id)].

Definition list_grants_call (domain_id domain_unit_id : string) : call :=
  MkCall "datazone" "list_policy_grants"
    [("domainIdentifier", JStr domain_id);
     ("entityType", JStr "DOMAIN_UNIT");
     ("entityIdentifier", JStr domain_unit_id);
     ("policyType", JStr "CREATE_PROJECT_FROM_PROJECT_PROFILE")].

Definition all_users_grant_call (domain_id domain_unit_id : string) (profiles : list string)
  : call :=
  MkCall "datazone" "add_policy_grant"
    (SetupBlueprint.all_users_grant_args domain_id domain_unit_id profiles).

(** the target profiles a grant call carries *)
Definition profiles_sent (c : call) : option json :=
  at_path (JObj (kwargs c)) ["detail"; "createProjectFromProjectProfile"; "projectProfiles"].

(** the result [r] of a continuation, after the entries [l] that came before it *)
Definition after {A} (l : log) (r : outcome A * log) : outcome A * log :=
  (r.1, l ++ r.2).

(** ** Mutating operations *)

(** the operations of the two scripts that change remote state *)
Definition mutating_ops : list string :=
  ["create_bucket"; "upload_file";
   "create_environment_blueprint"; "update_environment_blueprint";
   "put_environment_blueprint_configuration"; "add_policy_grant";
   "create_project_profile"; "update_project_profile";
   "create_role"; "update_assume_role_policy"; "put_role_policy";
   "create_user_profile"; "add_entity_owner"].

Definition is_mutating (c : call) : bool := bool_decide (op c ∈ mutating_ops).

Definition mutations (l : log) : list call := List.filter is_mutating (calls l).

(** ** Environment configurations of a profile *)

(** the id previously assigned to the configuration of blueprint [bp]:
    the id of the last existing configuration that references [bp] and
    has an id *)
Fixpoint previous_id (bp : string) (existing_configs : list dict) : option json :=
  match existing_configs with
  | [] => None
  | ec :: rest =>
      match previous_id bp rest with
      | Some i => Some i
      | None =>
          if eq_str (dict_get_or ec "environmentBlueprintId" JNull) bp
             && truthy (dict_get_or ec "id" JNull)
          then Some (dict_get_or ec "id" JNull)
          else None
      end
  end.

(** a desired configuration with the id it carries, if any *)
Definition with_id (d : dict) (i : option json) : dict :=
  match i with
  | Some v => d ++ [("id", v)]
  | None => d
  end.

Definition update_profile_call (domain_id profile_id : string) (configs : json) : call :=
  MkCall "datazone" "update_project_profile"
    [("domainIdentifier", JStr domain_id);
     ("identifier", JStr profile_id);
     ("description", JStr SetupBlueprint.profile_description);
     ("environmentConfigurations", configs)].

Definition is_profile_write (c : call) : bool :=
  String.eqb (op c) "create_project_profile" || String.eqb (op c) "update_project_profile".

(** the base Tooling configuration first with deployment order 0, then
    the NeMo Tooling configuration with deployment order 1 *)
Definition base_then_nemo (tooling_blueprint_id nemo_tooling_blueprint_id : string)
    (configs : json) : Prop :=
  ∃ c0 c1,
    configs = JArr [JObj c0; JObj c1] ∧
    dict_get c0 "environmentBlueprintId" = Some (JStr tooling_blueprint_id) ∧
    dict_get c0 "name" = Some (JStr "Tooling") ∧
    dict_get c0 "deploymentOrder" = Some (JNum 0) ∧
    dict_get c1 "environmentBlueprintId" = Some (JStr nemo_tooling_blueprint_id) ∧
    dict_get c1 "name" = Some (JStr "NeMo Tooling") ∧
    dict_get c1 "deploymentOrder" = Some (JNum 1).

(** a call that writes the profile carries the two configurations in
    the fixed order *)
Definition sends_base_then_nemo (tooling_blueprint_id nemo_tooling_blueprint_id : string)
    (c : call) : Prop :=
  is_profile_write c = true →
  ∃ configs,
    dict_get (kwargs c) "environmentConfigurations" = Some configs ∧
    base_then_nemo tooling_blueprint_id nemo_tooling_blueprint_id configs.

(** how many calls of a log satisfy [W] *)
Definition count_calls (W : call → bool) (l : log) : nat :=
  List.length (List.filter W (calls l)).

(** a run makes at most one call that satisfies [W], and exactly one if
    it returns *)
Definition once_if_returns {A} (W : call → bool) (r : outcome A * log) : Prop :=
  count_calls W r.2 ≤ 1 ∧ ∀ a, r.1 = Ret a → count_calls W r.2 = 1.

(** [d] with the key "id" set when there is a value for it *)
Definition set_id (d : dict) (i : option json) : dict :=
  match i with
  | Some v => dict_set d "id" v
  | None => d
  end.

(** the store holds the two desired configurations, up to the key "id" *)
Definition store_ok (tooling nemo region account : string) (σ : list dict) : Prop :=
  ∃ d0 d1,
    σ = [d0; d1] ∧
    (∀ k, k ≠ "id" →
       dict_get d0 k = dict_get (SetupBlueprint.tooling_config tooling region account) k) ∧
    (∀ k, k ≠ "id" →
       dict_get d1 k = dict_get (SetupBlueprint.nemo_tooling_config nemo region account) k).

(** ** Update calls *)

(** the arguments an update call carries, by operation *)
Definition update_carries (c : call) : Prop :=
  (op c = "update_environment_blueprint" →
   dict_keys (kwargs c) =
     ["domainIdentifier"; "identifier"; "description"; "provisioningProperties";
      "userParameters"]) ∧
  (op c = "update_project_profile" →
   dict_keys (kwargs c) =
     ["domainIdentifier"; "identifier"; "description"; "environmentConfigurations"]).

Definition is_update (c : call) : Prop :=
  op c = "update_environment_blueprint" ∨ op c = "update_project_profile".

(** ** Failures *)

Definition is_grant (c : call) : bool := String.eqb (op c) "add_policy_grant".

(** whether the handler of a grant call takes the error for "the grant
    is there already": the all-users grant looks for two markers, the
    blueprint grants for one *)
Definition benign_grant_failure (c : call) (e : exn) : bool :=
  if eq_str (dict_get_or (kwargs c) "policyType" JNull) "CREATE_PROJECT_FROM_PROJECT_PROFILE"
  then contains "already exists" (lower (exn_str e)) || contains "conflict" (lower (exn_str e))
  else contains "conflict" (lower (exn_str e)).

(** the line printed when the failure is taken for an existing grant *)
Definition grant_exists_line (c : call) : string :=
  match dict_get_or (kwargs c) "policyType" JNull with
  | JStr policy =>
      if String.eqb policy "CREATE_PROJECT_FROM_PROJECT_PROFILE"
      then "✓ Authorization already exists"
      else "✓ " +:+ policy +:+ " grant already exists"
  | _ => ""
  end.

(** the line printed otherwise; it ends with [str(e)] *)
Definition grant_warning_line (c : call) (e : exn) : string :=
  match dict_get_or (kwargs c) "policyType" JNull with
  | JStr policy =>
      if String.eqb policy "CREATE_PROJECT_FROM_PROJECT_PROFILE"
      then "Warning: Could not add authorization: " +:+ exn_str e
      else "Warning: Could not add " +:+ policy +:+ " grant: " +:+ exn_str e
  | _ => ""
  end.

(** the line printed after a grant call failed *)
Definition grant_failure_line (c : call) (e : exn) : string :=
  if benign_grant_failure c e then grant_exists_line c else grant_warning_line c e.

(** every failed grant call of the log is followed at once by the line
    that reports it *)
Fixpoint failed_grants_reported (l : log) : Prop :=
  match l with
  | [] => True
  | Called c (inl e) :: rest =>
      (is_grant c = true → ∃ rest', rest = Printed (grant_failure_line c e) :: rest') ∧
      failed_grants_reported rest
  | _ :: rest => failed_grants_reported rest
  end.





Definition create_role_call (json_dumps : json → string) (account_id domain_id : string) : call :=
  MkCall "iam" "create_role"
    [("RoleName", JStr DomainConnectionRole.ROLE_NAME);
     ("AssumeRolePolicyDocument",
      JStr (json_dumps (DomainConnectionRole.trust_policy account_id domain_id)));
     ("Description", JStr "Shared role for blueprint Lambdas to create DataZone connections")].

Definition update_trust_call (json_dumps : json → string) (account_id domain_id : string)
  : call :=
  MkCall "iam" "update_assume_role_policy"
    [("RoleName", JStr DomainConnectionRole.ROLE_NAME);
     ("PolicyDocument",
      JStr (json_dumps (DomainConnectionRole.trust_policy account_id domain_id)))].




(** a failed call that satisfies [P] is the last entry of the log, and
    the run ends by raising its error *)
Definition aborts_on {A} (P : call → bool) (r : outcome A * log) : Prop :=
  ∀ l1 c e l2, r.2 = l1 ++ Called c (inl e) :: l2 → P c = true → l2 = [] ∧ r.1 = Raise e.

Definition aborting {A} (P : call → bool) (m : M A) : Prop := ∀ h, aborts_on P (m h).

(** *** The two error-handling claims, as stated *)





(** *** The merging claim and the identity claim, as stated *)

(** the domain unit holds the grants [gs]: the service shows them in
    answer to a listing, at some moment *)
Definition unit_holds (R : remote) (domain_id domain_unit_id : string)
    (gs : list policy_grant) : Prop :=
  ∃ h0 grants,
    invoke R h0 (list_grants_call domain_id domain_unit_id) = inr grants ∧
    answer_shows grants gs.

(** with the grants [gs] in place on the domain unit of the profile, a
    run sends nothing when the desired profile is authorized, and else
    one grant whose targets are those authorized before and the desired
    profile *)
Definition merges_with_existing_grants (R : remote) (domain_id profile_id : string)
    (h : log) : Prop :=
  ∀ profile du gs,
    invoke R (remote_view h) (get_profile_call domain_id profile_id) = inr profile →
    dict_get profile "domainUnitId" = Some (JStr du) → du ≠ "" →
    unit_holds R domain_id du gs →
    let run := SetupBlueprint.authorize_all_users R domain_id profile_id h in
    (profile_id ∈ authorized gs → mutations run.2 = []) ∧
    (profile_id ∉ authorized gs →
     ∃ sent,
       mutations run.2 = [all_users_grant_call domain_id du sent] ∧
       list_to_set sent = authorized gs ∪ ({[profile_id]} : gset string)).

(** the profile has the configurations [ecs]: the service shows them in
    answer to a reading of its details, at some moment *)
Definition profile_has (R : remote) (domain_id profile_id : string) (ecs : list dict) : Prop :=
  ∃ h0 details,
    invoke R h0 (get_profile_call domain_id profile_id) = inr details ∧
    dict_get details "environmentConfigurations" = Some (JArr (JObj <$> ecs)).

(** the call carries two configurations, each with the id previously
    assigned to the configuration of its blueprint, if there is one *)
Definition carries_previous_ids (ecs : list dict) (c : call) : Prop :=
  ∃ c0 c1,
    dict_get (kwargs c) "environmentConfigurations" = Some (JArr [JObj c0; JObj c1]) ∧
    ∀ d bp i,
      d ∈ [c0; c1] → dict_get d "environmentBlueprintId" = Some (JStr bp) →
      previous_id bp ecs = Some i → dict_get d "id" = Some i.

(** every update of a profile that has the configurations [ecs] carries
    the ids previously assigned *)
Definition preserves_existing_ids {A} (R : remote) (domain_id : string)
    (r : outcome A * log) : Prop :=
  ∀ profile_id ecs c a,
    profile_has R domain_id profile_id ecs →
    Called c a ∈ r.2 → op c = "update_project_profile" →
    dict_get (kwargs c) "identifier" = Some (JStr profile_id) →
    carries_previous_ids ecs c.

(** * Scenarios *)

Module Scenario.
Import SetupBlueprint.

Definition env_full : gmap string string :=
  <["AWS_REGION" := "us-west-2"]> (<["DOMAIN_ID" := "dzd_1"]> ∅).

Definition host_full : host :=
  {| environ := env_full;
     template_path := "/repo/blueprints/nemo-tooling-blueprint.yaml";
     template_exists := true |}.

Definition host_no_region : host :=
  {| environ := <["DOMAIN_ID" := "dzd_1"]> ∅;
     template_path := "/repo/blueprints/nemo-tooling-blueprint.yaml";
     template_exists := true |}.

Definition tooling_page : dict :=
  [("items", JArr [JObj [("name", JStr "Tooling"); ("id", JStr "bp-tooling")]])].

Definition all_users_grant (profiles : list string) : json :=
  JObj [("principal", JObj [("user", JObj [("allUsersGrantFilter", JObj [])])]);
        ("detail",
         JObj [("createProjectFromProjectProfile",
                JObj [("includeChildDomainUnits", JBool true);
                      ("projectProfiles", JArr (JStr <$> profiles))])])].

(** A domain on its first run: only the managed Tooling blueprint exists,
    every call succeeds, and an all-users grant for P1 and P2 is in
    place. *)
Definition fresh_domain : remote :=
  {| invoke := λ _ c,
       if String.eqb (op c) "get_caller_identity" then inr [("Account", JStr "111122223333")]
       else if String.eqb (op c) "create_environment_blueprint" then inr [("id", JStr "bp-nemo")]
       else if String.eqb (op c) "get_domain" then inr [("rootDomainUnitId", JStr "root")]
       else if String.eqb (op c) "create_project_profile" then inr [("id", JStr "prof-1")]
       else if String.eqb (op c) "get_project_profile" then inr [("domainUnitId", JStr "root")]
       else if String.eqb (op c) "list_policy_grants"
       then inr [("grantList", JArr [all_users_grant ["P1"; "P2"]])]
       else inr [];
     paginate := λ _ c,
       if String.eqb (op c) "list_environment_blueprints"
       then match dict_get (kwargs c) "managed" with
            | Some (JBool true) => MkPages [tooling_page] None
            | _ => MkPages [] None
            end
       else MkPages [] None |}.

Definition root_profile : dict := [("domainUnitId", JStr "root")].

Definition existing_grants : list policy_grant :=
  [MkGrant (Project "CONTRIBUTOR") ["P9"]; MkGrant AllUsers ["P1"; "P2"]].

(** the two grants as a listing shows them, with their further members *)
Definition listed_grants : list json :=
  [JObj [("createdAt", JStr "2025-05-06T10:00:00Z");
         ("createdBy", JStr "user-0");
         ("detail",
          JObj [("createProjectFromProjectProfile",
                 JObj [("includeChildDomainUnits", JBool true);
                       ("projectProfiles", JArr [JStr "P9"])])]);
         ("grantId", JStr "grant-1");
         ("principal",
          JObj [("project",
                 JObj [("projectDesignation", JStr "CONTRIBUTOR");
                       ("projectGrantFilter",
                        JObj [("domainUnitFilter",
                               JObj [("domainUnit", JStr "root");
                                     ("includeChildDomainUnits", JBool true)])])])])];
   JObj [("createdAt", JStr "2025-05-06T10:05:00Z");
         ("createdBy", JStr "user-0");
         ("detail",
          JObj [("createProjectFromProjectProfile",
                 JObj [("includeChildDomainUnits", JBool true);
                       ("projectProfiles", JArr [JStr "P1"; JStr "P2"])])]);
         ("grantId", JStr "grant-2");
         ("principal", JObj [("user", JObj [("allUsersGrantFilter", JObj [])])])]].

Definition grants_answer : dict := [("grantList", JArr listed_grants)].

(** A domain whose root unit carries an all-users grant for P1 and P2. *)
Definition granted_domain : remote :=
  {| invoke := λ _ c,
       if String.eqb (op c) "get_project_profile" then inr root_profile
       else if String.eqb (op c) "list_policy_grants" then inr grants_answer
       else inr [];
     paginate := λ _ _, MkPages [] None |}.

(** whether the operation was asked for before *)
Definition asked_before (operation : string) (h : log) : bool :=
  existsb (λ e, match e with
                | Called c _ => String.eqb (op c) operation
                | _ => false
                end) h.

Definition listing_throttled : exn :=
  MkExn (Some "ThrottlingException")
    "An error occurred (ThrottlingException) when calling the ListPolicyGrants operation: Rate exceeded".

(** The same domain under load: the first listing of the grants is
    throttled, a later one is answered. *)
Definition granted_domain_throttled : remote :=
  {| invoke := λ h c,
       if String.eqb (op c) "list_policy_grants" && negb (asked_before "list_policy_grants" h)
       then inl listing_throttled
       else invoke granted_domain h c;
     paginate := paginate granted_domain |}.

Definition listed_profile : dict := [("id", JStr "prof-1"); ("name", JStr "NeMo-HyperPod-Profile")].

Definition profile_details : dict :=
  [("id", JStr "prof-1");
   ("domainUnitId", JStr "root");
   ("environmentConfigurations",
    JArr (JObj <$> [[("id", JStr "E0"); ("environmentBlueprintId", JStr "bp-tooling")];
                    [("id", JStr "E1"); ("environmentBlueprintId", JStr "bp-nemo")]]))].

(** A domain on a later run: the profile exists and its two
    configurations have the ids E0 and E1. *)
Definition second_run : remote :=
  {| invoke := λ _ c,
       if String.eqb (op c) "get_project_profile" then inr profile_details
       else inr [];
     paginate := λ _ c,
       if String.eqb (op c) "list_project_profiles"
       then MkPages [[("items", JArr [JObj listed_profile])]] None
       else MkPages [] None |}.

Definition reading_throttled : exn :=
  MkExn (Some "ThrottlingException")
    "An error occurred (ThrottlingException) when calling the GetProjectProfile operation: Rate exceeded".

(** The later run under load: the first reading of the details of the
    profile is throttled, a later one is answered. *)
Definition second_run_throttled : remote :=
  {| invoke := λ h c,
       if String.eqb (op c) "get_project_profile" && negb (asked_before "get_project_profile" h)
       then inl reading_throttled
       else invoke second_run h c;
     paginate := paginate second_run |}.





Definition grant_conflict : exn :=
  MkExn (Some "ConflictException")
    "An error occurred (ConflictException) when calling the AddPolicyGrant operation: Conflict".

(** A later run in which every grant is in place already. *)
Definition grants_in_place : remote :=
  {| invoke := λ h c,
       if String.eqb (op c) "add_policy_grant" then inl grant_conflict
       else invoke fresh_domain h c;
     paginate := paginate fresh_domain |}.

Definition role_exists : exn :=
  MkExn (Some "EntityAlreadyExists")
    "An error occurred (EntityAlreadyExists) when calling the CreateRole operation: Role with name DataZoneDomainConnectionCreator already exists.".

Definition role_arn : string := "arn:aws:iam::111122223333:role/DataZoneDomainConnectionCreator".

(** An account in which the role exists. *)
Definition role_in_place : remote :=
  {| invoke := λ _ c,
       if String.eqb (op c) "create_role" then inl role_exists
       else if String.eqb (op c) "get_role" then inr [("Role", JObj [("Arn", JStr role_arn)])]
       else if String.eqb (op c) "get_caller_identity"
       then inr [("Account", JStr "111122223333")]
       else if String.eqb (op c) "get_domain" then inr [("rootDomainUnitId", JStr "root")]
       else if String.eqb (op c) "create_user_profile" then inr [("id", JStr "user-1")]
       else inr [];
     paginate := λ _ _, MkPages [] None |}.


(** a serializer in the default layout of [json.dumps], for strings
    without quotes, backslashes, control characters and non-ASCII
    characters; it is used to run the role script on examples *)
Definition dquote : string := String (ascii_of_nat 34) EmptyString.

Definition show_string (s : string) : string := dquote +:+ s +:+ dquote.

Fixpoint show_json (j : json) : string :=
  match j with
  | JNull => "null"
  | JBool true => "true"
  | JBool false => "false"
  | JNum n => pretty n
  | JStr s => show_string s
  | JArr l => "[" +:+ join ", " (List.map show_json l) +:+ "]"
  | JObj d =>
      "{" +:+ join ", " (List.map (λ kv, let '(k, v) := kv in
                                         show_string k +:+ ": " +:+ show_json v) d)
      +:+ "}"
  end.

(** A domain in which the grants cannot be listed. *)
Definition access_denied : exn :=
  MkExn (Some "AccessDeniedException")
    "An error occurred (AccessDeniedException) when calling the ListPolicyGrants operation: User is not authorized".

Definition grants_unlistable : remote :=
  {| invoke := λ h c,
       if String.eqb (op c) "list_policy_grants" then inl access_denied
       else invoke fresh_domain h c;
     paginate := paginate fresh_domain |}.

Definition throttled : exn :=
  MkExn (Some "ThrottlingException")
    "An error occurred (ThrottlingException) when calling the ListEnvironmentBlueprints operation: Rate exceeded".

Definition nemo_blueprint : dict := [("id", JStr "bp-nemo"); ("name", JStr "NeMo-Tooling")].
Definition other_blueprint : dict := [("id", JStr "bp-other"); ("name", JStr "Other")].

(** A listing whose second page cannot be fetched. *)
Definition throttled_listing : remote :=
  {| invoke := λ _ _, inr [];
     paginate := λ _ _,
       MkPages [[("items", JArr [JObj other_blueprint]); ("nextToken", JStr "t1")]]
         (Some throttled) |}.

(** A two-page listing that holds the blueprint on its second page. *)
Definition two_page_listing : remote :=
  {| invoke := λ _ _, inr [];
     paginate := λ _ _,
       MkPages [[("items", JArr [JObj other_blueprint]); ("nextToken", JStr "t1")];
                [("items", JArr [JObj nemo_blueprint; JObj other_blueprint])]]
         None |}.

End Scenario.

(** * Further vocabulary *)

(** ** The template upload *)

Definition head_bucket_call (bucket_name : string) : call :=
  MkCall "s3" "head_bucket" [("Bucket", JStr bucket_name)].

Definition upload_file_call (H : SetupBlueprint.host) (bucket_name : string) : call :=
  MkCall "s3" "upload_file"
    [("Filename", JStr (SetupBlueprint.template_path H)); ("Bucket", JStr bucket_name);
     ("Key", JStr SetupBlueprint.template_key)].

(** the address of the uploaded template *)
Definition template_url (bucket_name region : string) : string :=
  "https://" +:+ bucket_name +:+ ".s3." +:+ region +:+ ".amazonaws.com/"
  +:+ SetupBlueprint.template_key.

Definition is_create_bucket (c : call) : bool := String.eqb (op c) "create_bucket".

(** the location a bucket is created in: none is given for us-east-1 *)
Definition bucket_location (region : string) : option json :=
  if String.eqb region "us-east-1" then None
  else Some (JObj [("LocationConstraint", JStr region)]).

(** ** The managed Tooling blueprint *)

Definition tooling_list_call (domain_id : string) : call :=
  MkCall "datazone" "list_environment_blueprints"
    [("domainIdentifier", JStr domain_id); ("managed", JBool true)].

Definition tooling_config_call (domain_id tooling_id : string) : call :=
  MkCall "datazone" "get_environment_blueprint_configuration"
    [("domainIdentifier", JStr domain_id);
     ("environmentBlueprintIdentifier", JStr tooling_id)].

(** the blueprint the two loops settle on: of the pages that hold a
    blueprint named Tooling, the last one decides, with its first such
    blueprint *)
Definition last_tooling (listing : list (list dict)) : option dict :=
  last (omap (List.find (named "Tooling")) listing).

(** the id of a resource, when it is a string *)
Definition str_id (d : dict) : option string :=
  match dict_get d "id" with
  | Some (JStr i) => Some i
  | _ => None
  end.

(** on every page, the first blueprint named Tooling has an id *)
Definition toolings_have_ids (listing : list (list dict)) : Prop :=
  Forall (λ items, ∀ d, List.find (named "Tooling") items = Some d → is_Some (str_id d))
    listing.

(** ** The blueprint *)

Definition bucket_of (account_id region : string) : string :=
  "nemo-hyperpod-templates-" +:+ account_id +:+ "-" +:+ region.

Definition is_blueprint_write (c : call) : bool :=
  String.eqb (op c) "create_environment_blueprint"
  || String.eqb (op c) "update_environment_blueprint".

Definition is_enable (c : call) : bool :=
  String.eqb (op c) "put_environment_blueprint_configuration".

(** what the calls of the blueprint reconciliation carry, by operation *)
Definition blueprint_call_ok (H : SetupBlueprint.host)
    (domain_id provisioning_role_arn : string) (manage_access_role_arn : option string)
    (region account_id : string) (c : call) : Prop :=
  (op c = "upload_file" → c = upload_file_call H (bucket_of account_id region)) ∧
  (is_blueprint_write c = true →
   dict_get (kwargs c) "domainIdentifier" = Some (JStr domain_id) ∧
   at_path (JObj (kwargs c)) ["provisioningProperties"; "cloudFormation"; "templateUrl"] =
     Some (JStr (template_url (bucket_of account_id region) region)) ∧
   dict_get (kwargs c) "userParameters" =
     Some (JArr SetupBlueprint.get_nemo_tooling_user_parameters)) ∧
  (op c = "create_environment_blueprint" →
   dict_get (kwargs c) "name" = Some (JStr "NeMo-Tooling")) ∧
  (is_enable c = true →
   dict_get (kwargs c) "domainIdentifier" = Some (JStr domain_id) ∧
   dict_get (kwargs c) "enabledRegions" = Some (JArr [JStr region]) ∧
   dict_get (kwargs c) "provisioningRoleArn" = Some (JStr provisioning_role_arn) ∧
   dict_get (kwargs c) "manageAccessRoleArn" =
     if truthy_opt manage_access_role_arn then JStr <$> manage_access_role_arn else None).

(** what a failed call that satisfies [P] is followed by, and how the run
    ends then *)
Definition on_failure {A} (P : call → bool) (T : exn → log → outcome A → Prop)
    (r : outcome A * log) : Prop :=
  ∀ l1 c e l2, r.2 = l1 ++ Called c (inl e) :: l2 → P c = true → T e l2 r.1.

(** the entry agrees with [id] being the blueprint that was written: an
    update and the enabling name it, a creation answered with it *)
Definition writes_blueprint (id : string) (e : entry) : Prop :=
  match e with
  | Called c r =>
      (op c = "update_environment_blueprint" →
       dict_get (kwargs c) "identifier" = Some (JStr id)) ∧
      (is_enable c = true →
       dict_get (kwargs c) "environmentBlueprintIdentifier" = Some (JStr id)) ∧
      (op c = "create_environment_blueprint" →
       ∀ d, r = inr d → dict_get d "id" = Some (JStr id))
  | _ => True
  end.

(** ** Grants *)

Definition blueprint_grant_call
    (domain_id blueprint_id domain_unit_id account_id policy_type : string) (detail : json)
  : call :=
  MkCall "datazone" "add_policy_grant"
    (SetupBlueprint.blueprint_grant_args domain_id (account_id +:+ ":" +:+ blueprint_id)
       policy_type domain_unit_id detail).

(** the profile names no domain unit: the key is absent, null or empty *)
Definition no_domain_unit (profile : dict) : Prop :=
  dict_get profile "domainUnitId" = None ∨
  dict_get profile "domainUnitId" = Some JNull ∨
  dict_get profile "domainUnitId" = Some (JStr "").

(** a grant call whose target list holds [profile_id] *)
Definition grants_profile (profile_id : string) (c : call) : Prop :=
  op c = "add_policy_grant" ∧
  ∃ items, profiles_sent c = Some (JArr items) ∧ JStr profile_id ∈ items.

(** the grant [c] is for the domain unit that [profile] names *)
Definition for_unit_of (profile : dict) (c : call) : Prop :=
  truthy (dict_get_or profile "domainUnitId" JNull) = true ∧
  dict_get (kwargs c) "entityIdentifier" = dict_get profile "domainUnitId".

(** ** The project profile *)

(** the two desired configurations as built, without ids *)
Definition fresh_configs (tooling_blueprint_id nemo_tooling_blueprint_id region account_id : string)
  : json :=
  JArr [JObj (SetupBlueprint.tooling_config tooling_blueprint_id region account_id);
        JObj (SetupBlueprint.nemo_tooling_config nemo_tooling_blueprint_id region account_id)].

Definition create_profile_call
    (domain_id profile_name tooling_blueprint_id nemo_tooling_blueprint_id
     region account_id : string) : call :=
  MkCall "datazone" "create_project_profile"
    [("domainIdentifier", JStr domain_id);
     ("name", JStr profile_name);
     ("description", JStr SetupBlueprint.profile_description);
     ("environmentConfigurations",
      fresh_configs tooling_blueprint_id nemo_tooling_blueprint_id region account_id);
     ("status", JStr "ENABLED")].

Definition is_object (j : json) : bool :=
  match j with
  | JObj _ => true
  | _ => false
  end.

(** the line that follows a successful update *)
Definition updated_line (r : result dict) : log :=
  match r with
  | inr _ => [Printed "✓ Project profile updated"]
  | inl _ => []
  end.

(** the entry agrees with [id] being the profile that was written: the
    reading of its details and the update name it, a creation was
    answered with it *)
Definition writes_profile (id : string) (e : entry) : Prop :=
  match e with
  | Called c r =>
      (op c = "get_project_profile" ∨ op c = "update_project_profile" →
       dict_get (kwargs c) "identifier" = Some (JStr id)) ∧
      (op c = "create_project_profile" →
       ∀ d, r = inr d → dict_get d "id" = Some (JStr id))
  | _ => True
  end.

(** ** The order of the changes *)

(** the numbers of [l] increase strictly, starting above [lo] *)
Fixpoint ascending (lo : nat) (l : list nat) : Prop :=
  match l with
  | [] => True
  | x :: rest => lo < x ∧ ascending x rest
  end.

(** the ranks of the mutating calls of [l] increase strictly from above
    [lo] up to at most [hi] *)
Definition ranked (rank : call → nat) (lo hi : nat) (l : log) : Prop :=
  lo ≤ hi ∧
  ascending lo (rank <$> mutations l) ∧
  Forall (λ n, n ≤ hi) (rank <$> mutations l).

Definition staged {A} (rank : call → nat) (lo hi : nat) (m : M A) : Prop :=
  ∀ h, ranked rank lo hi (m h).2.

Definition policy_type_is (c : call) (policy_type : string) : bool :=
  eq_str (dict_get_or (kwargs c) "policyType" JNull) policy_type.

(** the place of a change in a run of setup-blueprint.py: the bucket, the
    template, the blueprint, its enabling, the two blueprint grants, the
    project profile, the all-users grant *)
Definition setup_rank (c : call) : nat :=
  if String.eqb (op c) "create_bucket" then 1
  else if String.eqb (op c) "upload_file" then 2
  else if is_blueprint_write c then 3
  else if is_enable c then 4
  else if is_grant c then
    if policy_type_is c "CREATE_ENVIRONMENT_PROFILE" then 5
    else if policy_type_is c "CREATE_ENVIRONMENT_FROM_BLUEPRINT" then 6
    else if policy_type_is c "CREATE_PROJECT_FROM_PROJECT_PROFILE" then 8
    else 0
  else if is_profile_write c then 7
  else 0.

(** the place of a change in a run of setup_domain_connection_role.py *)
Definition role_rank (c : call) : nat :=
  if String.eqb (op c) "create_role" then 1
  else if String.eqb (op c) "update_assume_role_policy" then 2
  else if String.eqb (op c) "put_role_policy" then 3
  else if String.eqb (op c) "create_user_profile" then 4
  else if String.eqb (op c) "add_entity_owner" then 5
  else 0.

(** ** The role script *)

Definition create_user_profile_call (domain_id role_arn : string) : call :=
  MkCall "datazone" "create_user_profile"
    [("domainIdentifier", JStr domain_id);
     ("userIdentifier", JStr role_arn);
     ("userType", JStr "IAM_ROLE")].

Definition get_user_profile_call (domain_id role_arn : string) : call :=
  MkCall "datazone" "get_user_profile"
    [("domainIdentifier", JStr domain_id);
     ("userIdentifier", JStr role_arn);
     ("type", JStr "IAM")].

Definition add_owner_call (domain_id root_unit_id role_arn : string) : call :=
  MkCall "datazone" "add_entity_owner"
    [("domainIdentifier", JStr domain_id);
     ("entityType", JStr "DOMAIN_UNIT");
     ("entityIdentifier", JStr root_unit_id);
     ("owner", JObj [("user", JObj [("userIdentifier", JStr role_arn)])])].

Definition put_policy_call (json_dumps : json → string) (account_id domain_id : string) : call :=
  MkCall "iam" "put_role_policy"
    [("RoleName", JStr DomainConnectionRole.ROLE_NAME);
     ("PolicyName", JStr "DataZoneConnectionCreatorPolicy");
     ("PolicyDocument",
      JStr (json_dumps (DomainConnectionRole.policy_doc account_id domain_id)))].

(** whether [create_user_profile] takes the error for "the profile is
    there already": a service error with the word "existing" in its text,
    or with one of two codes *)
Definition user_profile_exists (e : exn) : bool :=
  match exn_code e with
  | Some code =>
      contains "existing" (lower (exn_str e))
      || bool_decide (code ∈ ["ConflictException"; "ValidationException"])
  | None => false
  end.

(** whether [add_as_domain_owner] takes the error for "the role is an
    owner already" *)
Definition owner_exists (e : exn) : bool :=
  match exn_code e with
  | Some code =>
      String.eqb code "ValidationException" && contains "already exists" (lower (exn_str e))
  | None => false
  end.

(** the calls of the role script that no [try] block surrounds, and the
    calls made while an error is handled *)
Definition role_unguarded_ops : list string :=
  ["get_caller_identity"; "update_assume_role_policy"; "get_role"; "put_role_policy";
   "get_domain"; "get_user_profile"].

Definition is_role_unguarded (c : call) : bool :=
  existsb (String.eqb (op c)) role_unguarded_ops.

(** ** What flows from one step to the next *)

(** Every run of [m] either keeps to [S], or some value [x] makes all of
    its entries agree with [T x]. *)
Definition flows {A} (S : entry → Prop) (T : string → entry → Prop) (m : M A) : Prop :=
  ∀ h, Forall S (m h).2 ∨ ∃ x, Forall (T x) (m h).2.

(** the calls of setup-blueprint.py that act on the NeMo-Tooling
    blueprint after it was written: its two grants and the writing of
    the project profile *)
Definition needs_blueprint (c : call) : bool :=
  (is_grant c && negb (policy_type_is c "CREATE_PROJECT_FROM_PROJECT_PROFILE"))
  || is_profile_write c.

(** a grant for the blueprint [bp] of some account; a project profile
    whose second configuration is for [bp] *)
Definition uses_blueprint (bp : string) (c : call) : Prop :=
  (is_grant c = true → policy_type_is c "CREATE_PROJECT_FROM_PROJECT_PROFILE" = false →
   ∃ account_id,
     dict_get (kwargs c) "entityIdentifier" = Some (JStr (account_id +:+ ":" +:+ bp))) ∧
  (is_profile_write c = true → ∃ tooling, sends_base_then_nemo tooling bp c).

Definition blueprint_flow (bp : string) (e : entry) : Prop :=
  writes_blueprint bp e ∧ on_calls (uses_blueprint bp) e.

(** the all-users grant *)
Definition is_all_users_grant (c : call) : bool :=
  is_grant c && policy_type_is c "CREATE_PROJECT_FROM_PROJECT_PROFILE".

Definition profile_flow (profile_id : string) (e : entry) : Prop :=
  writes_profile profile_id e ∧
  on_calls (λ c, is_all_users_grant c = true → grants_profile profile_id c) e.

(** *** In the role script *)

(** the answers that carry the ARN of the role *)
Definition answers_role (role_arn : string) (e : entry) : Prop :=
  match e with
  | Called c r =>
      op c = "create_role" ∨ op c = "get_role" →
      ∀ d, r = inr d → DomainConnectionRole.role_arn_of d = inr role_arn
  | _ => True
  end.

(** the calls that register the role in the domain *)
Definition registers_role (c : call) : bool :=
  String.eqb (op c) "create_user_profile" || String.eqb (op c) "get_user_profile"
  || String.eqb (op c) "add_entity_owner".

Definition names_role (role_arn : string) (c : call) : Prop :=
  (op c = "create_user_profile" ∨ op c = "get_user_profile" →
   dict_get (kwargs c) "userIdentifier" = Some (JStr role_arn)) ∧
  (op c = "add_entity_owner" →
   at_path (JObj (kwargs c)) ["owner"; "user"; "userIdentifier"] = Some (JStr role_arn)).

Definition role_flow (role_arn : string) (e : entry) : Prop :=
  answers_role role_arn e ∧ on_calls (names_role role_arn) e.

(** the answer of STS that names the account *)
Definition answers_account (account_id : string) (e : entry) : Prop :=
  match e with
  | Called c r =>
      op c = "get_caller_identity" →
      ∀ d, r = inr d → dict_get d "Account" = Some (JStr account_id)
  | _ => True
  end.

(** the calls of the role script that carry a policy document *)
Definition carries_document (c : call) : bool :=
  String.eqb (op c) "create_role" || String.eqb (op c) "update_assume_role_policy"
  || String.eqb (op c) "put_role_policy".

Definition documents_for (json_dumps : json → string) (account_id domain_id : string)
    (c : call) : Prop :=
  (op c = "create_role" → c = create_role_call json_dumps account_id domain_id) ∧
  (op c = "update_assume_role_policy" → c = update_trust_call json_dumps account_id domain_id) ∧
  (op c = "put_role_policy" → c = put_policy_call json_dumps account_id domain_id).

Definition account_flow (json_dumps : json → string) (domain_id account_id : string)
    (e : entry) : Prop :=
  answers_account account_id e ∧ on_calls (documents_for json_dumps account_id domain_id) e.

(** *** Calls that a flow does not touch *)

(** calls that neither read nor write the profile nor grant it *)
Definition profile_untouched (c : call) : Prop :=
  op c ≠ "get_project_profile" ∧ op c ≠ "update_project_profile" ∧
  op c ≠ "create_project_profile" ∧ is_all_users_grant c = false.

(** calls that neither return nor name the role *)
Definition role_untouched (c : call) : Prop :=
  op c ≠ "create_role" ∧ op c ≠ "get_role" ∧ registers_role c = false.

(** calls that neither return the account nor carry a document *)
Definition account_untouched (c : call) : Prop :=
  op c ≠ "get_caller_identity" ∧ carries_document c = false.

(** ** The steps of a run *)

Definition is_upload (c : call) : bool := String.eqb (op c) "upload_file".

(** the four steps that a run of setup-blueprint.py cannot skip *)
Definition steps_done (l : log) : Prop :=
  count_calls is_upload l = 1 ∧
  count_calls is_blueprint_write l = 1 ∧
  count_calls is_enable l = 1 ∧
  count_calls is_profile_write l = 1.

(** ** The domain that is addressed *)

(** a call to the data service names the domain [domain_id]: as the
    identifier of [get_domain], as the domain identifier of every other
    operation *)
Definition addresses (domain_id : string) (c : call) : Prop :=
  svc c = "datazone" →
  dict_get (kwargs c)
    (if String.eqb (op c) "get_domain" then "identifier" else "domainIdentifier")
  = Some (JStr domain_id).

(** ** The steps of the role script *)

Definition is_op (operation : string) (c : call) : bool := String.eqb (op c) operation.

Definition role_steps_done (l : log) : Prop :=
  count_calls (is_op "create_role") l = 1 ∧
  count_calls (is_op "put_role_policy") l = 1 ∧
  count_calls (is_op "create_user_profile") l = 1 ∧
  count_calls (is_op "add_entity_owner") l = 1.

(** * Further scenarios *)

Module Cases.
Import SetupBlueprint.

(** a checkout without the template file *)
Definition host_no_template : host :=
  {| environ := Scenario.env_full;
     template_path := "/repo/blueprints/nemo-tooling-blueprint.yaml";
     template_exists := false |}.

Definition tooling_blueprint : dict := [("name", JStr "Tooling"); ("id", JStr "bp-tooling")].

(** A domain whose profile is listed but whose details cannot be read. *)
Definition details_denied : remote :=
  {| invoke := λ _ c,
       if String.eqb (op c) "get_project_profile" then inl Scenario.access_denied
       else inr [];
     paginate := paginate Scenario.second_run |}.

Definition tooling_entry : dict :=
  [("id", JStr "E0"); ("environmentBlueprintId", JStr "bp-tooling")].

Definition nemo_entry : dict :=
  [("id", JStr "E1"); ("environmentBlueprintId", JStr "bp-nemo")].

(** details whose list of configurations holds a null between two
    well-formed entries *)
Definition malformed_details : dict :=
  [("id", JStr "prof-1");
   ("environmentConfigurations", JArr [JObj tooling_entry; JNull; JObj nemo_entry])].

Definition malformed_profile : remote :=
  {| invoke := λ _ c,
       if String.eqb (op c) "get_project_profile" then inr malformed_details
       else inr [];
     paginate := paginate Scenario.second_run |}.

Definition role_environ : gmap string string := <["DOMAIN_ID" := "dzd_1"]> ∅.

Definition user_profile_conflict : exn :=
  MkExn (Some "ConflictException")
    "An error occurred (ConflictException) when calling the CreateUserProfile operation: Conflict".

(** A domain in which the role has a user profile. *)
Definition user_profile_in_place : remote :=
  {| invoke := λ _ c,
       if String.eqb (op c) "create_user_profile" then inl user_profile_conflict
       else if String.eqb (op c) "get_user_profile" then inr [("id", JStr "user-1")]
       else inr [];
     paginate := λ _ _, MkPages [] None |}.

Definition owner_exists_error : exn :=
  MkExn (Some "ValidationException")
    "An error occurred (ValidationException) when calling the AddEntityOwner operation: Owner already exists".

(** A domain in which the role owns the root domain unit. *)
Definition owner_in_place : remote :=
  {| invoke := λ _ c,
       if String.eqb (op c) "add_entity_owner" then inl owner_exists_error
       else inr [];
     paginate := λ _ _, MkPages [] None |}.

End Cases.

(** * Properties of runs *)

Import SetupBlueprint.

Set Warnings "-clear-no-such-hyp".

(** ** Equations of the monad *)

Lemma after_pair {A} l (o : outcome A) l' : after l (o, l') = (o, l ++ l').
Proof. done. Qed.


Lemma bind_run {A B} (m : M A) (f : A → M B) h :
  bind m f h =
  match m h with
  | (Ret a, l1) => after l1 (f a (h ++ l1))
  | (Raise e, l1) => (Raise e, l1)
  | (Exit n, l1) => (Exit n, l1)
  end.
Proof.
  unfold bind, after. destruct (m h) as [[a|e|n] l1]; try done.
  by destruct (f a (h ++ l1)).
Qed.

Lemma try_except_run {A} (body : M A) handler h :
  try_except body handler h =
  match body h with
  | (Raise e, l1) => after l1 (handler e (h ++ l1))
  | r => r
  end.
Proof.
  unfold try_except, after. destruct (body h) as [[a|e|n] l1]; try done.
  by destruct (handler e (h ++ l1)).
Qed.

Lemma try_bare_run {A} (body handler : M A) h :
  try_bare body handler h =
  match body h with
  | (Ret a, l1) => (Ret a, l1)
  | (_, l1) => after l1 (handler (h ++ l1))
  end.
Proof.
  unfold try_bare, after. destruct (body h) as [[a|e|n] l1]; try done;
    by destruct (handler (h ++ l1)).
Qed.

Lemma try_client_error_run {A} (body : M A) handler h :
  DomainConnectionRole.try_client_error body handler h =
  match body h with
  | (Raise e, l1) =>
      match exn_code e with
      | Some code => after l1 (handler e code (h ++ l1))
      | None => (Raise e, l1)
      end
  | r => r
  end.
Proof.
  unfold DomainConnectionRole.try_client_error, after.
  destruct (body h) as [[a|e|n] l1]; try done.
  destruct (exn_code e); [|done]. by destruct (handler e s (h ++ l1)).
Qed.

Lemma print_run s h : print s h = (Ret tt, [Printed s]).
Proof. done. Qed.

Lemma ret_run {A} (a : A) h : ret a h = (Ret a, []).
Proof. done. Qed.

Lemma raise_run {A} e h : @raise A e h = (Raise e, []).
Proof. done. Qed.

Lemma sys_exit_run {A} n h : @sys_exit A n h = (Exit n, []).
Proof. done. Qed.

Lemma sdk_run R s o args h :
  sdk R s o args h =
  match invoke R (remote_view h) (MkCall s o args) with
  | inr d => (Ret d, [Called (MkCall s o args) (inr d)])
  | inl e => (Raise e, [Called (MkCall s o args) (inl e)])
  end.
Proof. unfold sdk. by destruct (invoke R _ _). Qed.

Lemma sdk_pages_run R s o args h :
  sdk_pages R s o args h =
  (Ret (paginate R (remote_view h) (MkCall s o args)),
   [Paginated (MkCall s o args) (paginate R (remote_view h) (MkCall s o args))]).
Proof. done. Qed.

Lemma print_then {B} s (k : M B) h :
  bind (print s) (λ _, k) h = after [Printed s] (k (h ++ [Printed s])).
Proof. by rewrite bind_run. Qed.

Lemma sdk_then {B} R s o args (k : dict → M B) h :
  bind (sdk R s o args) k h =
  match invoke R (remote_view h) (MkCall s o args) with
  | inr d =>
      after [Called (MkCall s o args) (inr d)]
        (k d (h ++ [Called (MkCall s o args) (inr d)]))
  | inl e => (Raise e, [Called (MkCall s o args) (inl e)])
  end.
Proof. rewrite bind_run, sdk_run. by destruct (invoke R _ _). Qed.

Lemma sdk_pages_then {B} R s o args (k : page_stream → M B) h :
  bind (sdk_pages R s o args) k h =
  after [Paginated (MkCall s o args) (paginate R (remote_view h) (MkCall s o args))]
    (k (paginate R (remote_view h) (MkCall s o args))
       (h ++ [Paginated (MkCall s o args)
                (paginate R (remote_view h) (MkCall s o args))])).
Proof. by rewrite bind_run. Qed.

Lemma lift_run {A} (r : result A) h :
  lift r h = (match r with inl e => Raise e | inr a => Ret a end, []).
Proof. by destruct r. Qed.

Lemma lift_then {A B} (r : result A) (k : A → M B) h :
  bind (lift r) k h =
  match r with
  | inr a => k a h
  | inl e => (Raise e, [])
  end.
Proof.
  rewrite bind_run. destruct r as [e|a]; simpl; [done|].
  rewrite app_nil_r. unfold after. by destruct (k a h).
Qed.

(** what the remote side sees of a log *)

Lemma remote_view_app l1 l2 : remote_view (l1 ++ l2) = remote_view l1 ++ remote_view l2.
Proof. unfold remote_view. apply List.filter_app. Qed.

Lemma remote_view_printed l s : remote_view (l ++ [Printed s]) = remote_view l.
Proof. rewrite remote_view_app. simpl. apply app_nil_r. Qed.

Lemma remote_view_called l c r : remote_view (l ++ [Called c r]) = remote_view l ++ [Called c r].
Proof. by rewrite remote_view_app. Qed.

Lemma remote_view_paginated l c ps :
  remote_view (l ++ [Paginated c ps]) = remote_view l ++ [Paginated c ps].
Proof. by rewrite remote_view_app. Qed.

(** [exec] runs a computation forward as far as the answers of the remote
    side are known *)
Ltac exec_step :=
  first
    [ rewrite print_then
    | rewrite sdk_then
    | rewrite sdk_pages_then
    | rewrite lift_then
    | rewrite bind_run
    | rewrite try_except_run
    | rewrite try_bare_run
    | rewrite try_client_error_run
    | rewrite print_run
    | rewrite ret_run
    | rewrite raise_run
    | rewrite sys_exit_run
    | rewrite sdk_run
    | rewrite sdk_pages_run
    | rewrite lift_run
    | rewrite after_pair
    | rewrite remote_view_printed
    | rewrite remote_view_called
    | rewrite remote_view_paginated
    | progress cbv beta iota zeta
    | progress cbn [negb andb orb fst snd default from_option app] ].

Ltac exec := repeat exec_step.

(** ** Logs of calls *)

Lemma calls_app l1 l2 : calls (l1 ++ l2) = calls l1 ++ calls l2.
Proof. unfold calls. by rewrite omap_app. Qed.

Lemma Forall_on_calls P l : Forall (on_calls P) l ↔ Forall P (calls l).
Proof.
  induction l as [|[c r|c ps|s] l IH]; simpl.
  - split; constructor.
  - change (calls (Called c r :: l)) with (c :: calls l).
    rewrite !Forall_cons. naive_solver.
  - change (calls (Paginated c ps :: l)) with (c :: calls l).
    rewrite !Forall_cons. naive_solver.
  - change (calls (Printed s :: l)) with (calls l).
    rewrite Forall_cons. naive_solver.
Qed.

(** ** Rules for [emits] *)

#[global] Instance Forall_closed (Q : entry → Prop) : Closed (Forall Q).
Proof. split; [constructor|]. intros. by apply Forall_app. Qed.

Lemma emits_run {A} (Q : entry → Prop) (m : M A) h : emits (Forall Q) m → Forall Q (m h).2.
Proof. intros Hm. apply Hm. Qed.

Section Emits.
Context (G : log → Prop) `{!Closed G}.

Lemma emits_ret {A} (a : A) : emits G (ret a).
Proof. intros h. apply closed_nil. Qed.

Lemma emits_raise {A} e : emits G (@raise A e).
Proof. intros h. apply closed_nil. Qed.

Lemma emits_exit {A} n : emits G (@sys_exit A n).
Proof. intros h. apply closed_nil. Qed.

Lemma emits_lift {A} (r : result A) : emits G (lift r).
Proof. intros h. rewrite lift_run. apply closed_nil. Qed.

Lemma emits_print s : G [Printed s] → emits G (print s).
Proof. intros HG h. exact HG. Qed.

Lemma emits_sdk R s o args :
  (∀ r, G [Called (MkCall s o args) r]) → emits G (sdk R s o args).
Proof. intros HG h. apply HG. Qed.

Lemma emits_sdk_pages R s o args :
  (∀ ps, G [Paginated (MkCall s o args) ps]) → emits G (sdk_pages R s o args).
Proof. intros HG h. apply HG. Qed.

Lemma emits_bind {A B} (m : M A) (f : A → M B) :
  emits G m → (∀ a, emits G (f a)) → emits G (bind m f).
Proof.
  intros Hm Hf h. rewrite bind_run. specialize (Hm h).
  destruct (m h) as [[a|e|n] l1]; simpl in *; try done.
  apply closed_app; [done|apply Hf].
Qed.

(** the continuation may rely on what [m] guarantees of its result *)
Lemma emits_bind_post {A B} (P : A → Prop) (m : M A) (f : A → M B) :
  emits G m → (∀ h a, (m h).1 = Ret a → P a) → (∀ a, P a → emits G (f a)) →
  emits G (bind m f).
Proof.
  intros Hm HP Hf h. rewrite bind_run. specialize (Hm h). specialize (HP h).
  destruct (m h) as [[a|e|n] l1]; simpl in *; try done.
  apply closed_app; [done|]. apply Hf. by apply HP.
Qed.

Lemma emits_try_except {A} (body : M A) handler :
  emits G body → (∀ e, emits G (handler e)) → emits G (try_except body handler).
Proof.
  intros Hb Hh h. rewrite try_except_run. specialize (Hb h).
  destruct (body h) as [[a|e|n] l1]; simpl in *; try done.
  apply closed_app; [done|apply Hh].
Qed.

Lemma emits_try_bare {A} (body handler : M A) :
  emits G body → emits G handler → emits G (try_bare body handler).
Proof.
  intros Hb Hh h. rewrite try_bare_run. specialize (Hb h).
  destruct (body h) as [[a|e|n] l1]; simpl in *; try done;
    (apply closed_app; [done|apply Hh]).
Qed.

Lemma emits_try_client_error {A} (body : M A) handler :
  emits G body → (∀ e code, emits G (handler e code)) →
  emits G (DomainConnectionRole.try_client_error body handler).
Proof.
  intros Hb Hh h. rewrite try_client_error_run. specialize (Hb h).
  destruct (body h) as [[a|e|n] l1]; simpl in *; try done.
  destruct (exn_code e); simpl; [|done].
  apply closed_app; [done|apply Hh].
Qed.
End Emits.

Create HintDb script discriminated.
#[global] Hint Unfold
  SetupBlueprint.get_config SetupBlueprint.get_clients
  SetupBlueprint.find_blueprint SetupBlueprint.find_project_profile
  SetupBlueprint.upload_nemo_tooling_template
  SetupBlueprint.create_or_update_nemo_tooling_blueprint
  SetupBlueprint.get_tooling_blueprint_config SetupBlueprint.get_tooling_blueprint_id
  SetupBlueprint.authorize_blueprint_for_domain_unit
  SetupBlueprint.create_or_update_project_profile
  SetupBlueprint.authorize_all_users SetupBlueprint.main
  DomainConnectionRole.get_clients DomainConnectionRole.get_account_id
  DomainConnectionRole.create_role DomainConnectionRole.attach_policy
  DomainConnectionRole.create_user_profile DomainConnectionRole.add_as_domain_owner
  DomainConnectionRole.main DomainConnectionRole.script : script.

(** [emits_steps leaf] decomposes a goal [emits G m] along the structure
    of [m]; [leaf] proves [G] of the single entries. *)
Ltac emits_step leaf :=
  lazymatch goal with
  | |- emits _ (ret _) => apply emits_ret; tc_solve
  | |- emits _ (raise _) => apply emits_raise; tc_solve
  | |- emits _ (sys_exit _) => apply emits_exit; tc_solve
  | |- emits _ (lift _) => apply emits_lift; tc_solve
  | |- emits _ (print _) => apply emits_print; leaf
  | |- emits _ (sdk _ _ _ _) => apply emits_sdk; intros ?; leaf
  | |- emits _ (sdk_pages _ _ _ _) => apply emits_sdk_pages; intros ?; leaf
  | |- emits _ (bind _ _) => apply emits_bind; [tc_solve| |intros ?]
  | |- emits _ (try_except _ _) => apply emits_try_except; [tc_solve| |intros ?]
  | |- emits _ (try_bare _ _) => apply emits_try_bare; [tc_solve| |]
  | |- emits _ (DomainConnectionRole.try_client_error _ _) =>
      apply emits_try_client_error; [tc_solve| |intros ? ?]
  | |- emits _ (match ?x with _ => _ end) => destruct x
  | |- emits _ (let _ := _ in _) => cbv zeta
  | |- emits _ _ => progress autounfold with script
  end.

Ltac emits_steps leaf := repeat emits_step leaf.

Ltac on_calls_leaf tac := apply Forall_singleton; cbn [on_calls]; tac.

(** ** Missing configuration *)

Lemma elem_of_missing env k :
  k ∈ missing env ↔ k ∈ required ∧ truthy_opt (env !! k) = false.
Proof.
  unfold missing. rewrite !list_elem_of_In, filter_In.
  by rewrite negb_true_iff.
Qed.

Lemma missing_nil env :
  missing env = [] ↔
  truthy_opt (env !! "AWS_REGION") = true ∧ truthy_opt (env !! "DOMAIN_ID") = true.
Proof.
  unfold missing, required. simpl.
  destruct (truthy_opt (env !! "AWS_REGION")), (truthy_opt (env !! "DOMAIN_ID")); simpl;
    naive_solver.
Qed.

Lemma get_config_missing H h :
  missing (environ H) ≠ [] →
  get_config H h =
    (Exit 1,
     [Printed ("Error: Missing env vars: " +:+ join ", " (missing (environ H)));
      Printed "Run: make env ENV=<name> first, or set in .env"]).
Proof.
  intros Hm. unfold get_config. destruct (missing (environ H)) eqn:E; [done|].
  by rewrite !print_then.
Qed.

Lemma truthy_opt_true o : truthy_opt o = true ↔ ∃ v, o = Some v ∧ v ≠ "".
Proof.
  destruct o as [v|]; simpl; [|naive_solver].
  unfold truthy_str. rewrite negb_true_iff, String.eqb_neq. naive_solver.
Qed.

(** C6.  Missing configuration.  A required key counts as missing when it
    is unset or set to the empty string, and [missing] lists exactly those
    keys.  When AWS_REGION or DOMAIN_ID is unset, the script prints its
    banner, the line naming exactly the missing keys and the remediation
    hint, ends with exit status 1 and has issued no call at all.  When
    both hold a value, [get_config] returns them together with the
    optional keys, which fall back to their defaults when unset. *)
Theorem missing_configuration_exits_before_any_call (R : remote) (H : host) (h : log) :
  (∀ k, k ∈ missing (environ H) ↔ k ∈ required ∧ truthy_opt (environ H !! k) = false) ∧
  (environ H !! "AWS_REGION" = None ∨ environ H !! "DOMAIN_ID" = None →
   main R H h =
     (Exit 1,
      [Printed banner; Printed "NeMo Tooling Blueprint Setup"; Printed banner;
       Printed ("Error: Missing env vars: " +:+ join ", " (missing (environ H)));
       Printed "Run: make env ENV=<name> first, or set in .env"]) ∧
   exit_code (main R H h).1 = 1%Z ∧
   calls (main R H h).2 = []) ∧
  (∀ region domain,
     environ H !! "AWS_REGION" = Some region → region ≠ "" →
     environ H !! "DOMAIN_ID" = Some domain → domain ≠ "" →
     get_config H h =
       (Ret {| AWS_PROFILE := default "default" (environ H !! "AWS_PROFILE");
               AWS_REGION := region;
               DOMAIN_ID := domain;
               PROJECT_PROFILE_NAME :=
                 default "NeMo-HyperPod-Profile" (environ H !! "PROJECT_PROFILE_NAME") |},
        [])).
Proof.
  split; [intros k; apply elem_of_missing|]. split.
  - intros Hunset.
    assert (missing (environ H) ≠ []) as Hm.
    { rewrite missing_nil, !truthy_opt_true. naive_solver. }
    assert (main R H h =
      (Exit 1,
       [Printed banner; Printed "NeMo Tooling Blueprint Setup"; Printed banner;
        Printed ("Error: Missing env vars: " +:+ join ", " (missing (environ H)));
        Printed "Run: make env ENV=<name> first, or set in .env"])) as ->.
    { unfold main. rewrite !print_then. rewrite bind_run.
      by rewrite (get_config_missing _ _ Hm). }
    done.
  - intros region domain Hr Hrne Hd Hdne.
    unfold get_config.
    assert (missing (environ H) = []) as ->.
    { rewrite missing_nil, !truthy_opt_true. naive_solver. }
    by rewrite Hr, Hd.
Qed.

Lemma missing_configuration_witness :
  main Scenario.fresh_domain Scenario.host_no_region [] =
    (Exit 1,
     [Printed banner; Printed "NeMo Tooling Blueprint Setup"; Printed banner;
      Printed "Error: Missing env vars: AWS_REGION";
      Printed "Run: make env ENV=<name> first, or set in .env"]) ∧
  get_config Scenario.host_full [] =
    (Ret {| AWS_PROFILE := "default"; AWS_REGION := "us-west-2"; DOMAIN_ID := "dzd_1";
            PROJECT_PROFILE_NAME := "NeMo-HyperPod-Profile" |}, []).
Proof.
  split.
  - destruct (missing_configuration_exits_before_any_call
                Scenario.fresh_domain Scenario.host_no_region []) as (_ & Hexit & _).
    destruct Hexit as (Hrun & _); [left; reflexivity|].
    exact Hrun.
  - destruct (missing_configuration_exits_before_any_call
                Scenario.fresh_domain Scenario.host_full []) as (_ & _ & Hok).
    apply (Hok "us-west-2" "dzd_1"); [reflexivity|discriminate|reflexivity|discriminate].
Defined.

(** ** The trust document *)



(** ** Resource lookup *)

Lemma first_named_dicts name (items : list dict) :
  first_named name (JObj <$> items) = inr (List.find (named name) items).
Proof.
  induction items as [|d items IH]; simpl; [done|].
  unfold named at 1. by destruct (eq_str _ _).
Qed.

Lemma find_concat {A} (f : A → bool) l1 l2 :
  List.find f (l1 ++ l2) =
  match List.find f l1 with
  | Some x => Some x
  | None => List.find f l2
  end.
Proof. induction l1 as [|x l1 IH]; simpl; [done|]. by destruct (f x). Qed.

Lemma scan_pages_delivers name pages err listing :
  Forall2 (λ page items, dict_get page "items" = Some (JArr (JObj <$> items))) pages listing →
  scan_pages name pages err =
  match first_listed name listing with
  | Some d => inr (Some d)
  | None =>
      match err with
      | Some e => inl e
      | None => inr None
      end
  end.
Proof.
  unfold first_listed.
  induction 1 as [|page items pages listing Hpage _ IH]; simpl; [done|].
  unfold dict_get_or. rewrite Hpage. simpl.
  rewrite first_named_dicts, find_concat.
  by destruct (List.find (named name) items).
Qed.

Lemma find_generic R operation args warning name h :
  try_except
    (ps <- sdk_pages R "datazone" operation args;; lift (find_stream name ps))
    (λ e, print (warning +:+ exn_str e);; ret None) h =
  let c := MkCall "datazone" operation args in
  let ps := paginate R (remote_view h) c in
  match find_stream name ps with
  | inr r => (Ret r, [Paginated c ps])
  | inl e => (Ret None, [Paginated c ps; Printed (warning +:+ exn_str e)])
  end.
Proof.
  rewrite try_except_run, sdk_pages_then. cbv zeta. rewrite lift_run.
  by destruct (find_stream _ _).
Qed.

Lemma find_generic_delivers R operation args warning name h listing :
  let c := MkCall "datazone" operation args in
  let ps := paginate R (remote_view h) c in
  delivers ps listing →
  try_except
    (ps <- sdk_pages R "datazone" operation args;; lift (find_stream name ps))
    (λ e, print (warning +:+ exn_str e);; ret None) h =
  lookup_result c ps warning name listing.
Proof.
  intros c ps Hd. rewrite find_generic. fold c ps.
  unfold find_stream, lookup_result. rewrite (scan_pages_delivers _ _ _ _ Hd).
  destruct (first_listed name listing); [done|].
  subst ps. by destruct (ps_error _).
Qed.

(** C3.  Lookup degradation, for blueprints and for project profiles.  A
    lookup never raises: whatever goes wrong while the listing is read,
    it returns nothing and logs a warning that carries the error.  On a
    listing whose pages hold well-formed resources, it returns the first
    listed resource whose name is the one asked for; if the pages
    delivered hold none, it returns nothing, with the warning when the
    listing ended in an error and silently when it ended normally. *)
Theorem lookup_degrades_to_absent (R : remote) (domain_id name : string) (h : log) :
  let cb := list_blueprints_call domain_id in
  let cp := list_profiles_call domain_id in
  let psb := paginate R (remote_view h) cb in
  let psp := paginate R (remote_view h) cp in
  (find_blueprint R domain_id name h =
     match find_stream name psb with
     | inr r => (Ret r, [Paginated cb psb])
     | inl e =>
         (Ret None,
          [Paginated cb psb; Printed ("Warning: Could not list blueprints: " +:+ exn_str e)])
     end) ∧
  (find_project_profile R domain_id name h =
     match find_stream name psp with
     | inr r => (Ret r, [Paginated cp psp])
     | inl e =>
         (Ret None,
          [Paginated cp psp;
           Printed ("Warning: Could not list project profiles: " +:+ exn_str e)])
     end) ∧
  (∀ listing, delivers psb listing →
     find_blueprint R domain_id name h =
       lookup_result cb psb "Warning: Could not list blueprints: " name listing) ∧
  (∀ listing, delivers psp listing →
     find_project_profile R domain_id name h =
       lookup_result cp psp "Warning: Could not list project profiles: " name listing).
Proof.
  intros cb cp psb psp. unfold find_blueprint, find_project_profile.
  split; [apply find_generic|]. split; [apply find_generic|].
  split; intros listing Hd; by apply find_generic_delivers.
Qed.

Lemma lookup_degrades_to_absent_witness :
  find_blueprint Scenario.throttled_listing "dzd_1" "NeMo-Tooling" [] =
    (Ret None,
     [Paginated (list_blueprints_call "dzd_1")
        (paginate Scenario.throttled_listing [] (list_blueprints_call "dzd_1"));
      Printed ("Warning: Could not list blueprints: " +:+ exn_str Scenario.throttled)]) ∧
  find_project_profile Scenario.two_page_listing "dzd_1" "NeMo-Tooling" [] =
    (Ret (Some Scenario.nemo_blueprint),
     [Paginated (list_profiles_call "dzd_1")
        (paginate Scenario.two_page_listing [] (list_profiles_call "dzd_1"))]).
Proof.
  split.
  - destruct (lookup_degrades_to_absent Scenario.throttled_listing "dzd_1" "NeMo-Tooling" [])
      as (_ & _ & Hb & _).
    apply (Hb [[Scenario.other_blueprint]]).
    repeat constructor.
  - destruct (lookup_degrades_to_absent Scenario.two_page_listing "dzd_1" "NeMo-Tooling" [])
      as (_ & _ & _ & Hp).
    apply (Hp [[Scenario.other_blueprint]; [Scenario.nemo_blueprint; Scenario.other_blueprint]]).
    repeat constructor.
Defined.

(** ** The all-users grant *)

Lemma truthy_opt_some s : s ≠ "" → truthy_opt (Some s) = true.
Proof. intros. apply truthy_opt_true. eauto. Qed.

(** the first half of [authorize_all_users]: the domain unit of the profile *)
Lemma authorize_all_users_listing_fails R domain_id profile_id du profile e h :
  invoke R (remote_view h) (get_profile_call domain_id profile_id) = inr profile →
  dict_get profile "domainUnitId" = Some (JStr du) → du ≠ "" →
  invoke R (remote_view h ++ [Called (get_profile_call domain_id profile_id) (inr profile)])
    (list_grants_call domain_id du) = inl e →
  ∃ r line,
    authorize_all_users R domain_id profile_id h =
      (Ret tt,
       [Printed "Authorizing all users for project profile...";
        Called (get_profile_call domain_id profile_id) (inr profile);
        Called (list_grants_call domain_id du) (inl e);
        Printed ("Warning: Could not check existing grants: " +:+ exn_str e);
        Called (all_users_grant_call domain_id du [profile_id]) r;
        Printed line]).
Proof.
  intros Hprofile Hdu Hne Hlist.
  unfold authorize_all_users.
  exec. fold (get_profile_call domain_id profile_id). rewrite Hprofile.
  exec. rewrite Hdu. simpl as_str_opt. exec. rewrite (truthy_opt_some _ Hne).
  exec. fold (list_grants_call domain_id du). rewrite Hlist. exec.
  rewrite (left_id_L ∅ (∪)), elements_singleton.
  fold (all_users_grant_call domain_id du [profile_id]).
  destruct (invoke R _ (all_users_grant_call _ _ _)) as [e'|d'] eqn:Hadd; exec.
  - destruct (_ || _); exec; by eexists _, _.
  - by eexists _, _.
Qed.

(** C9.  When the profile's domain unit is known and listing the existing
    grants fails, [authorize_all_users] logs the failure as a warning and
    still issues the grant call; the target list of that call is the
    desired profile alone, so no target authorized before is part of the
    request. *)
Theorem listing_failure_sends_only_desired_profile
    (R : remote) (domain_id profile_id du : string) (profile : dict) (e : exn) (h : log) :
  invoke R (remote_view h) (get_profile_call domain_id profile_id) = inr profile →
  dict_get profile "domainUnitId" = Some (JStr du) → du ≠ "" →
  invoke R (remote_view h ++ [Called (get_profile_call domain_id profile_id) (inr profile)])
    (list_grants_call domain_id du) = inl e →
  ∃ c r line,
    authorize_all_users R domain_id profile_id h =
      (Ret tt,
       [Printed "Authorizing all users for project profile...";
        Called (get_profile_call domain_id profile_id) (inr profile);
        Called (list_grants_call domain_id du) (inl e);
        Printed ("Warning: Could not check existing grants: " +:+ exn_str e);
        Called c r;
        Printed line]) ∧
    op c = "add_policy_grant" ∧
    profiles_sent c = Some (JArr [JStr profile_id]).
Proof.
  intros Hprofile Hdu Hne Hlist.
  destruct (authorize_all_users_listing_fails _ _ _ _ _ _ _ Hprofile Hdu Hne Hlist)
    as (r & line & Hrun).
  by exists (all_users_grant_call domain_id du [profile_id]), r, line.
Qed.

Lemma listing_failure_witness :
  ∃ c r line,
    authorize_all_users Scenario.grants_unlistable "dzd_1" "P3" [] =
      (Ret tt,
       [Printed "Authorizing all users for project profile...";
        Called (get_profile_call "dzd_1" "P3") (inr Scenario.root_profile);
        Called (list_grants_call "dzd_1" "root") (inl Scenario.access_denied);
        Printed ("Warning: Could not check existing grants: "
                 +:+ exn_str Scenario.access_denied);
        Called c r;
        Printed line]) ∧
    op c = "add_policy_grant" ∧
    profiles_sent c = Some (JArr [JStr "P3"]).
Proof.
  apply (listing_failure_sends_only_desired_profile
           Scenario.grants_unlistable "dzd_1" "P3" "root" Scenario.root_profile
           Scenario.access_denied []);
    [reflexivity|reflexivity|discriminate|reflexivity].
Defined.

(** *** Scanning the grants of a listing *)

Lemma all_users_profiles_listed g pg :
  lists_grant g pg →
  all_users_profiles g =
  inr (if is_all_users pg then Some (JArr (JStr <$> grant_profiles pg)) else None).
Proof.
  intros (d & p & -> & Hp & Hpg). unfold all_users_profiles.
  cbn [py_get py_index rbind]. unfold dict_get_or. rewrite Hp.
  cbn [default from_option id py_contains py_index rbind].
  destruct (is_all_users pg).
  - destruct Hpg as [(u & Hu & Hfilter) Hpath].
    rewrite bool_decide_eq_true_2 by (by rewrite Hu).
    rewrite Hu. cbn [py_contains rbind].
    rewrite bool_decide_eq_true_2 by done.
    cbn [at_path] in Hpath.
    destruct (dict_get d "detail") as [[| | | | |detail]|] eqn:Hdetail; try done.
    cbn [mbind option_bind at_path] in Hpath.
    destruct (dict_get detail "createProjectFromProjectProfile") as [[| | | | |create]|]
      eqn:Hcreate; try done.
    cbn [mbind option_bind at_path] in Hpath.
    destruct (dict_get create "projectProfiles") as [profiles|] eqn:Hprofiles; [|done].
    cbn [mbind option_bind at_path] in Hpath. injection Hpath as ->.
    cbn [default from_option id py_get rbind]. unfold dict_get_or. rewrite Hcreate.
    cbn [default from_option id py_get rbind]. unfold dict_get_or. by rewrite Hprofiles.
  - destruct Hpg as [Hnone|(u & Hu & Hfilter)].
    + rewrite bool_decide_eq_false_2; [done|]. rewrite Hnone. by intros [? [=]].
    + rewrite bool_decide_eq_true_2 by (by rewrite Hu).
      rewrite Hu. cbn [py_contains rbind].
      rewrite bool_decide_eq_false_2; [done|]. rewrite Hfilter. by intros [? [=]].
Qed.

Lemma set_update_strings acc (ps : list string) :
  set_update acc (JStr <$> ps) = (acc ∪ list_to_set ps, None).
Proof.
  revert acc. induction ps as [|p ps IH]; intros acc; simpl.
  - f_equal. set_solver.
  - rewrite IH. f_equal. set_solver.
Qed.

Lemma existsb_eq_str pid (ps : list string) :
  existsb (λ x, eq_str x pid) (JStr <$> ps) = bool_decide (pid ∈ ps).
Proof.
  induction ps as [|p ps IH]; [done|].
  rewrite fmap_cons. cbn [existsb eq_str].
  rewrite IH. destruct (String.eqb_spec p pid) as [->|Hne]; simpl.
  - symmetry. apply bool_decide_eq_true. set_solver.
  - apply bool_decide_ext. set_solver.
Qed.

Lemma scan_grants_done pid gl gs acc :
  Forall2 lists_grant gl gs → pid ∉ authorized gs →
  scan_grants pid gl acc = (acc ∪ authorized gs, ScanDone).
Proof.
  intros Hgl. revert acc. induction Hgl as [|g pg gl gs Hg _ IH]; intros acc Hnot; simpl.
  - f_equal. set_solver.
  - rewrite (all_users_profiles_listed _ _ Hg). simpl in Hnot.
    destruct (is_all_users pg).
    + simpl py_iter. cbv iota beta. rewrite set_update_strings.
      simpl py_contains. rewrite existsb_eq_str.
      rewrite bool_decide_eq_false_2 by set_solver.
      rewrite IH by set_solver. f_equal. set_solver.
    + by apply IH.
Qed.

Lemma scan_grants_found pid gl gs acc :
  Forall2 lists_grant gl gs → pid ∈ authorized gs →
  ∃ acc', scan_grants pid gl acc = (acc', ScanFound).
Proof.
  intros Hgl. revert acc. induction Hgl as [|g pg gl gs Hg _ IH]; intros acc Hin; simpl in *.
  - set_solver.
  - rewrite (all_users_profiles_listed _ _ Hg).
    destruct (is_all_users pg).
    + simpl py_iter. cbv iota beta. rewrite set_update_strings.
      simpl py_contains. rewrite existsb_eq_str.
      destruct (decide (pid ∈ grant_profiles pg)) as [Hpg|Hpg].
      * rewrite bool_decide_eq_true_2 by done. eauto.
      * rewrite bool_decide_eq_false_2 by done. apply IH. set_solver.
    + by apply IH.
Qed.

(** C1, as the code has it.  Merging is monotone over the grants that
    the one listing shows.  Let the profile be read and name its domain
    unit, and let the listing of the grants of that unit be answered;
    the answer shows the grants [gs], each with whatever further members,
    and it is the only one asked for.  If the desired profile is already
    a target of an all-users grant among them, the function reports that
    the authorization exists and issues no mutating call.  Otherwise it
    issues exactly one mutating call, a grant whose target list has no
    duplicates and, as a set, is the union of the targets of the
    all-users grants shown and the desired profile; so every target that
    the answer shows as authorized is part of the request. *)
Theorem grant_merge_is_monotone
    (R : remote) (domain_id profile_id du : string) (profile grants : dict)
    (gs : list policy_grant) (h : log) :
  invoke R (remote_view h) (get_profile_call domain_id profile_id) = inr profile →
  dict_get profile "domainUnitId" = Some (JStr du) → du ≠ "" →
  invoke R (remote_view h ++ [Called (get_profile_call domain_id profile_id) (inr profile)])
    (list_grants_call domain_id du) = inr grants →
  answer_shows grants gs →
  let run := authorize_all_users R domain_id profile_id h in
  let reads :=
    [Printed "Authorizing all users for project profile...";
     Called (get_profile_call domain_id profile_id) (inr profile);
     Called (list_grants_call domain_id du) (inr grants)] in
  (profile_id ∈ authorized gs →
     run = (Ret tt, reads ++ [Printed "✓ Authorization already exists"]) ∧
     mutations run.2 = []) ∧
  (profile_id ∉ authorized gs →
     ∃ sent r line,
       run = (Ret tt, reads ++ [Called (all_users_grant_call domain_id du sent) r;
                                Printed line]) ∧
       mutations run.2 = [all_users_grant_call domain_id du sent] ∧
       profiles_sent (all_users_grant_call domain_id du sent) = Some (JArr (JStr <$> sent)) ∧
       NoDup sent ∧
       list_to_set sent = authorized gs ∪ ({[profile_id]} : gset string) ∧
       (∀ p, p ∈ authorized gs → p ∈ sent)).
Proof.
  intros Hprofile Hdu Hne Hlist (gl & Hgl & Hshows) run reads. subst run reads.
  assert (py_iter (dict_get_or grants "grantList" (JArr [])) = inr gl) as Hiter.
  { by rewrite Hgl. }
  split.
  - intros Hin. destruct (scan_grants_found _ _ _ ∅ Hshows Hin) as (acc' & Hscan).
    unfold authorize_all_users.
    exec. fold (get_profile_call domain_id profile_id). rewrite Hprofile.
    exec. rewrite Hdu. simpl as_str_opt. exec. rewrite (truthy_opt_some _ Hne).
    exec. fold (list_grants_call domain_id du). rewrite Hlist. exec.
    rewrite Hiter. exec. rewrite Hscan. exec. done.
  - intros Hnin.
    set (sent := elements (authorized gs ∪ {[profile_id]})).
    assert (NoDup sent ∧ list_to_set sent = authorized gs ∪ ({[profile_id]} : gset string) ∧
            ∀ p, p ∈ authorized gs → p ∈ sent) as Hsent.
    { split; [apply NoDup_elements|]. split; [apply list_to_set_elements_L|].
      intros p Hp. apply elem_of_elements. set_solver. }
    unfold authorize_all_users.
    exec. fold (get_profile_call domain_id profile_id). rewrite Hprofile.
    exec. rewrite Hdu. simpl as_str_opt. exec. rewrite (truthy_opt_some _ Hne).
    exec. fold (list_grants_call domain_id du). rewrite Hlist. exec.
    rewrite Hiter. exec. rewrite (scan_grants_done _ _ _ ∅ Hshows Hnin). exec.
    rewrite !(left_id_L ∅ (∪)). fold sent.
    fold (all_users_grant_call domain_id du sent).
    destruct (invoke R _ (all_users_grant_call _ _ _)) as [e'|d'] eqn:Hadd; exec.
    + destruct (_ || _); exec; by eexists sent, _, _.
    + by eexists sent, _, _.
Qed.

(** the listing of the scenarios shows the two grants *)
Lemma listed_grants_shown : answer_shows Scenario.grants_answer Scenario.existing_grants.
Proof.
  exists Scenario.listed_grants. split; [reflexivity|].
  repeat constructor.
  - eexists _, _. split; [reflexivity|]. split; [reflexivity|]. left. reflexivity.
  - eexists _, _. split; [reflexivity|]. split; [reflexivity|]. split; [|reflexivity].
    eexists. split; [reflexivity|]. eexists. reflexivity.
Defined.

Lemma grant_merge_witness :
  (∃ sent r line,
     authorize_all_users Scenario.granted_domain "dzd_1" "P3" [] =
       (Ret tt,
        [Printed "Authorizing all users for project profile...";
         Called (get_profile_call "dzd_1" "P3") (inr Scenario.root_profile);
         Called (list_grants_call "dzd_1" "root") (inr Scenario.grants_answer)] ++
        [Called (all_users_grant_call "dzd_1" "root" sent) r; Printed line]) ∧
     list_to_set sent = ({[ "P1"; "P2"; "P3" ]} : gset string)) ∧
  authorize_all_users Scenario.granted_domain "dzd_1" "P2" [] =
    (Ret tt,
     [Printed "Authorizing all users for project profile...";
      Called (get_profile_call "dzd_1" "P2") (inr Scenario.root_profile);
      Called (list_grants_call "dzd_1" "root") (inr Scenario.grants_answer)] ++
     [Printed "✓ Authorization already exists"]).
Proof.
  split.
  - destruct (grant_merge_is_monotone Scenario.granted_domain "dzd_1" "P3" "root"
                Scenario.root_profile Scenario.grants_answer Scenario.existing_grants [])
      as (_ & Hmerge);
      [reflexivity|reflexivity|discriminate|reflexivity|exact listed_grants_shown|].
    destruct Hmerge as (sent & r & line & Hrun & _ & _ & _ & Hset & _).
    { vm_compute. set_solver. }
    exists sent, r, line. split; [exact Hrun|].
    rewrite Hset. vm_compute authorized. set_solver.
  - destruct (grant_merge_is_monotone Scenario.granted_domain "dzd_1" "P2" "root"
                Scenario.root_profile Scenario.grants_answer Scenario.existing_grants [])
      as (Hnoop & _);
      [reflexivity|reflexivity|discriminate|reflexivity|exact listed_grants_shown|].
    destruct Hnoop as (Hrun & _); [|exact Hrun].
    simpl. set_solver.
Defined.

(** C1 as stated fails: the root unit holds an all-users grant for P1
    and P2, as a later listing shows, but the listing that the run asks
    for is throttled; the run then sends a grant for P3 alone. *)
Lemma throttled_listing_drops_the_existing_targets :
  ¬ merges_with_existing_grants Scenario.granted_domain_throttled "dzd_1" "P3" [].
Proof.
  intros Hmerge.
  destruct (Hmerge Scenario.root_profile "root" Scenario.existing_grants)
    as [_ Hnew]; [reflexivity|reflexivity|discriminate| |].
  { exists [Called (list_grants_call "dzd_1" "root") (inl Scenario.listing_throttled)],
      Scenario.grants_answer.
    split; [reflexivity|exact listed_grants_shown]. }
  destruct Hnew as (sent & Hsent & Hset).
  { vm_compute. set_solver. }
  assert ("P1" ∈ sent) as Hin.
  { apply (elem_of_list_to_set (C := gset string)). rewrite Hset.
    vm_compute authorized. set_solver. }
  apply (list_elem_of_fmap_2 JStr) in Hin.
  assert (JStr <$> sent = [JStr "P3"]) as Hsame.
  { assert (profiles_sent <$> mutations
              (authorize_all_users Scenario.granted_domain_throttled "dzd_1" "P3" []).2 =
            [Some (JArr (JStr <$> sent))]) as Hp by (by rewrite Hsent).
    vm_compute in Hp. injection Hp as Hp. symmetry. exact Hp. }
  rewrite Hsame in Hin. apply list_elem_of_singleton in Hin. discriminate.
Qed.

(** ** The project profile *)

Lemma dict_get_set d k v k' :
  dict_get (dict_set d k v) k' = if String.eqb k k' then Some v else dict_get d k'.
Proof.
  induction d as [|[k0 v0] d IH]; simpl.
  - done.
  - destruct (String.eqb_spec k0 k) as [->|Hne]; simpl.
    + by destruct (String.eqb k k').
    + rewrite IH. destruct (String.eqb_spec k0 k') as [->|Hne'].
      * destruct (String.eqb_spec k k'); [congruence|done].
      * done.
Qed.

Lemma dict_set_twice d k v w : dict_set (dict_set d k v) k w = dict_set d k w.
Proof.
  induction d as [|[k0 v0] d IH]; simpl.
  - by rewrite String.eqb_refl.
  - destruct (String.eqb_spec k0 k) as [->|Hne]; simpl.
    + by rewrite String.eqb_refl.
    + destruct (String.eqb_spec k0 k); [done|]. by rewrite IH.
Qed.

Lemma set_id_previous d v o :
  set_id (dict_set d "id" v) o = set_id d (match o with Some i => Some i | None => Some v end).
Proof. destruct o; simpl; [apply dict_set_twice|done]. Qed.

Lemma eq_str_inj j s t : eq_str j s = true → s ≠ t → eq_str j t = false.
Proof.
  destruct j; simpl; try done.
  intros ->%String.eqb_eq Hne. by apply String.eqb_neq.
Qed.

Lemma preserve_ids_previous tooling nemo (ecs : list dict) d0 d1 :
  tooling ≠ nemo →
  preserve_ids tooling nemo (JObj <$> ecs) [d0; d1] =
    ([set_id d0 (previous_id tooling ecs); set_id d1 (previous_id nemo ecs)], None).
Proof.
  intros Hne. revert d0 d1. induction ecs as [|ec ecs IH]; intros d0 d1; [done|].
  rewrite fmap_cons. cbn [preserve_ids preserve_id previous_id].
  destruct (eq_str (dict_get_or ec "environmentBlueprintId" JNull) tooling) eqn:Ht.
  - rewrite (eq_str_inj _ _ nemo Ht Hne). cbn [andb].
    destruct (truthy (dict_get_or ec "id" JNull)).
    + unfold store_set, tooling_ref. cbn. rewrite IH, set_id_previous.
      by destruct (previous_id nemo ecs).
    + rewrite IH. by destruct (previous_id tooling ecs), (previous_id nemo ecs).
  - cbn [andb].
    destruct (eq_str (dict_get_or ec "environmentBlueprintId" JNull) nemo
              && truthy (dict_get_or ec "id" JNull)).
    + unfold store_set, nemo_tooling_ref. cbn. rewrite IH, set_id_previous.
      by destruct (previous_id tooling ecs).
    + rewrite IH. by destruct (previous_id tooling ecs), (previous_id nemo ecs).
Qed.

Lemma set_id_tooling_config t region account i :
  set_id (tooling_config t region account) i = with_id (tooling_config t region account) i.
Proof. by destruct i. Qed.

Lemma set_id_nemo_tooling_config n region account i :
  set_id (nemo_tooling_config n region account) i =
  with_id (nemo_tooling_config n region account) i.
Proof. by destruct i. Qed.

Lemma dict_get_with_id d i : dict_get d "id" = None → dict_get (with_id d i) "id" = i.
Proof.
  intros Hd. destruct i as [v|]; simpl; [|done].
  induction d as [|[k0 v0] d IH]; simpl in *; [done|].
  destruct (String.eqb k0 "id"); [done|]. by apply IH.
Qed.

(** C2, as the code has it.  Identity preservation, when the details of
    the profile are read.  Let the listing hold the profile, with id
    [profile_id], let the reading of its details be answered and list the
    well-formed configurations [ecs], and let the two blueprints differ.
    Then the update call carries, in order, the desired Tooling
    configuration and the desired NeMo Tooling configuration, each
    extended by the id previously assigned to the configuration of its
    blueprint, and left without an "id" key when no existing
    configuration of that blueprint has an id. *)
Theorem update_preserves_configuration_ids
    (R : remote) (domain_id profile_name nemo_id tooling_id region account_id : string)
    (listing : list (list dict)) (existing details : dict) (profile_id : string)
    (ecs : list dict) (h : log) :
  tooling_id ≠ nemo_id →
  let ps := paginate R (remote_view h) (list_profiles_call domain_id) in
  delivers ps listing →
  first_listed profile_name listing = Some existing →
  dict_get existing "id" = Some (JStr profile_id) →
  invoke R (remote_view h ++ [Paginated (list_profiles_call domain_id) ps])
    (get_profile_call domain_id profile_id) = inr details →
  dict_get details "environmentConfigurations" = Some (JArr (JObj <$> ecs)) →
  let c0 := with_id (tooling_config tooling_id region account_id) (previous_id tooling_id ecs) in
  let c1 := with_id (nemo_tooling_config nemo_id region account_id) (previous_id nemo_id ecs) in
  let update := update_profile_call domain_id profile_id (JArr [JObj c0; JObj c1]) in
  dict_get c0 "id" = previous_id tooling_id ecs ∧
  dict_get c1 "id" = previous_id nemo_id ecs ∧
  ∃ r,
    (create_or_update_project_profile R domain_id profile_name nemo_id tooling_id
       region account_id h).2 =
      [Paginated (list_profiles_call domain_id) ps;
       Printed ("Project profile '" +:+ profile_name +:+ "' exists (ID: " +:+ profile_id +:+ ")");
       Called (get_profile_call domain_id profile_id) (inr details);
       Printed "Updating project profile...";
       Called update r]
      ++ match r with
         | inr _ => [Printed "✓ Project profile updated"]
         | inl _ => []
         end.
Proof.
  intros Hne ps Hdelivers Hfirst Hid Hdetails Hecs c0 c1 update.
  assert (find_stream profile_name ps = inr (Some existing)) as Hfind.
  { unfold find_stream. by rewrite (scan_pages_delivers _ _ _ _ Hdelivers), Hfirst. }
  split; [by apply dict_get_with_id|]. split; [by apply dict_get_with_id|].
  assert (if_existing (Some existing) = Some existing) as Hex.
  { destruct existing; [discriminate Hid|done]. }
  unfold create_or_update_project_profile, find_project_profile.
  exec. fold (list_profiles_call domain_id). fold ps. rewrite Hfind. exec.
  rewrite Hex. unfold dict_index, py_index. rewrite Hid. simpl rbind. exec.
  fold (get_profile_call domain_id profile_id). rewrite Hdetails. exec.
  unfold dict_get_or. rewrite Hecs. simpl py_iter. exec.
  rewrite (preserve_ids_previous _ _ _ _ _ Hne). exec.
  rewrite set_id_tooling_config, set_id_nemo_tooling_config.
  unfold deref_all, tooling_ref, nemo_tooling_ref. simpl omap.
  fold c0 c1. fold (update_profile_call domain_id profile_id (JArr [JObj c0; JObj c1])).
  fold update.
  destruct (invoke R _ update) as [e|d]; exec; [by exists (inl e)|by exists (inr d)].
Qed.

Lemma update_preserves_ids_witness :
  ∃ r,
    (create_or_update_project_profile Scenario.second_run "dzd_1" "NeMo-HyperPod-Profile"
       "bp-nemo" "bp-tooling" "us-west-2" "111122223333" []).2 =
      [Paginated (list_profiles_call "dzd_1")
         (paginate Scenario.second_run [] (list_profiles_call "dzd_1"));
       Printed "Project profile 'NeMo-HyperPod-Profile' exists (ID: prof-1)";
       Called (get_profile_call "dzd_1" "prof-1") (inr Scenario.profile_details);
       Printed "Updating project profile...";
       Called (update_profile_call "dzd_1" "prof-1"
                 (JArr [JObj (tooling_config "bp-tooling" "us-west-2" "111122223333"
                              ++ [("id", JStr "E0")]);
                        JObj (nemo_tooling_config "bp-nemo" "us-west-2" "111122223333"
                              ++ [("id", JStr "E1")])])) r]
      ++ match r with
         | inr _ => [Printed "✓ Project profile updated"]
         | inl _ => []
         end.
Proof.
  apply (update_preserves_configuration_ids Scenario.second_run "dzd_1"
           "NeMo-HyperPod-Profile" "bp-nemo" "bp-tooling" "us-west-2" "111122223333"
           [[Scenario.listed_profile]] Scenario.listed_profile Scenario.profile_details "prof-1"
           [[("id", JStr "E0"); ("environmentBlueprintId", JStr "bp-tooling")];
            [("id", JStr "E1"); ("environmentBlueprintId", JStr "bp-nemo")]] []);
    [discriminate|repeat constructor|reflexivity|reflexivity|reflexivity|reflexivity].
Defined.

(** C2 as stated fails: the profile has the configurations E0 and E1 of
    the two blueprints, as a later reading shows, but the reading that
    the run asks for is throttled; the update then carries both desired
    configurations without an id. *)
Lemma throttled_reading_drops_the_configuration_ids :
  ¬ preserves_existing_ids Scenario.second_run_throttled "dzd_1"
      (create_or_update_project_profile Scenario.second_run_throttled "dzd_1"
         "NeMo-HyperPod-Profile" "bp-nemo" "bp-tooling" "us-west-2" "111122223333" []).
Proof.
  intros Hkeeps.
  pose (ecs := [[("id", JStr "E0"); ("environmentBlueprintId", JStr "bp-tooling")];
                [("id", JStr "E1"); ("environmentBlueprintId", JStr "bp-nemo")]] : list dict).
  pose (sent := JArr [JObj (tooling_config "bp-tooling" "us-west-2" "111122223333");
                      JObj (nemo_tooling_config "bp-nemo" "us-west-2" "111122223333")]).
  destruct (Hkeeps "prof-1" ecs (update_profile_call "dzd_1" "prof-1" sent) (inr []))
    as (c0 & c1 & Hsent & Hids).
  - exists [Called (get_profile_call "dzd_1" "prof-1") (inl Scenario.reading_throttled)],
      Scenario.profile_details.
    split; reflexivity.
  - apply list_elem_of_In. vm_compute. repeat first [left; reflexivity | right].
  - reflexivity.
  - reflexivity.
  - assert (c0 = tooling_config "bp-tooling" "us-west-2" "111122223333") as ->.
    { vm_compute in Hsent. injection Hsent as <- _. reflexivity. }
    specialize (Hids (tooling_config "bp-tooling" "us-west-2" "111122223333")
                  "bp-tooling" (JStr "E0")).
    discriminate Hids; [left|reflexivity|reflexivity].
Qed.

(** *** The order of the configurations *)

Lemma store_ok_initial tooling nemo region account :
  store_ok tooling nemo region account
    [tooling_config tooling region account; nemo_tooling_config nemo region account].
Proof. by eexists _, _. Qed.

Lemma dict_get_set_other d v k : k ≠ "id" → dict_get (dict_set d "id" v) k = dict_get d k.
Proof.
  intros Hk. rewrite dict_get_set.
  destruct (String.eqb_spec "id" k); [congruence|done].
Qed.

Lemma preserve_id_store_ok tooling nemo region account ec σ :
  store_ok tooling nemo region account σ →
  store_ok tooling nemo region account (preserve_id tooling nemo ec σ).1.
Proof.
  intros (d0 & d1 & -> & H0 & H1). unfold preserve_id.
  destruct ec as [| | | | |d]; try by eexists _, _.
  destruct (_ && _).
  { eexists _, _. split; [reflexivity|]. split; [|done].
    intros k Hk. rewrite dict_get_set_other by done. by apply H0. }
  destruct (_ && _).
  { eexists _, _. split; [reflexivity|]. split; [done|].
    intros k Hk. rewrite dict_get_set_other by done. by apply H1. }
  by eexists _, _.
Qed.

Lemma preserve_ids_store_ok tooling nemo region account ecs σ :
  store_ok tooling nemo region account σ →
  store_ok tooling nemo region account (preserve_ids tooling nemo ecs σ).1.
Proof.
  revert σ. induction ecs as [|ec ecs IH]; intros σ Hσ; simpl; [done|].
  pose proof (preserve_id_store_ok _ _ _ _ ec σ Hσ) as Hstep.
  destruct (preserve_id tooling nemo ec σ) as [σ' [e|]]; simpl in *; [done|].
  by apply IH.
Qed.

Lemma store_ok_sent tooling nemo region account σ :
  store_ok tooling nemo region account σ →
  base_then_nemo tooling nemo (deref_all σ [tooling_ref; nemo_tooling_ref]).
Proof.
  intros (d0 & d1 & -> & H0 & H1). exists d0, d1.
  split; [done|]. rewrite !H0, !H1 by done. by repeat split.
Qed.

(** the block that copies the ids returns a store that is still in order *)
Lemma preserved_store_ok R domain_id profile_id tooling nemo region account h σ :
  (try_except
     (profile_details <- sdk R "datazone" "get_project_profile"
                           [("domainIdentifier", JStr domain_id);
                            ("identifier", JStr profile_id)];;
      existing_configs <-
        lift (py_iter (dict_get_or profile_details "environmentConfigurations" (JArr [])));;
      match preserve_ids tooling nemo existing_configs
              [tooling_config tooling region account;
               nemo_tooling_config nemo region account] with
      | (σ', None) => ret σ'
      | (σ', Some e) =>
          print ("Warning: Could not get profile details: " +:+ exn_str e);; ret σ'
      end)
     (λ e, print ("Warning: Could not get profile details: " +:+ exn_str e);;
           ret [tooling_config tooling region account;
                nemo_tooling_config nemo region account]) h).1 = Ret σ →
  store_ok tooling nemo region account σ.
Proof.
  exec. destruct (invoke R _ _) as [e|details]; exec.
  { intros [= <-]. apply store_ok_initial. }
  destruct (py_iter _) as [e|ecs]; exec.
  { intros [= <-]. apply store_ok_initial. }
  pose proof (preserve_ids_store_ok tooling nemo region account ecs _
                (store_ok_initial tooling nemo region account)) as Hok.
  destruct (preserve_ids _ _ _ _) as [σ' [e|]]; exec; by intros [= <-].
Qed.

Lemma profile_writes_in_order R domain_id profile_name nemo tooling region account :
  emits (Forall (on_calls (sends_base_then_nemo tooling nemo)))
    (create_or_update_project_profile R domain_id profile_name nemo tooling region account).
Proof.
  unfold create_or_update_project_profile, find_project_profile.
  apply emits_bind; [tc_solve| |intros existing].
  { emits_steps ltac:(on_calls_leaf ltac:(first [done | by intros [=]])). }
  cbv zeta. destruct (if_existing existing) as [found|].
  - apply emits_bind; [tc_solve|emits_steps idtac|intros profile_id].
    apply emits_bind; [tc_solve|emits_steps ltac:(on_calls_leaf done)|intros _].
    apply (emits_bind_post _ (store_ok tooling nemo region account)); [| |intros σ Hσ].
    + emits_steps ltac:(on_calls_leaf ltac:(first [done | by intros [=]])).
    + intros h σ. apply preserved_store_ok.
    + emits_steps ltac:(on_calls_leaf ltac:(first [done | idtac])).
      intros _. eexists. split; [reflexivity|]. by apply (store_ok_sent _ _ region account).
  - emits_steps ltac:(on_calls_leaf ltac:(first [done | idtac])).
    intros _. eexists. split; [reflexivity|].
    apply (store_ok_sent _ _ region account), store_ok_initial.
Qed.

(** *** One write per run *)

Lemma count_calls_app W l1 l2 :
  count_calls W (l1 ++ l2) = count_calls W l1 + count_calls W l2.
Proof. unfold count_calls. by rewrite calls_app, List.filter_app, length_app. Qed.

Lemma count_calls_silent W l :
  Forall (on_calls (λ c, W c = false)) l → count_calls W l = 0.
Proof.
  intros Hl%Forall_on_calls. unfold count_calls.
  induction Hl as [|c cs Hc _ IH]; simpl; [done|]. by rewrite Hc.
Qed.

Lemma once_bind_silent {A B} W (m : M A) (f : A → M B) h :
  emits (Forall (on_calls (λ c, W c = false))) m →
  (∀ a h', once_if_returns W (f a h')) →
  once_if_returns W (bind m f h).
Proof.
  intros Hm Hf. rewrite bind_run. specialize (Hm h).
  apply count_calls_silent in Hm.
  destruct (m h) as [[a|e|n] l1]; simpl in *.
  - destruct (Hf a (h ++ l1)) as [Hle Hret]. unfold once_if_returns, after. simpl.
    rewrite count_calls_app, Hm. simpl. done.
  - split; [simpl; lia|done].
  - split; [simpl; lia|done].
Qed.

Lemma profile_written_once R domain_id profile_name nemo tooling region account h :
  once_if_returns is_profile_write
    (create_or_update_project_profile R domain_id profile_name nemo tooling region account h).
Proof.
  unfold create_or_update_project_profile, find_project_profile.
  apply once_bind_silent.
  { emits_steps ltac:(on_calls_leaf done). }
  intros existing h1. cbv zeta. destruct (if_existing existing) as [found|].
  - apply once_bind_silent; [emits_steps idtac|intros profile_id h2].
    apply once_bind_silent; [emits_steps ltac:(on_calls_leaf done)|intros _ h3].
    apply once_bind_silent; [emits_steps ltac:(on_calls_leaf done)|intros σ h4].
    exec. destruct (invoke R _ _) as [e|d]; exec.
    + split; [by cbv|done].
    + split; [by cbv|by intros ? _].
  - exec. destruct (invoke R _ _) as [e|d]; exec.
    + split; [by cbv|done].
    + destruct (rbind _ _) as [e|profile_id]; exec.
      * split; [by cbv|done].
      * split; [by cbv|by intros ? _].
Qed.

Lemma emits_Forall_impl {A} (Q Q' : entry → Prop) (m : M A) :
  (∀ e, Q e → Q' e) → emits (Forall Q) m → emits (Forall Q') m.
Proof. intros HQ Hm h. eapply Forall_impl; [apply Hm|done]. Qed.



(** ** Update calls *)

Ltac update_leaf :=
  on_calls_leaf ltac:(first [done | split; intros Hop; first [discriminate Hop | reflexivity]]).

Lemma main_updates R H : emits (Forall (on_calls update_carries)) (main R H).
Proof. emits_steps update_leaf. Qed.

Lemma blueprint_updates R H domain_id role arn region account :
  emits (Forall (on_calls update_carries))
    (create_or_update_nemo_tooling_blueprint R H domain_id role arn region account).
Proof. emits_steps update_leaf. Qed.

Lemma profile_updates R domain_id profile_name nemo tooling region account :
  emits (Forall (on_calls update_carries))
    (create_or_update_project_profile R domain_id profile_name nemo tooling region account).
Proof. emits_steps update_leaf. Qed.

Lemma update_carries_no_name c : update_carries c → is_update c → "name" ∉ dict_keys (kwargs c).
Proof.
  intros [Hb Hp] [Hop|Hop]; [rewrite (Hb Hop)|rewrite (Hp Hop)];
    rewrite !not_elem_of_cons; repeat split; try discriminate; apply not_elem_of_nil.
Qed.

(** C10.  Updates never carry the resource's name.  In every run of the
    script, and in every run of the two reconciling functions on any
    arguments, an update of the blueprint carries exactly the domain, the
    identifier, the description, the provisioning properties and the user
    parameters, and an update of the project profile carries exactly the
    domain, the identifier, the description and the environment
    configurations; neither has an argument called name. *)
Theorem updates_never_carry_the_name
    (R : remote) (H : host) (h : log)
    (domain_id provisioning_role_arn : string) (manage_access_role_arn : option string)
    (region account_id profile_name nemo_id tooling_id : string) :
  let script_run := main R H h in
  let blueprint_run :=
    create_or_update_nemo_tooling_blueprint R H domain_id provisioning_role_arn
      manage_access_role_arn region account_id h in
  let profile_run :=
    create_or_update_project_profile R domain_id profile_name nemo_id tooling_id
      region account_id h in
  Forall (λ c, update_carries c ∧ (is_update c → "name" ∉ dict_keys (kwargs c)))
    (calls script_run.2 ++ calls blueprint_run.2 ++ calls profile_run.2).
Proof.
  intros script_run blueprint_run profile_run.
  assert (∀ l, Forall update_carries l →
               Forall (λ c, update_carries c ∧ (is_update c → "name" ∉ dict_keys (kwargs c))) l)
    as Hname.
  { intros l Hl. eapply Forall_impl; [exact Hl|].
    intros c Hc. split; [done|]. by apply update_carries_no_name. }
  rewrite !Forall_app. repeat split; apply Hname, Forall_on_calls, emits_run.
  - apply main_updates.
  - apply blueprint_updates.
  - apply profile_updates.
Qed.

(** ** Failures that end the run *)

Lemma silent_no_failure P (l l1 l2 : log) c e :
  Forall (on_calls (λ c, P c = false)) l → l = l1 ++ Called c (inl e) :: l2 → P c = true → False.
Proof.
  intros Hl -> Hc. apply Forall_app in Hl as [_ Hl].
  apply Forall_cons in Hl as [Hl _]. simpl in Hl. congruence.
Qed.

Lemma aborts_on_silent {A} P (o : outcome A) l :
  Forall (on_calls (λ c, P c = false)) l → aborts_on P (o, l).
Proof. intros Hl l1 c e l2 Heq Hc. destruct (silent_no_failure P _ _ _ _ _ Hl Heq Hc). Qed.

Lemma aborts_on_after {A} P la (o : outcome A) lb :
  Forall (on_calls (λ c, P c = false)) la → aborts_on P (o, lb) → aborts_on P (o, la ++ lb).
Proof.
  intros Hla Hlb l1 c e l2 Heq Hc. simpl in *.
  apply List.app_eq_app in Heq as [l [[-> Heq]|[-> Heq]]].
  - destruct l as [|x l]; simpl in Heq.
    + apply (Hlb [] c e l2); [by rewrite <- Heq|done].
    + injection Heq as <- ->.
      destruct (silent_no_failure P _ _ _ _ _ Hla eq_refl Hc).
  - by apply (Hlb l c e l2).
Qed.

Section Aborting.
Context (P : call → bool).

Lemma aborting_silent {A} (m : M A) :
  emits (Forall (on_calls (λ c, P c = false))) m → aborting P m.
Proof. intros Hm h. specialize (Hm h). destruct (m h). by apply aborts_on_silent. Qed.

Lemma aborting_sdk R s o args : aborting P (sdk R s o args).
Proof.
  intros h l1 c e l2. rewrite sdk_run.
  destruct (invoke R _ _) as [e'|d]; simpl; intros Heq _.
  - destruct l1 as [|x [|y l1]]; simplify_eq/=; done.
  - destruct l1 as [|x [|y l1]]; simplify_eq/=.
Qed.

Lemma aborting_bind {A B} (m : M A) (f : A → M B) :
  aborting P m → (∀ a, aborting P (f a)) → aborting P (bind m f).
Proof.
  intros Hm Hf h. rewrite bind_run. specialize (Hm h).
  destruct (m h) as [[a|e0|n] la].
  - specialize (Hf a (h ++ la)). destruct (f a (h ++ la)) as [o lb].
    unfold after. simpl.
    intros l1 c e l2 Heq Hc. simpl in *.
    apply List.app_eq_app in Heq as [l [[-> Heq]|[-> Heq]]].
    + destruct l as [|x l]; simpl in Heq.
      * apply (Hf [] c e l2); [by rewrite <- Heq|done].
      * injection Heq as <- ->.
        destruct (Hm l1 c e l eq_refl Hc) as [_ ?]. done.
    + by apply (Hf l c e l2).
  - intros l1 c e l2 Heq Hc. destruct (Hm l1 c e l2 Heq Hc) as [-> [= ->]]. done.
  - intros l1 c e l2 Heq Hc. destruct (Hm l1 c e l2 Heq Hc) as [_ [=]].
Qed.

Lemma aborting_try_except {A} (body : M A) handler :
  emits (Forall (on_calls (λ c, P c = false))) body → (∀ e, aborting P (handler e)) →
  aborting P (try_except body handler).
Proof.
  intros Hb Hh h. rewrite try_except_run. specialize (Hb h).
  destruct (body h) as [[a|e0|n] la]; simpl in *; try by apply aborts_on_silent.
  specialize (Hh e0 (h ++ la)). destruct (handler e0 (h ++ la)) as [o lb].
  by apply aborts_on_after.
Qed.

Lemma aborting_try_bare {A} (body handler : M A) :
  emits (Forall (on_calls (λ c, P c = false))) body → aborting P handler →
  aborting P (try_bare body handler).
Proof.
  intros Hb Hh h. rewrite try_bare_run. specialize (Hb h).
  destruct (body h) as [[a|e0|n] la]; simpl in *; try by apply aborts_on_silent.
  - specialize (Hh (h ++ la)). destruct (handler (h ++ la)) as [o lb].
    by apply aborts_on_after.
  - specialize (Hh (h ++ la)). destruct (handler (h ++ la)) as [o lb].
    by apply aborts_on_after.
Qed.
End Aborting.

Ltac silent_leaf := on_calls_leaf ltac:(first [done | reflexivity]).

Ltac aborting_step :=
  lazymatch goal with
  | |- aborting _ (sdk _ _ _ _) => apply aborting_sdk
  | |- aborting _ (bind _ _) => apply aborting_bind; [|intros ?]
  | |- aborting _ (try_except _ _) =>
      apply aborting_try_except; [emits_steps silent_leaf|intros ?]
  | |- aborting _ (try_bare _ _) => apply aborting_try_bare; [emits_steps silent_leaf|]
  | |- aborting _ (ret _) => apply aborting_silent; emits_step silent_leaf
  | |- aborting _ (raise _) => apply aborting_silent; emits_step silent_leaf
  | |- aborting _ (sys_exit _) => apply aborting_silent; emits_step silent_leaf
  | |- aborting _ (lift _) => apply aborting_silent; emits_step silent_leaf
  | |- aborting _ (print _) => apply aborting_silent; emits_step silent_leaf
  | |- aborting _ (sdk_pages _ _ _ _) => apply aborting_silent; emits_step silent_leaf
  | |- aborting _ (match ?x with _ => _ end) => destruct x
  | |- aborting _ (let _ := _ in _) => cbv zeta
  | |- aborting _ _ => progress autounfold with script
  end.


(** ** Failed grants *)

Lemma failed_grants_reported_app l1 l2 :
  failed_grants_reported l1 → failed_grants_reported l2 → failed_grants_reported (l1 ++ l2).
Proof.
  intros H1 H2. induction l1 as [|x l1 IH]; [done|].
  destruct x as [c [e|d]|c ps|s]; simpl in *; try by apply IH.
  destruct H1 as [Hnext Hrest]. split; [|by apply IH].
  intros Hg. destruct (Hnext Hg) as [rest' ->]. by eexists.
Qed.

#[global] Instance failed_grants_reported_closed : Closed failed_grants_reported.
Proof. split; [done|apply failed_grants_reported_app]. Qed.








(** ** Conflict absorption *)






(** ** The error-handling claims on concrete runs *)

Ltac find_entry := repeat first [left; reflexivity | right].




(** with the role in place, the role script completes *)
Example role_in_place_run :
  let run :=
    DomainConnectionRole.script Scenario.role_in_place (<["DOMAIN_ID" := "dzd_1"]> ∅)
      Scenario.show_json [] in
  run.1 = Exit 0 ∧
  op <$> mutations run.2 =
    ["create_role"; "update_assume_role_policy"; "put_role_policy"; "create_user_profile";
     "add_entity_owner"].
Proof. by vm_compute. Qed.

(** on a later run in which every grant is in place, the three conflicts
    are reported as existing grants and the script completes *)
Example grants_in_place_run :
  let run := main Scenario.grants_in_place Scenario.host_full [] in
  exit_code run.1 = 0%Z ∧
  List.filter (contains "already exists") (stdout run.2) =
    ["✓ CREATE_ENVIRONMENT_PROFILE grant already exists";
     "✓ CREATE_ENVIRONMENT_FROM_BLUEPRINT grant already exists";
     "✓ Authorization already exists"].
Proof. by vm_compute. Qed.

(** on a later run the profile is updated, and the update has no name *)
Example second_run_update :
  let run :=
    create_or_update_project_profile Scenario.second_run "dzd_1" "NeMo-HyperPod-Profile"
      "bp-nemo" "bp-tooling" "us-west-2" "111122223333" [] in
  run.1 = Ret "prof-1" ∧
  (λ c, (op c, dict_keys (kwargs c))) <$> mutations run.2 =
    [("update_project_profile",
      ["domainIdentifier"; "identifier"; "description"; "environmentConfigurations"])].
Proof. by vm_compute. Qed.

(** * Further properties of the two scripts *)

(** ** The template upload *)

Ltac calls_forall :=
  apply Forall_on_calls; rewrite ?Forall_cons, ?Forall_nil; cbn [on_calls];
  repeat split; first [done | by intros [=] | by intros _].

Ltac not_in_log H :=
  repeat (apply elem_of_cons in H as [H|H]; [by inversion H|]);
  by apply elem_of_nil in H.

Ltac created_side :=
  (split; [calls_forall|]);
  (split; [let Hin := fresh in intros ? Hin; not_in_log Hin|]);
  (split; [intros _; by eexists _, _|]).

(** X1.  The template upload.  Without the template file the function
    exits with status 1 before any call.  A bucket is created only after
    [head_bucket] failed, never after it succeeded; the creation names
    the bucket and gives the region as location constraint except for
    us-east-1, where it gives none.  The function returns only after a
    successful [upload_file] of the template into that bucket, and what
    it returns is the address of the uploaded object. *)
Theorem upload_template_behaviour
    (R : remote) (H : host) (bucket_name region account_id : string) (h : log) :
  let run := upload_nemo_tooling_template R H bucket_name region account_id h in
  (template_exists H = false →
   run = (Exit 1, [Printed ("Error: Template not found at " +:+ template_path H)])) ∧
  Forall (λ c, is_create_bucket c = true →
               dict_get (kwargs c) "Bucket" = Some (JStr bucket_name) ∧
               dict_get (kwargs c) "CreateBucketConfiguration" = bucket_location region)
    (calls run.2) ∧
  (∀ d, Called (head_bucket_call bucket_name) (inr d) ∈ run.2 →
        count_calls is_create_bucket run.2 = 0) ∧
  (count_calls is_create_bucket run.2 = 1 →
   ∃ e l0, run.2 = Called (head_bucket_call bucket_name) (inl e) :: l0) ∧
  (∀ url, run.1 = Ret url →
          url = template_url bucket_name region ∧
          ∃ l0 d, run.2 = l0 ++ [Called (upload_file_call H bucket_name) (inr d)]).
Proof.
  intros run. subst run. unfold upload_nemo_tooling_template, bucket_location.
  destruct (template_exists H) eqn:Htemplate.
  2:{ exec. repeat split; try done; try constructor. }
  split; [done|]. exec.
  fold (head_bucket_call bucket_name).
  destruct (invoke R _ (head_bucket_call bucket_name)) as [e|d]; exec.
  - destruct (String.eqb region "us-east-1") eqn:Hregion; exec.
    + destruct (invoke R _ _) as [e1|d1]; exec.
      { created_side. by intros url [=]. }
      fold (upload_file_call H bucket_name).
      destruct (invoke R _ (upload_file_call H bucket_name)) as [e2|d2]; exec.
      { created_side. by intros url [=]. }
      created_side. intros url [= <-]. split; [done|]. by eexists [_; _; _; _], _.
    + destruct (invoke R _ _) as [e1|d1]; exec.
      { created_side. by intros url [=]. }
      fold (upload_file_call H bucket_name).
      destruct (invoke R _ (upload_file_call H bucket_name)) as [e2|d2]; exec.
      { created_side. by intros url [=]. }
      created_side. intros url [= <-]. split; [done|]. by eexists [_; _; _; _], _.
  - fold (upload_file_call H bucket_name).
    destruct (invoke R _ (upload_file_call H bucket_name)) as [e2|d2]; exec.
    + split; [calls_forall|]. split; [by intros|]. split; [by intros [=]|]. by intros url [=].
    + split; [calls_forall|]. split; [by intros|]. split; [by intros [=]|].
      intros url [= <-]. split; [done|]. by eexists [_; _], _.
Qed.

(** ** The managed Tooling blueprint *)

Lemma str_id_index d i : str_id d = Some i → rbind (dict_index d "id") as_str = inr i.
Proof.
  unfold str_id, dict_index, py_index. destruct (dict_get d "id") as [[]|]; try done.
  by intros [= ->].
Qed.

Lemma scan_tooling_delivers pages err listing acc :
  Forall2 (λ page items, dict_get page "items" = Some (JArr (JObj <$> items))) pages listing →
  toolings_have_ids listing →
  scan_tooling pages err acc =
  match err with
  | Some e => inl e
  | None => inr (match last_tooling listing with
                 | Some d => str_id d
                 | None => acc
                 end)
  end.
Proof.
  intros Hd. revert acc. unfold last_tooling.
  induction Hd as [|page items pages listing Hpage _ IH]; intros acc Hids;
    cbn [scan_tooling].
  { by destruct err. }
  apply Forall_cons in Hids as [Hitems Hids].
  unfold dict_get_or. rewrite Hpage. cbn [default from_option id py_iter rbind].
  rewrite first_named_dicts. cbn [omap list_omap].
  destruct (List.find (named "Tooling") items) as [d|] eqn:Hfind.
  - destruct (Hitems d eq_refl) as [i Hi].
    rewrite (str_id_index _ _ Hi), IH by done.
    destruct err; [done|]. simpl. rewrite last_cons.
    destruct (last _); [done|]. by rewrite Hi.
  - by rewrite IH.
Qed.

Lemma scan_tooling_listing_error pages e acc :
  ∃ e', scan_tooling pages (Some e) acc = inl e'.
Proof.
  revert acc. induction pages as [|page pages IH]; intros acc; simpl; [by eexists|].
  destruct (rbind _ _) as [e'|[bp|]]; [by eexists| |apply IH].
  destruct (rbind _ _) as [e'|i]; [by eexists|apply IH].
Qed.

(** X2.  Which Tooling blueprint is used.  On a complete listing whose
    pages hold well-formed resources, the pages that hold a blueprint
    named Tooling are all read and the last of them decides, with its
    first such blueprint (the [break] leaves the inner loop only).  When
    no page holds one, or the id found is empty, the result is
    [(None, None)] and no further call is made.  Otherwise the
    configuration of that blueprint is read: its manageAccessRoleArn, a
    string or nothing, is returned with the id, and any failure of that
    call yields the id without a role. *)
Theorem tooling_blueprint_selection
    (R : remote) (domain_id : string) (listing : list (list dict)) (h : log) :
  let c := tooling_list_call domain_id in
  let ps := paginate R (remote_view h) c in
  let run := get_tooling_blueprint_config R domain_id h in
  delivers ps listing → toolings_have_ids listing → ps_error ps = None →
  (last_tooling listing = None → run = (Ret (None, None), [Paginated c ps])) ∧
  (∀ bp, last_tooling listing = Some bp → str_id bp = Some "" →
         run = (Ret (None, None), [Paginated c ps])) ∧
  (∀ bp i, last_tooling listing = Some bp → str_id bp = Some i → i ≠ "" →
     let read := tooling_config_call domain_id i in
     (∀ e, invoke R (remote_view h ++ [Paginated c ps]) read = inl e →
           run = (Ret (Some i, None), [Paginated c ps; Called read (inl e)])) ∧
     (∀ config arn,
        invoke R (remote_view h ++ [Paginated c ps]) read = inr config →
        as_str_opt (dict_get config "manageAccessRoleArn") = inr arn →
        run = (Ret (Some i, arn), [Paginated c ps; Called read (inr config)]))).
Proof.
  intros c ps run Hd Hids Herr. subst run.
  assert (scan_tooling (ps_pages ps) (ps_error ps) None =
          inr (last_tooling listing ≫= str_id)) as Hscan.
  { rewrite (scan_tooling_delivers _ _ _ _ Hd Hids), Herr. by destruct (last_tooling listing). }
  unfold get_tooling_blueprint_config.
  rewrite sdk_pages_then. fold (tooling_list_call domain_id). fold c ps. rewrite lift_then, Hscan.
  split; [|split].
  - intros ->. by exec.
  - intros bp -> Hid. cbn [mbind option_bind]. rewrite Hid. by exec.
  - intros bp i -> Hid Hi. cbv zeta. cbn [mbind option_bind].
    rewrite Hid, (truthy_opt_some _ Hi).
    exec. cbn [id]. fold (tooling_config_call domain_id i). split.
    + intros e ->. by exec.
    + intros config arn -> Harn. exec. rewrite Harn. by exec.
Qed.

(** X3.  A failed listing of the managed blueprints is not absorbed.
    When the listing ends in an error, [get_tooling_blueprint_config]
    raises, whatever the pages delivered before hold, and makes no
    further call; on well-formed pages the error raised is the one of the
    listing, even when a page already showed a blueprint named Tooling.
    (The lookups by name return at the first match instead and never
    reach such an error.) *)
Theorem tooling_listing_failure_propagates
    (R : remote) (domain_id : string) (e : exn) (h : log) :
  let c := tooling_list_call domain_id in
  let ps := paginate R (remote_view h) c in
  let run := get_tooling_blueprint_config R domain_id h in
  ps_error ps = Some e →
  (∃ e', run = (Raise e', [Paginated c ps])) ∧
  (∀ listing, delivers ps listing → toolings_have_ids listing →
              run = (Raise e, [Paginated c ps])).
Proof.
  intros c ps run Herr. subst run. unfold get_tooling_blueprint_config.
  rewrite sdk_pages_then. fold (tooling_list_call domain_id). fold c ps. rewrite lift_then, Herr. split.
  - destruct (scan_tooling_listing_error (ps_pages ps) e None) as [e' ->]. by eexists.
  - intros listing Hd Hids. by rewrite (scan_tooling_delivers _ _ _ _ Hd Hids).
Qed.

(** ** Nothing is changed before the script knows what to change *)

Lemma mutations_app l1 l2 : mutations (l1 ++ l2) = mutations l1 ++ mutations l2.
Proof. unfold mutations. by rewrite calls_app, List.filter_app. Qed.

Lemma mutations_after {A} l (r : outcome A * log) :
  mutations (after l r).2 = mutations l ++ mutations r.2.
Proof. apply mutations_app. Qed.

Lemma mutations_cons e e' l : mutations (e :: e' :: l) = mutations [e] ++ mutations (e' :: l).
Proof. apply (mutations_app [e]). Qed.

Lemma mutations_cons_app e l1 l2 :
  mutations (e :: (l1 ++ l2)) = mutations [e] ++ mutations l1 ++ mutations l2.
Proof. by rewrite <- mutations_app, <- (mutations_app [e]). Qed.

(** the log of the goal holds no mutating call *)
Ltac no_mutation :=
  cbn [snd];
  rewrite ?mutations_after, ?mutations_cons, ?mutations_cons_app, ?mutations_app;
  repeat match goal with Hreads : mutations _ = [] |- _ => rewrite Hreads; clear Hreads end;
  let Hm := fresh in intros Hm; by destruct Hm.

Lemma elem_of_after {A} (x : entry) l (r : outcome A * log) :
  x ∈ l ∨ x ∈ r.2 → x ∈ (after l r).2.
Proof. unfold after. cbn [snd]. by rewrite elem_of_app. Qed.

Lemma mutations_silent l :
  Forall (on_calls (λ c, is_mutating c = false)) l → mutations l = [].
Proof.
  intros Hl%Forall_on_calls. unfold mutations.
  induction Hl as [|c cs Hc _ IH]; simpl; [done|]. by rewrite Hc.
Qed.

Lemma tooling_config_reads R domain_id :
  emits (Forall (on_calls (λ c, is_mutating c = false))) (get_tooling_blueprint_config R domain_id).
Proof. emits_steps silent_leaf. Qed.

(** what a usable result of [get_tooling_blueprint_config] rests on *)
Lemma tooling_config_found R domain_id h tooling_id arn :
  (get_tooling_blueprint_config R domain_id h).1 = Ret (tooling_id, arn) →
  truthy_opt tooling_id = true →
  ∃ ps i,
    tooling_id = Some i ∧ i ≠ "" ∧
    Paginated (tooling_list_call domain_id) ps ∈ (get_tooling_blueprint_config R domain_id h).2 ∧
    scan_tooling (ps_pages ps) (ps_error ps) None = inr (Some i).
Proof.
  unfold get_tooling_blueprint_config. rewrite sdk_pages_then.
  fold (tooling_list_call domain_id).
  set (ps := paginate R (remote_view h) (tooling_list_call domain_id)).
  rewrite lift_then.
  destruct (scan_tooling (ps_pages ps) (ps_error ps) None) as [e|tid] eqn:Hscan; exec; [done|].
  destruct (truthy_opt tid) eqn:Htid; exec.
  2:{ intros [= <- <-]. done. }
  destruct tid as [i|]; [|done].
  assert (i ≠ "") as Hi by (apply truthy_opt_true in Htid as (? & [= <-] & ?); done).
  intros Hret _.
  assert (tooling_id = Some i) as ->.
  { revert Hret. destruct (invoke R _ _) as [e|config]; exec; [by intros [= <- <-]|].
    destruct (as_str_opt _); exec; by intros [= <- <-]. }
  exists ps, i. repeat split; try done.
  unfold after. cbn [snd]. apply elem_of_cons. by left.
Qed.

Lemma blueprint_without_template R H domain_id role arn region account h :
  template_exists H = false →
  create_or_update_nemo_tooling_blueprint R H domain_id role arn region account h =
    (Exit 1, [Printed ("Error: Template not found at " +:+ template_path H)]).
Proof.
  intros Ht. unfold create_or_update_nemo_tooling_blueprint, upload_nemo_tooling_template.
  rewrite Ht. by exec.
Qed.

(** X4.  Nothing is changed before the script knows what to change.  A
    run of the script that makes any mutating call had both required
    environment values, had listed the managed blueprints and found a
    blueprint named Tooling with a non-empty id, and had its template
    file at hand. *)
Theorem main_mutates_only_when_prepared (R : remote) (H : host) (h : log) :
  mutations (main R H h).2 ≠ [] →
  missing (environ H) = [] ∧
  template_exists H = true ∧
  ∃ ps i,
    Paginated (tooling_list_call (default "" (environ H !! "DOMAIN_ID"))) ps ∈ (main R H h).2 ∧
    scan_tooling (ps_pages ps) (ps_error ps) None = inr (Some i) ∧
    i ≠ "".
Proof.
  unfold main, get_config, get_clients. exec.
  destruct (missing (environ H)) eqn:Hmissing; exec; [|intros Hm; by destruct Hm].
  repeat (destruct (invoke R _ _) as [?|?]; exec; [intros Hm; by destruct Hm|]).
  destruct (rbind _ _) as [?|account_id]; exec; [intros Hm; by destruct Hm|].
  cbn [DOMAIN_ID AWS_REGION PROJECT_PROFILE_NAME AWS_PROFILE].
  set (domain_id := default "" (environ H !! "DOMAIN_ID")).
  pose proof (tooling_config_reads R domain_id) as Hreads.
  match goal with
  | |- context [get_tooling_blueprint_config R domain_id ?h'] =>
      specialize (Hreads h');
      pose proof (tooling_config_found R domain_id h') as Hfound;
      destruct (get_tooling_blueprint_config R domain_id h') as [[[tid arn]|e|n] lt]
  end; cbn [fst snd] in *; apply mutations_silent in Hreads.
  2,3: exec; no_mutation.
  exec. destruct (truthy_opt tid) eqn:Htid; exec.
  2:{ no_mutation. }
  destruct (Hfound tid arn eq_refl Htid) as (ps & i & -> & Hi & Hin & Hscan).
  destruct (template_exists H) eqn:Htemplate.
  2:{ destruct (truthy_opt arn); exec;
        rewrite blueprint_without_template by done; exec; no_mutation. }
  intros _. split; [done|]. split; [done|]. exists ps, i. split; [|done].
  repeat (apply elem_of_after; first [left; exact Hin | right]).
Qed.

(** ** The blueprint *)

Lemma upload_returns_url R H bucket_name region account_id h url :
  (upload_nemo_tooling_template R H bucket_name region account_id h).1 = Ret url →
  url = template_url bucket_name region.
Proof.
  unfold upload_nemo_tooling_template.
  destruct (template_exists H); exec; [|done].
  destruct (invoke R _ _) as [e|d]; exec.
  - destruct (String.eqb region "us-east-1"); exec;
      (destruct (invoke R _ _) as [e1|d1]; exec; [done|]);
      (destruct (invoke R _ _) as [e2|d2]; exec; [done|]); by intros [= <-].
  - destruct (invoke R _ _) as [e2|d2]; exec; [done|]. by intros [= <-].
Qed.

Ltac blueprint_leaf :=
  on_calls_leaf
    ltac:(unfold blueprint_call_ok; cbn [truthy_opt];
          repeat match goal with Harn : truthy_str _ = _ |- _ => rewrite Harn end;
          repeat split; first [by intros [=] | by intros _ | done]).

Lemma blueprint_calls_ok R H domain_id role arn region account_id :
  emits (Forall (on_calls (blueprint_call_ok H domain_id role arn region account_id)))
    (create_or_update_nemo_tooling_blueprint R H domain_id role arn region account_id).
Proof.
  unfold create_or_update_nemo_tooling_blueprint. cbv zeta.
  fold (bucket_of account_id region).
  apply (emits_bind_post _ (λ url, url = template_url (bucket_of account_id region) region)).
  { unfold upload_nemo_tooling_template. emits_steps blueprint_leaf. }
  { intros h url. apply upload_returns_url. }
  intros url ->.
  destruct arn as [arn|]; [destruct (truthy_str arn) eqn:Harn|];
    emits_steps blueprint_leaf.
Qed.

(** X5.  What the blueprint reconciliation sends.  Whatever the remote
    side answers, the template is uploaded into the bucket named after
    the account and the region; a creation or an update of the blueprint
    points at the address of that uploaded template and carries the
    user-parameter table, a creation also the name NeMo-Tooling; the
    enabling call names the one region and the provisioning role, and
    names the manage-access role exactly when one is given and it is not
    empty. *)
Theorem blueprint_reconciliation_payloads
    (R : remote) (H : host) (domain_id provisioning_role_arn : string)
    (manage_access_role_arn : option string) (region account_id : string) (h : log) :
  Forall (blueprint_call_ok H domain_id provisioning_role_arn manage_access_role_arn
            region account_id)
    (calls (create_or_update_nemo_tooling_blueprint R H domain_id provisioning_role_arn
              manage_access_role_arn region account_id h).2).
Proof. apply Forall_on_calls, emits_run, blueprint_calls_ok. Qed.

(** *** One write, one id *)

Lemma once_then_silent {A B} W (m : M A) (f : A → M B) h :
  once_if_returns W (m h) →
  (∀ a, emits (Forall (on_calls (λ c, W c = false))) (f a)) →
  once_if_returns W (bind m f h).
Proof.
  intros [Hle Hret] Hf. rewrite bind_run.
  destruct (m h) as [[a|e|n] l1]; simpl in *; [|done|done].
  specialize (Hf a (h ++ l1)). apply count_calls_silent in Hf.
  unfold once_if_returns, after. simpl. rewrite count_calls_app, Hf, (Hret a eq_refl). done.
Qed.

Lemma blueprint_written_once R H domain_id role arn region account_id h :
  once_if_returns is_blueprint_write
    (create_or_update_nemo_tooling_blueprint R H domain_id role arn region account_id h).
Proof.
  unfold create_or_update_nemo_tooling_blueprint. cbv zeta.
  apply once_bind_silent.
  { unfold upload_nemo_tooling_template. emits_steps ltac:(on_calls_leaf done). }
  intros url h1. apply once_bind_silent.
  { unfold find_blueprint. emits_steps ltac:(on_calls_leaf done). }
  intros existing h2. apply once_then_silent.
  - destruct (if_existing existing) as [found|].
    + apply once_bind_silent; [emits_steps idtac|intros blueprint_id h3].
      exec. destruct (invoke R _ _) as [e|d]; exec.
      * split; [by cbv|done].
      * split; [by cbv|by intros ? _].
    + exec. destruct (invoke R _ _) as [e|d]; exec.
      * split; [by cbv|done].
      * destruct (rbind _ _) as [e|blueprint_id]; exec.
        -- split; [by cbv|done].
        -- split; [by cbv|by intros ? _].
  - intros blueprint_id. emits_steps ltac:(on_calls_leaf done).
Qed.

(** X6.  One write of the blueprint.  A run of the blueprint
    reconciliation creates or updates the blueprint at most once, never
    both, and exactly once when it returns. *)
Theorem blueprint_is_written_once
    (R : remote) (H : host) (domain_id provisioning_role_arn : string)
    (manage_access_role_arn : option string) (region account_id : string) (h : log) :
  once_if_returns is_blueprint_write
    (create_or_update_nemo_tooling_blueprint R H domain_id provisioning_role_arn
       manage_access_role_arn region account_id h).
Proof. apply blueprint_written_once. Qed.

(** *** Enabling the blueprint *)

Lemma on_failure_bind_silent {A B} P (T : exn → log → outcome B → Prop)
    (m : M A) (f : A → M B) h :
  emits (Forall (on_calls (λ c, P c = false))) m →
  (∀ a h', on_failure P T (f a h')) →
  on_failure P T (bind m f h).
Proof.
  intros Hm Hf. rewrite bind_run. specialize (Hm h).
  destruct (m h) as [[a|e0|n] la]; simpl in Hm.
  - specialize (Hf a (h ++ la)). destruct (f a (h ++ la)) as [o lb].
    unfold after. simpl. intros l1 c e l2 Heq Hc. simpl in *.
    apply List.app_eq_app in Heq as [l [[-> Heq]|[-> Heq]]].
    + destruct l as [|x l]; simpl in Heq.
      * apply (Hf [] c e l2); [by rewrite <- Heq|done].
      * injection Heq as <- ->.
        destruct (silent_no_failure P _ _ _ _ _ Hm eq_refl Hc).
    + by apply (Hf l c e l2).
  - intros l1 c e l2 Heq Hc. destruct (silent_no_failure P _ _ _ _ _ Hm Heq Hc).
  - intros l1 c e l2 Heq Hc. destruct (silent_no_failure P _ _ _ _ _ Hm Heq Hc).
Qed.

Lemma blueprint_inner_silent_for_enable R domain_id url existing :
  emits (Forall (on_calls (λ c, is_enable c = false)))
    (match if_existing existing with
     | Some existing =>
         blueprint_id <- lift (rbind (dict_index existing "id") as_str);;
         print ("Blueprint '" +:+ "NeMo-Tooling" +:+ "' exists (ID: " +:+ blueprint_id +:+ ")");;
         print "Updating blueprint...";;
         sdk R "datazone" "update_environment_blueprint"
           [("domainIdentifier", JStr domain_id);
            ("identifier", JStr blueprint_id);
            ("description", JStr blueprint_description);
            ("provisioningProperties",
             JObj [("cloudFormation", JObj [("templateUrl", JStr url)])]);
            ("userParameters", JArr get_nemo_tooling_user_parameters)];;
         print "✓ Blueprint updated";;
         ret blueprint_id
     | None =>
         print ("Creating blueprint '" +:+ "NeMo-Tooling" +:+ "'...");;
         response <- sdk R "datazone" "create_environment_blueprint"
           [("domainIdentifier", JStr domain_id);
            ("name", JStr "NeMo-Tooling");
            ("description", JStr blueprint_description);
            ("provisioningProperties",
             JObj [("cloudFormation", JObj [("templateUrl", JStr url)])]);
            ("userParameters", JArr get_nemo_tooling_user_parameters)];;
         blueprint_id <- lift (rbind (dict_index response "id") as_str);;
         print ("✓ Blueprint created (ID: " +:+ blueprint_id +:+ ")");;
         ret blueprint_id
     end).
Proof. emits_steps ltac:(on_calls_leaf done). Qed.

(** X7.  Enabling never fails the reconciliation.  Whatever error the
    enabling call fails with, the only thing that follows is the line
    that reports the blueprint as already enabled, and the function
    returns the id of the blueprint. *)
Theorem enabling_failure_is_reported_as_enabled
    (R : remote) (H : host) (domain_id provisioning_role_arn : string)
    (manage_access_role_arn : option string) (region account_id : string) (h : log) :
  on_failure is_enable
    (λ _ l2 o, l2 = [Printed "✓ Blueprint already enabled"] ∧ ∃ id, o = Ret id)
    (create_or_update_nemo_tooling_blueprint R H domain_id provisioning_role_arn
       manage_access_role_arn region account_id h).
Proof.
  unfold create_or_update_nemo_tooling_blueprint. cbv zeta.
  apply on_failure_bind_silent.
  { unfold upload_nemo_tooling_template. emits_steps ltac:(on_calls_leaf done). }
  intros url h1. apply on_failure_bind_silent.
  { unfold find_blueprint. emits_steps ltac:(on_calls_leaf done). }
  intros existing h2. apply on_failure_bind_silent.
  { apply blueprint_inner_silent_for_enable. }
  intros blueprint_id h3. exec.
  destruct (invoke R _ _) as [e0|d]; exec; intros l1 c e l2 Heq Hc; cbn [fst snd] in *.
  - destruct l1 as [|? [|? [|? [|? l1]]]]; simplify_eq/=. eauto.
  - destruct l1 as [|? [|? [|? [|? l1]]]]; simplify_eq/=.
Qed.

(** *** The id that is returned *)

Lemma returned_bind_silent {A B} (Q : B → entry → Prop) (S : entry → Prop)
    (m : M A) (f : A → M B) h :
  emits (Forall S) m → (∀ b e, S e → Q b e) →
  (∀ a h' b, (f a h').1 = Ret b → Forall (Q b) (f a h').2) →
  ∀ b, (bind m f h).1 = Ret b → Forall (Q b) (bind m f h).2.
Proof.
  intros Hm HS Hf b. rewrite bind_run. specialize (Hm h).
  destruct (m h) as [[a|e|n] l1]; simpl in *; [|done|done].
  intros Hb. apply Forall_app. split.
  - eapply Forall_impl; [exact Hm|]. intros e. apply HS.
  - by apply Hf.
Qed.

Lemma writes_blueprint_silent id e :
  on_calls (λ c, is_blueprint_write c = false ∧ is_enable c = false) e →
  writes_blueprint id e.
Proof.
  destruct e as [c r|c ps|s]; simpl; [|done|done].
  unfold is_blueprint_write, is_enable.
  intros [[Hc Hu]%orb_false_iff He]. repeat split.
  - intros Hop. rewrite Hop in Hu. done.
  - intros Hop. congruence.
  - intros Hop. rewrite Hop in Hc. done.
Qed.

Lemma blueprint_returned_written R H domain_id role arn region account_id h id :
  (create_or_update_nemo_tooling_blueprint R H domain_id role arn region account_id h).1
    = Ret id →
  Forall (writes_blueprint id)
    (create_or_update_nemo_tooling_blueprint R H domain_id role arn region account_id h).2.
Proof.
  revert id. unfold create_or_update_nemo_tooling_blueprint. cbv zeta.
  eapply returned_bind_silent; [|apply writes_blueprint_silent|].
  { unfold upload_nemo_tooling_template. emits_steps ltac:(on_calls_leaf done). }
  intros url h1. eapply returned_bind_silent; [|apply writes_blueprint_silent|].
  { unfold find_blueprint. emits_steps ltac:(on_calls_leaf done). }
  intros existing h2 id. destruct (if_existing existing) as [found|]; exec.
  - destruct (rbind _ _) as [e|blueprint_id]; exec; [done|].
    destruct (invoke R _ _) as [e|d]; exec; [done|].
    destruct (invoke R _ _) as [e|d']; exec; intros [= <-];
      rewrite ?Forall_cons, ?Forall_nil; cbn [writes_blueprint]; repeat split; try done;
      cbn [dict_get kwargs]; destruct arn as [arn|];
      try destruct (truthy_str arn); by cbv.
  - destruct (invoke R _ _) as [e|d]; exec; [done|].
    destruct (rbind (dict_index d "id") as_str) as [e|blueprint_id] eqn:Hid; exec; [done|].
    assert (dict_get d "id" = Some (JStr blueprint_id)) as Hd.
    { unfold dict_index, py_index in Hid. destruct (dict_get d "id") as [[]|]; by simplify_eq/=. }
    destruct (invoke R _ _) as [e|d']; exec; intros [= <-];
      rewrite ?Forall_cons, ?Forall_nil; cbn [writes_blueprint]; repeat split; try done;
      try (by intros _ ? [= <-]);
      cbn [dict_get kwargs]; destruct arn as [arn|];
      try destruct (truthy_str arn); by cbv.
Qed.

(** X8.  The id that is returned.  When the blueprint reconciliation
    returns an id, that id is the one the update call named or the one
    the creation was answered with, and it is the blueprint that the
    enabling call names. *)
Theorem returned_blueprint_is_the_one_written
    (R : remote) (H : host) (domain_id provisioning_role_arn : string)
    (manage_access_role_arn : option string) (region account_id : string) (h : log)
    (id : string) :
  (create_or_update_nemo_tooling_blueprint R H domain_id provisioning_role_arn
     manage_access_role_arn region account_id h).1 = Ret id →
  Forall (writes_blueprint id)
    (create_or_update_nemo_tooling_blueprint R H domain_id provisioning_role_arn
       manage_access_role_arn region account_id h).2.
Proof. apply blueprint_returned_written. Qed.

(** ** The grants, whatever the remote side answers *)

(** X9.  Both blueprint grants are always attempted.  Whatever the remote
    side answers, the function calls [add_policy_grant] exactly twice:
    first for CREATE_ENVIRONMENT_PROFILE, then for
    CREATE_ENVIRONMENT_FROM_BLUEPRINT, both for the entity
    account:blueprint and the project contributors of the domain unit.  A
    failure of the first grant does not keep the second from being
    sent. *)
Theorem both_blueprint_grants_are_attempted
    (R : remote) (domain_id blueprint_id domain_unit_id account_id : string) (h : log) :
  calls (authorize_blueprint_for_domain_unit R domain_id blueprint_id domain_unit_id
           account_id h).2 =
    [blueprint_grant_call domain_id blueprint_id domain_unit_id account_id
       "CREATE_ENVIRONMENT_PROFILE"
       (JObj [("createEnvironmentProfile", JObj [("domainUnitId", JStr domain_unit_id)])]);
     blueprint_grant_call domain_id blueprint_id domain_unit_id account_id
       "CREATE_ENVIRONMENT_FROM_BLUEPRINT"
       (JObj [("createEnvironmentFromBlueprint", JObj [])])].
Proof.
  unfold authorize_blueprint_for_domain_unit. exec.
  destruct (invoke R _ _) as [e1|d1]; exec;
    [destruct (contains "conflict" (lower (exn_str e1))); exec|];
    (destruct (invoke R _ _) as [e2|d2]; exec;
     [destruct (contains "conflict" (lower (exn_str e2))); exec|]); done.
Qed.

(** X10.  No domain unit, no grant.  When the profile cannot be read, or
    is read and names no domain unit (the key is absent, null or the
    empty string), [authorize_all_users] prints a warning and returns:
    it neither lists the grants nor adds one. *)
Theorem no_domain_unit_no_grant
    (R : remote) (domain_id profile_id : string) (h : log) :
  (∀ e,
     invoke R (remote_view h) (get_profile_call domain_id profile_id) = inl e →
     authorize_all_users R domain_id profile_id h =
       (Ret tt,
        [Printed "Authorizing all users for project profile...";
         Called (get_profile_call domain_id profile_id) (inl e);
         Printed ("Warning: Could not get profile details: " +:+ exn_str e)])) ∧
  (∀ profile,
     invoke R (remote_view h) (get_profile_call domain_id profile_id) = inr profile →
     no_domain_unit profile →
     authorize_all_users R domain_id profile_id h =
       (Ret tt,
        [Printed "Authorizing all users for project profile...";
         Called (get_profile_call domain_id profile_id) (inr profile);
         Printed "Warning: No domain unit ID found on profile"])).
Proof.
  split.
  - intros e He. unfold authorize_all_users. exec.
    fold (get_profile_call domain_id profile_id). rewrite He. by exec.
  - intros profile Hp Hdu. unfold authorize_all_users. exec.
    fold (get_profile_call domain_id profile_id). rewrite Hp. exec.
    destruct Hdu as [->|[->| ->]]; cbn [as_str_opt]; by exec.
Qed.

Lemma grants_profile_sent domain_id du profile_id (existing : gset string) :
  grants_profile profile_id
    (MkCall "datazone" "add_policy_grant"
       (all_users_grant_args domain_id du (elements (existing ∪ {[profile_id]})))).
Proof.
  split; [done|]. eexists. split; [reflexivity|].
  apply list_elem_of_fmap. exists profile_id. split; [done|].
  apply elem_of_elements. set_solver.
Qed.

(** X11.  The all-users grant, whatever the remote side answers.  A run
    of [authorize_all_users] makes at most one mutating call.  That call
    is a grant whose target list holds the desired profile, and it is
    sent only after the profile was read and named a domain unit, for
    that domain unit. *)
Theorem all_users_grant_names_the_profile
    (R : remote) (domain_id profile_id : string) (h : log) :
  let run := authorize_all_users R domain_id profile_id h in
  List.length (mutations run.2) ≤ 1 ∧
  ∀ c, c ∈ mutations run.2 →
       grants_profile profile_id c ∧
       ∃ profile,
         Called (get_profile_call domain_id profile_id) (inr profile) ∈ run.2 ∧
         for_unit_of profile c.
Proof.
  cbv zeta.
  remember (authorize_all_users R domain_id profile_id h) as run eqn:Hrun.
  revert Hrun. unfold authorize_all_users. exec.
  fold (get_profile_call domain_id profile_id).
  assert (∀ l : log, mutations l = [] →
    List.length (mutations l) ≤ 1 ∧
    ∀ c, c ∈ mutations l →
         grants_profile profile_id c ∧
         ∃ profile,
           Called (get_profile_call domain_id profile_id) (inr profile) ∈ l ∧
           for_unit_of profile c) as Hnone.
  { intros l ->. split; [simpl; lia|]. intros c Hc. by apply elem_of_nil in Hc. }
  destruct (invoke R _ _) as [e|profile]; exec.
  { intros ->. by apply Hnone. }
  destruct (as_str_opt _) as [e|du] eqn:Hdu; exec.
  { intros ->. by apply Hnone. }
  destruct (truthy_opt du) eqn:Htruthy; exec.
  2:{ intros ->. by apply Hnone. }
  destruct du as [du|]; [|done]. exec.
  assert (dict_get profile "domainUnitId" = Some (JStr du)) as Hget.
  { destruct (dict_get profile "domainUnitId") as [[]|]; by simplify_eq/=. }
  assert (∀ (existing : gset string) r line,
    let c := MkCall "datazone" "add_policy_grant"
               (all_users_grant_args domain_id du (elements (existing ∪ {[profile_id]}))) in
    ∀ l,
    mutations l = [] →
    Called (get_profile_call domain_id profile_id) (inr profile) ∈ l →
    let log := l ++ [Called c r; Printed line] in
    List.length (mutations log) ≤ 1 ∧
    ∀ c', c' ∈ mutations log →
          grants_profile profile_id c' ∧
          ∃ profile',
            Called (get_profile_call domain_id profile_id) (inr profile') ∈ log ∧
            for_unit_of profile' c') as Hsent.
  { intros existing r line c l Hl Hin log. subst log.
    rewrite mutations_app, Hl. split; [cbv; lia|].
    intros c' Hc'. assert (c' = c) as ->.
    { revert Hc'. unfold mutations. cbn. by intros ->%list_elem_of_singleton. }
    split; [apply grants_profile_sent|].
    exists profile. split; [apply elem_of_app; by left|].
    split; [|by rewrite Hget].
    unfold dict_get_or. rewrite Hget. exact Htruthy. }
  assert (∀ args r, mutations [Called (MkCall "datazone" "list_policy_grants" args) r] = [])
    as Hlist by done.
  assert (∀ r, mutations [Called (get_profile_call domain_id profile_id) r] = [])
    as Hread by done.
  assert (∀ s l, mutations (Printed s :: l) = mutations l) as Hprint by done.
  assert (∀ x l, mutations (x :: l) = mutations [x] ++ mutations l) as Hcons.
  { intros x l. apply (mutations_app [x]). }
  assert (∀ l1 r line,
            (mutations l1 = [] ∧
             Called (get_profile_call domain_id profile_id) (inr profile) ∈ l1) →
            ∀ existing : gset string,
            let c := MkCall "datazone" "add_policy_grant"
               (all_users_grant_args domain_id du (elements (existing ∪ {[profile_id]}))) in
            ∀ run' : outcome unit * log,
              run' = (Ret tt, l1 ++ [Called c r; Printed line]) →
    List.length (mutations run'.2) ≤ 1 ∧
    ∀ c', c' ∈ mutations run'.2 →
          grants_profile profile_id c' ∧
          ∃ profile',
            Called (get_profile_call domain_id profile_id) (inr profile') ∈ run'.2 ∧
            for_unit_of profile' c') as Hleaf.
  { intros l1 r line [Hl1 Hin] existing c run' ->. by apply Hsent. }
  clear Hsent.
  cbn [default from_option id].
  destruct (invoke R _ _) as [e|grants]; exec.
  - destruct (invoke R _ _) as [e'|d'] eqn:Hadd; exec; [destruct (_ || _); exec|];
      apply (Hleaf [_; _; _; _]);
      (split; [by rewrite Hprint, Hcons, Hread, Hcons, Hlist|set_solver]).
  - destruct (py_iter _) as [e|grant_list]; exec.
    + destruct (invoke R _ _) as [e'|d'] eqn:Hadd; exec; [destruct (_ || _); exec|];
        apply (Hleaf [_; _; _; _]);
        (split; [by rewrite Hprint, Hcons, Hread, Hcons, Hlist|set_solver]).
    + destruct (scan_grants _ _ _) as [existing [| |e]]; exec.
      * destruct (invoke R _ _) as [e'|d'] eqn:Hadd; exec; [destruct (_ || _); exec|];
          apply (Hleaf [_; _; _]);
          (split; [by rewrite Hprint, Hcons, Hread, Hcons, Hlist|set_solver]).
      * intros ->. by apply Hnone.
      * destruct (invoke R _ _) as [e'|d'] eqn:Hadd; exec; [destruct (_ || _); exec|];
          apply (Hleaf [_; _; _; _]);
          (split; [by rewrite Hprint, Hcons, Hread, Hcons, Hlist|set_solver]).
Qed.

(** ** The project profile, when its details are not at hand *)

Lemma profile_found R domain_id profile_name listing existing profile_id h :
  delivers (paginate R (remote_view h) (list_profiles_call domain_id)) listing →
  first_listed profile_name listing = Some existing →
  dict_get existing "id" = Some (JStr profile_id) →
  find_stream profile_name (paginate R (remote_view h) (list_profiles_call domain_id))
    = inr (Some existing) ∧
  if_existing (Some existing) = Some existing ∧
  rbind (dict_index existing "id") as_str = inr profile_id.
Proof.
  intros Hdelivers Hfirst Hid. split; [|split].
  - unfold find_stream. by rewrite (scan_pages_delivers _ _ _ _ Hdelivers), Hfirst.
  - destruct existing; [discriminate Hid|done].
  - unfold dict_index, py_index. by rewrite Hid.
Qed.

(** X12.  An update without the details.  Let the listing hold the
    profile.  When its details cannot be read, the function prints a
    warning and still sends the update, with the two desired
    configurations as built: no configuration id is carried over.  The
    same update is sent, without a warning, when the details hold no
    configurations. *)
Theorem update_goes_on_without_details
    (R : remote) (domain_id profile_name nemo_id tooling_id region account_id : string)
    (listing : list (list dict)) (existing : dict) (profile_id : string) (h : log) :
  let ps := paginate R (remote_view h) (list_profiles_call domain_id) in
  delivers ps listing →
  first_listed profile_name listing = Some existing →
  dict_get existing "id" = Some (JStr profile_id) →
  let run :=
    create_or_update_project_profile R domain_id profile_name nemo_id tooling_id
      region account_id h in
  let update :=
    update_profile_call domain_id profile_id
      (fresh_configs tooling_id nemo_id region account_id) in
  let found :=
    [Paginated (list_profiles_call domain_id) ps;
     Printed ("Project profile '" +:+ profile_name +:+ "' exists (ID: " +:+ profile_id +:+ ")")]
  in
  (∀ e,
     invoke R (remote_view h ++ [Paginated (list_profiles_call domain_id) ps])
       (get_profile_call domain_id profile_id) = inl e →
     ∃ r,
       run.2 =
         found ++
         [Called (get_profile_call domain_id profile_id) (inl e);
          Printed ("Warning: Could not get profile details: " +:+ exn_str e);
          Printed "Updating project profile...";
          Called update r] ++ updated_line r) ∧
  (∀ details,
     invoke R (remote_view h ++ [Paginated (list_profiles_call domain_id) ps])
       (get_profile_call domain_id profile_id) = inr details →
     dict_get details "environmentConfigurations" = None →
     ∃ r,
       run.2 =
         found ++
         [Called (get_profile_call domain_id profile_id) (inr details);
          Printed "Updating project profile...";
          Called update r] ++ updated_line r).
Proof.
  intros ps Hdelivers Hfirst Hid run update found. subst run update found.
  destruct (profile_found R _ _ _ _ _ h Hdelivers Hfirst Hid) as (Hfind & Hex & Hpid).
  fold ps in Hfind.
  split.
  - intros e He.
    unfold create_or_update_project_profile, find_project_profile.
    exec. fold (list_profiles_call domain_id). fold ps. rewrite Hfind. exec.
    rewrite Hex, Hpid. exec.
    fold (get_profile_call domain_id profile_id). rewrite He. exec.
    unfold deref_all, tooling_ref, nemo_tooling_ref. simpl omap.
    fold (fresh_configs tooling_id nemo_id region account_id).
    fold (update_profile_call domain_id profile_id
            (fresh_configs tooling_id nemo_id region account_id)).
    destruct (invoke R _ (update_profile_call _ _ _)) as [e'|d]; exec;
      [by exists (inl e')|by exists (inr d)].
  - intros details Hdetails Hnone.
    unfold create_or_update_project_profile, find_project_profile.
    exec. fold (list_profiles_call domain_id). fold ps. rewrite Hfind. exec.
    rewrite Hex, Hpid. exec.
    fold (get_profile_call domain_id profile_id). rewrite Hdetails. exec.
    unfold dict_get_or. rewrite Hnone. simpl py_iter. exec.
    cbn [preserve_ids]. exec.
    unfold deref_all, tooling_ref, nemo_tooling_ref. simpl omap.
    fold (fresh_configs tooling_id nemo_id region account_id).
    fold (update_profile_call domain_id profile_id
            (fresh_configs tooling_id nemo_id region account_id)).
    destruct (invoke R _ (update_profile_call _ _ _)) as [e'|d]; exec;
      [by exists (inl e')|by exists (inr d)].
Qed.

Lemma preserve_ids_app tooling nemo l1 l2 σ :
  preserve_ids tooling nemo (l1 ++ l2) σ =
  match preserve_ids tooling nemo l1 σ with
  | (σ', None) => preserve_ids tooling nemo l2 σ'
  | r => r
  end.
Proof.
  revert σ. induction l1 as [|ec l1 IH]; intros σ; [done|].
  cbn [app preserve_ids].
  destruct (preserve_id tooling nemo ec σ) as [σ' [e|]]; [done|apply IH].
Qed.

Lemma preserve_ids_until tooling nemo (ecs : list dict) bad rest d0 d1 :
  tooling ≠ nemo → is_object bad = false →
  ∃ e,
    preserve_ids tooling nemo ((JObj <$> ecs) ++ bad :: rest) [d0; d1] =
      ([set_id d0 (previous_id tooling ecs); set_id d1 (previous_id nemo ecs)], Some e).
Proof.
  intros Hne Hbad. rewrite preserve_ids_app, (preserve_ids_previous _ _ _ _ _ Hne).
  cbn [preserve_ids]. destruct bad; try done; by eexists.
Qed.

(** X13.  Ids read before a malformed entry stay.  Let the listing hold
    the profile and let the list of its existing configurations hold the
    well-formed configurations [ecs], then an entry that is not an
    object.  The loop ends at that entry with a warning; the update is
    still sent, and each desired configuration carries the id that [ecs]
    assigns to its blueprint.  What follows the malformed entry is not
    looked at. *)
Theorem ids_read_before_a_malformed_entry_stay
    (R : remote) (domain_id profile_name nemo_id tooling_id region account_id : string)
    (listing : list (list dict)) (existing details : dict) (profile_id : string)
    (ecs : list dict) (bad : json) (rest : list json) (h : log) :
  tooling_id ≠ nemo_id →
  let ps := paginate R (remote_view h) (list_profiles_call domain_id) in
  delivers ps listing →
  first_listed profile_name listing = Some existing →
  dict_get existing "id" = Some (JStr profile_id) →
  invoke R (remote_view h ++ [Paginated (list_profiles_call domain_id) ps])
    (get_profile_call domain_id profile_id) = inr details →
  dict_get details "environmentConfigurations" = Some (JArr ((JObj <$> ecs) ++ bad :: rest)) →
  is_object bad = false →
  let c0 := with_id (tooling_config tooling_id region account_id) (previous_id tooling_id ecs) in
  let c1 := with_id (nemo_tooling_config nemo_id region account_id) (previous_id nemo_id ecs) in
  let update := update_profile_call domain_id profile_id (JArr [JObj c0; JObj c1]) in
  ∃ warning r,
    (create_or_update_project_profile R domain_id profile_name nemo_id tooling_id
       region account_id h).2 =
      [Paginated (list_profiles_call domain_id) ps;
       Printed ("Project profile '" +:+ profile_name +:+ "' exists (ID: " +:+ profile_id +:+ ")");
       Called (get_profile_call domain_id profile_id) (inr details);
       Printed warning;
       Printed "Updating project profile...";
       Called update r] ++ updated_line r.
Proof.
  intros Hne ps Hdelivers Hfirst Hid Hdetails Hecs Hbad c0 c1 update.
  destruct (profile_found R _ _ _ _ _ h Hdelivers Hfirst Hid) as (Hfind & Hex & Hpid).
  fold ps in Hfind.
  destruct (preserve_ids_until tooling_id nemo_id ecs bad rest
              (tooling_config tooling_id region account_id)
              (nemo_tooling_config nemo_id region account_id) Hne Hbad) as [e He].
  unfold create_or_update_project_profile, find_project_profile.
  exec. fold (list_profiles_call domain_id). fold ps. rewrite Hfind. exec.
  rewrite Hex, Hpid. exec.
  fold (get_profile_call domain_id profile_id). rewrite Hdetails. exec.
  unfold dict_get_or. rewrite Hecs. simpl py_iter. exec.
  rewrite He. exec.
  rewrite set_id_tooling_config, set_id_nemo_tooling_config.
  unfold deref_all, tooling_ref, nemo_tooling_ref. simpl omap.
  fold c0 c1. fold (update_profile_call domain_id profile_id (JArr [JObj c0; JObj c1])).
  fold update.
  destruct (invoke R _ update) as [e'|d]; exec;
    [by eexists _, (inl e')|by eexists _, (inr d)].
Qed.

(** ** What the profile reconciliation sends and returns *)

Lemma writes_profile_silent id e :
  on_calls (λ c, op c ≠ "get_project_profile" ∧ op c ≠ "update_project_profile" ∧
                 op c ≠ "create_project_profile") e →
  writes_profile id e.
Proof.
  destruct e as [c r|c ps|s]; simpl; [|done|done].
  intros (Hg & Hu & Hc). split; [by intros [?|?]|done].
Qed.

Ltac written :=
  rewrite ?Forall_cons, ?Forall_nil; cbn [writes_profile]; repeat split;
  first [done | by intros [=] | by intros [[=]|[=]] | by intros _ ? [= <-]].

Lemma profile_returned_written R domain_id profile_name nemo_id tooling_id region account_id h id :
  (create_or_update_project_profile R domain_id profile_name nemo_id tooling_id
     region account_id h).1 = Ret id →
  Forall (writes_profile id)
    (create_or_update_project_profile R domain_id profile_name nemo_id tooling_id
       region account_id h).2.
Proof.
  revert id. unfold create_or_update_project_profile.
  eapply returned_bind_silent; [|apply writes_profile_silent|].
  { unfold find_project_profile. emits_steps ltac:(on_calls_leaf done). }
  intros existing h1 id. cbv zeta. destruct (if_existing existing) as [found|]; exec.
  - destruct (rbind _ _) as [e|profile_id]; exec; [done|].
    destruct (invoke R _ _) as [e|details]; exec.
    + destruct (invoke R _ _) as [e'|d]; exec; [done|]. intros [= <-]. written.
    + destruct (py_iter _) as [e|ecs]; exec.
      * destruct (invoke R _ _) as [e'|d]; exec; [done|]. intros [= <-]. written.
      * destruct (preserve_ids _ _ _ _) as [σ' [e|]]; exec;
          (destruct (invoke R _ _) as [e'|d]; exec; [done|]); intros [= <-]; written.
  - destruct (invoke R _ _) as [e|d]; exec; [done|].
    destruct (rbind (dict_index d "id") as_str) as [e|profile_id] eqn:Hid; exec; [done|].
    assert (dict_get d "id" = Some (JStr profile_id)) as Hd.
    { unfold dict_index, py_index in Hid. destruct (dict_get d "id") as [[]|]; by simplify_eq/=. }
    intros [= <-]. written.
Qed.

(** X14.  The profile id that is returned.  When the profile
    reconciliation returns an id, that id is the one the update named,
    after the details of that same profile were read, or the one the
    creation was answered with. *)
Theorem returned_profile_is_the_one_written
    (R : remote) (domain_id profile_name nemo_id tooling_id region account_id : string)
    (h : log) (id : string) :
  (create_or_update_project_profile R domain_id profile_name nemo_id tooling_id
     region account_id h).1 = Ret id →
  Forall (writes_profile id)
    (create_or_update_project_profile R domain_id profile_name nemo_id tooling_id
       region account_id h).2.
Proof. apply profile_returned_written. Qed.

Lemma profile_creation_exact R domain_id profile_name nemo tooling region account :
  emits (Forall (on_calls (λ c,
           op c = "create_project_profile" →
           c = create_profile_call domain_id profile_name tooling nemo region account)))
    (create_or_update_project_profile R domain_id profile_name nemo tooling region account).
Proof. emits_steps ltac:(on_calls_leaf ltac:(first [done | by intros [=]])). Qed.

(** X15.  A creation starts from nothing.  Every call that creates the
    project profile names the domain, the profile and the status
    ENABLED, and carries the two desired configurations as built,
    neither of which has an id: a creation never carries a configuration
    id, whatever the remote side answered before. *)
Theorem profile_creation_carries_no_ids
    (R : remote) (domain_id profile_name nemo_id tooling_id region account_id : string)
    (h : log) :
  Forall (λ c, op c = "create_project_profile" →
               c = create_profile_call domain_id profile_name tooling_id nemo_id
                     region account_id)
    (calls (create_or_update_project_profile R domain_id profile_name nemo_id tooling_id
              region account_id h).2) ∧
  dict_get (tooling_config tooling_id region account_id) "id" = None ∧
  dict_get (nemo_tooling_config nemo_id region account_id) "id" = None.
Proof.
  split; [|done]. apply Forall_on_calls, emits_run, profile_creation_exact.
Qed.

(** ** The role script *)

(** X16.  The role script needs a domain.  When DOMAIN_ID is unset or
    empty, the script prints one line and ends with status 1 without a
    single call; conversely, a run that makes a call had a non-empty
    DOMAIN_ID. *)
Theorem role_script_needs_a_domain
    (R : remote) (environ : gmap string string) (json_dumps : json → string) (h : log) :
  (truthy_opt (environ !! "DOMAIN_ID") = false →
   DomainConnectionRole.main R environ json_dumps h =
     (Ret 1%Z, [Printed "Error: DOMAIN_ID not set"]) ∧
   DomainConnectionRole.script R environ json_dumps h =
     (Exit 1, [Printed "Error: DOMAIN_ID not set"])) ∧
  (calls (DomainConnectionRole.script R environ json_dumps h).2 ≠ [] →
   ∃ domain_id, environ !! "DOMAIN_ID" = Some domain_id ∧ domain_id ≠ "").
Proof.
  split.
  - intros Hd. unfold DomainConnectionRole.script, DomainConnectionRole.main.
    rewrite Hd. cbn [negb]. split; [by exec|].
    rewrite bind_run. by exec.
  - destruct (truthy_opt (environ !! "DOMAIN_ID")) eqn:Hd.
    + intros _. by apply truthy_opt_true.
    + unfold DomainConnectionRole.script, DomainConnectionRole.main.
      rewrite Hd. cbn [negb]. rewrite bind_run. exec. by intros [].
Qed.

Lemma id_cases (d : dict) :
  match rbind (dict_index d "id") as_str with
  | inr i => dict_get d "id" = Some (JStr i)
  | inl e =>
      (dict_get d "id" = None ∧ e = KeyError "id") ∨
      (∃ v, dict_get d "id" = Some v ∧ ∀ i, v ≠ JStr i)
  end.
Proof.
  unfold dict_index, py_index.
  destruct (dict_get d "id") as [v|]; cbn [rbind]; [|by left].
  destruct v; cbn [as_str]; try (right; by eexists); done.
Qed.

(** X17.  An existing user profile.  When creating the user profile
    fails, the error is taken for an existing profile exactly when it is
    a service error whose text holds the word "existing", in any case of
    its letters, or whose code is ConflictException or
    ValidationException.  Then the function reads the profile back, with
    the type IAM: it returns the id of the answer, and raises when the
    reading fails or the answer has no id.  Any other error of the
    creation is raised again, right after the failed call. *)
Theorem existing_user_profile_is_read_back
    (R : remote) (domain_id role_arn : string) (e : exn) (h : log) :
  invoke R (remote_view h) (create_user_profile_call domain_id role_arn) = inl e →
  let failed := Called (create_user_profile_call domain_id role_arn) (inl e) in
  let run := DomainConnectionRole.create_user_profile R domain_id role_arn h in
  (user_profile_exists e = true →
   let r := invoke R (remote_view h ++ [failed]) (get_user_profile_call domain_id role_arn) in
   run.2 = [failed; Printed "User profile already exists";
            Called (get_user_profile_call domain_id role_arn) r] ∧
   (∀ e', r = inl e' → run.1 = Raise e') ∧
   (∀ d id, r = inr d → dict_get d "id" = Some (JStr id) → run.1 = Ret id) ∧
   (∀ d, r = inr d → dict_get d "id" = None → run.1 = Raise (KeyError "id"))) ∧
  (user_profile_exists e = false → run = (Raise e, [failed])).
Proof.
  intros Hcreate failed run. subst failed run. unfold user_profile_exists.
  unfold DomainConnectionRole.create_user_profile.
  rewrite try_client_error_run, sdk_then.
  fold (create_user_profile_call domain_id role_arn). rewrite Hcreate.
  destruct (exn_code e) as [code|]; [|by split].
  cbv beta iota.
  destruct (_ || _).
  - split; [intros _|done].
    exec. fold (get_user_profile_call domain_id role_arn).
    destruct (invoke R (remote_view h ++ _) _) as [e'|d]; exec.
    + repeat split; try done. by intros ? [= <-].
    + pose proof (id_cases d) as Hid.
      destruct (rbind (dict_index d "id") as_str) as [e3|i]; exec.
      * destruct Hid as [[Hnone ->]|(v & Hv & Hne)].
        -- repeat split; try done. intros ? id [= <-]. congruence.
        -- repeat split; try done.
           ++ intros ? id [= <-] Hd. rewrite Hd in Hv. injection Hv as <-. by destruct (Hne id).
           ++ intros ? [= <-]. congruence.
      * repeat split; try done.
        -- intros ? id [= <-]. congruence.
        -- intros ? [= <-]. congruence.
  - split; [done|intros _]. by exec.
Qed.

(** X18.  An existing owner.  When adding the role as an owner fails, the
    error is taken for an existing ownership exactly when it is a
    service error with the code ValidationException whose text holds
    "already exists", in any case of its letters: the function then
    prints a line and returns.  Any other error, a conflict included, is
    raised again, right after the failed call. *)
Theorem existing_owner_is_accepted
    (R : remote) (domain_id root_unit_id role_arn : string) (e : exn) (h : log) :
  invoke R (remote_view h) (add_owner_call domain_id root_unit_id role_arn) = inl e →
  let failed := Called (add_owner_call domain_id root_unit_id role_arn) (inl e) in
  DomainConnectionRole.add_as_domain_owner R domain_id root_unit_id role_arn h =
    if owner_exists e then (Ret tt, [failed; Printed "Already a domain owner"])
    else (Raise e, [failed]).
Proof.
  intros Hadd failed. subst failed. unfold owner_exists.
  unfold DomainConnectionRole.add_as_domain_owner.
  rewrite try_client_error_run, sdk_then.
  fold (add_owner_call domain_id root_unit_id role_arn). rewrite Hadd.
  destruct (exn_code e) as [code|]; [|done].
  cbv beta iota. destruct (_ && _); by exec.
Qed.

Lemma aborting_try_client_error {A} P (body : M A) handler :
  emits (Forall (on_calls (λ c, P c = false))) body → (∀ e code, aborting P (handler e code)) →
  aborting P (DomainConnectionRole.try_client_error body handler).
Proof.
  intros Hb Hh h. rewrite try_client_error_run. specialize (Hb h).
  destruct (body h) as [[a|e0|n] la]; simpl in *; try by apply aborts_on_silent.
  destruct (exn_code e0) as [code|]; [|by apply aborts_on_silent].
  specialize (Hh e0 code (h ++ la)). destruct (handler e0 code (h ++ la)) as [o lb].
  by apply aborts_on_after.
Qed.

Ltac role_aborting_step :=
  lazymatch goal with
  | |- aborting _ (DomainConnectionRole.try_client_error _ _) =>
      apply aborting_try_client_error; [emits_steps silent_leaf|intros ? ?]
  | |- _ => aborting_step
  end.

(** X19.  The role script stops at the first failure it does not handle.
    In every run of the script, a failed call that reads the account, the
    role, the domain or the user profile, rewrites the trust policy or
    attaches the inline policy is the last entry of the log, and the run
    ends by raising that very error. *)
Theorem role_script_stops_at_unhandled_failures
    (R : remote) (environ : gmap string string) (json_dumps : json → string) (h : log) :
  aborts_on is_role_unguarded (DomainConnectionRole.script R environ json_dumps h).
Proof.
  revert h. change (aborting is_role_unguarded (DomainConnectionRole.script R environ json_dumps)).
  repeat role_aborting_step.
Qed.

(** ** The order of the changes *)

Lemma ascending_weaken lo lo' l : lo' ≤ lo → ascending lo l → ascending lo' l.
Proof. destruct l as [|x l]; simpl; [done|]. intros ? [? ?]. split; [lia|done]. Qed.

Lemma ascending_app lo mid a b :
  lo ≤ mid → ascending lo a → Forall (λ n, n ≤ mid) a → ascending mid b →
  ascending lo (a ++ b).
Proof.
  revert lo. induction a as [|x a IH]; intros lo Hle Ha Hmid Hb; simpl.
  - by apply (ascending_weaken mid).
  - destruct Ha as [Hx Ha]. apply Forall_cons in Hmid as [Hxm Hmid].
    split; [done|]. by apply IH.
Qed.

Section Staged.
Context (rank : call → nat).

Lemma ranked_silent lo hi l :
  lo ≤ hi → Forall (on_calls (λ c, is_mutating c = false)) l → ranked rank lo hi l.
Proof. intros Hle Hl. unfold ranked. rewrite (mutations_silent _ Hl). by repeat split. Qed.

Lemma ranked_app lo mid hi l1 l2 :
  ranked rank lo mid l1 → ranked rank mid hi l2 → ranked rank lo hi (l1 ++ l2).
Proof.
  intros (Hle1 & Ha1 & Hb1) (Hle2 & Ha2 & Hb2). unfold ranked.
  rewrite mutations_app, fmap_app. split; [lia|]. split.
  - by apply (ascending_app lo mid).
  - apply Forall_app. split; [|done].
    eapply Forall_impl; [exact Hb1|]. simpl. lia.
Qed.

Lemma ranked_weaken lo hi hi' l : hi ≤ hi' → ranked rank lo hi l → ranked rank lo hi' l.
Proof.
  intros Hle (Hle1 & Ha & Hb). split; [lia|]. split; [done|].
  eapply Forall_impl; [exact Hb|]. simpl. lia.
Qed.

Lemma staged_le {A} lo hi (m : M A) : staged rank lo hi m → lo ≤ hi.
Proof. intros Hm. by destruct (Hm []). Qed.

Lemma staged_silent {A} lo (m : M A) :
  emits (Forall (on_calls (λ c, is_mutating c = false))) m → staged rank lo lo m.
Proof. intros Hm h. by apply ranked_silent. Qed.

Lemma staged_silent_le {A} lo hi (m : M A) :
  emits (Forall (on_calls (λ c, is_mutating c = false))) m → lo ≤ hi → staged rank lo hi m.
Proof. intros Hm Hle h. by apply ranked_silent. Qed.

Lemma staged_sdk_le R s o args lo hi :
  is_mutating (MkCall s o args) = true →
  lo < rank (MkCall s o args) → rank (MkCall s o args) ≤ hi →
  staged rank lo hi (sdk R s o args).
Proof.
  intros Hm Hlo Hhi h.
  assert (∀ r, mutations [Called (MkCall s o args) r] = [MkCall s o args]) as Hmut.
  { intros r. unfold mutations. cbn. by rewrite Hm. }
  rewrite sdk_run. unfold ranked.
  destruct (invoke R _ _); cbn [snd]; rewrite Hmut; cbn;
    (split; [lia|]; split; [done|]; by apply Forall_singleton).
Qed.

Lemma staged_sdk R s o args lo k :
  is_mutating (MkCall s o args) = true →
  rank (MkCall s o args) = k → lo < k →
  staged rank lo k (sdk R s o args).
Proof. intros ? <- ?. by apply staged_sdk_le. Qed.

Lemma staged_bind {A B} lo mid hi (m : M A) (f : A → M B) :
  staged rank lo mid m → (∀ a, staged rank mid hi (f a)) → mid ≤ hi →
  staged rank lo hi (bind m f).
Proof.
  intros Hm Hf Hle h. rewrite bind_run. specialize (Hm h).
  destruct (m h) as [[a|e|n] l1]; cbn [fst snd] in *.
  - unfold after. cbn [snd]. apply (ranked_app lo mid); [done|apply Hf].
  - by apply (ranked_weaken lo mid).
  - by apply (ranked_weaken lo mid).
Qed.

Lemma staged_bind_silent {A B} lo hi (m : M A) (f : A → M B) :
  emits (Forall (on_calls (λ c, is_mutating c = false))) m →
  (∀ a, staged rank lo hi (f a)) → lo ≤ hi →
  staged rank lo hi (bind m f).
Proof. intros Hm Hf Hle. apply (staged_bind lo lo); [by apply staged_silent|done|done]. Qed.

Lemma staged_try_except {A} lo mid hi (body : M A) handler :
  staged rank lo mid body → (∀ e, staged rank mid hi (handler e)) → mid ≤ hi →
  staged rank lo hi (try_except body handler).
Proof.
  intros Hb Hh Hle h. rewrite try_except_run. specialize (Hb h).
  destruct (body h) as [[a|e|n] l1]; cbn [fst snd] in *.
  - by apply (ranked_weaken lo mid).
  - unfold after. cbn [snd]. apply (ranked_app lo mid); [done|apply Hh].
  - by apply (ranked_weaken lo mid).
Qed.

Lemma staged_try_bare {A} lo mid hi (body handler : M A) :
  staged rank lo mid body → staged rank mid hi handler → mid ≤ hi →
  staged rank lo hi (try_bare body handler).
Proof.
  intros Hb Hh Hle h. rewrite try_bare_run. specialize (Hb h).
  destruct (body h) as [[a|e|n] l1]; cbn [fst snd] in *.
  - by apply (ranked_weaken lo mid).
  - unfold after. cbn [snd]. apply (ranked_app lo mid); [done|apply Hh].
  - unfold after. cbn [snd]. apply (ranked_app lo mid); [done|apply Hh].
Qed.

Lemma staged_try_client_error {A} lo mid hi (body : M A) handler :
  staged rank lo mid body → (∀ e code, staged rank mid hi (handler e code)) → mid ≤ hi →
  staged rank lo hi (DomainConnectionRole.try_client_error body handler).
Proof.
  intros Hb Hh Hle h. rewrite try_client_error_run. specialize (Hb h).
  destruct (body h) as [[a|e|n] l1]; cbn [fst snd] in *.
  - by apply (ranked_weaken lo mid).
  - destruct (exn_code e) as [code|]; [|by apply (ranked_weaken lo mid)].
    unfold after. cbn [snd]. apply (ranked_app lo mid); [done|apply Hh].
  - by apply (ranked_weaken lo mid).
Qed.
End Staged.

(** a side condition on ranks, once the ranks it compares are settled *)
Ltac staged_side :=
  lazymatch goal with
  | |- ?g => tryif has_evar g then fail else first [done | lazy; lia]
  end.

Ltac staged_quiet := solve [emits_steps silent_leaf].

(** [staged_solve] proves [staged rank lo hi m] along the structure of
    [m]; where [hi] is still open it settles on the rank reached *)
Ltac staged_solve :=
  lazymatch goal with
  | |- staged _ _ _ (bind ?m _) =>
      tryif (let Hq := fresh in
             assert (emits (Forall (on_calls (λ c, is_mutating c = false))) m) as Hq
               by staged_quiet;
             clear Hq)
      then (eapply staged_bind_silent; [staged_quiet|intros ?; staged_solve|staged_side])
      else (eapply staged_bind; [staged_solve|intros ?; staged_solve|staged_side])
  | |- staged _ _ _ (try_except _ _) =>
      eapply staged_try_except; [staged_solve|intros ?; staged_solve|staged_side]
  | |- staged _ _ _ (try_bare _ _) =>
      eapply staged_try_bare; [staged_solve|staged_solve|staged_side]
  | |- staged _ _ _ (DomainConnectionRole.try_client_error _ _) =>
      eapply staged_try_client_error; [staged_solve|intros ? ?; staged_solve|staged_side]
  | |- staged _ _ _ (sdk _ _ _ _) =>
      first [ apply staged_silent; staged_quiet
            | apply staged_silent_le; [staged_quiet|staged_side]
            | eapply staged_sdk; [reflexivity|lazy; reflexivity|staged_side]
            | apply staged_sdk_le; [reflexivity|staged_side|staged_side] ]
  | |- staged _ _ _ (match ?x with _ => _ end) =>
      (* where the first branch changes nothing, the other one settles [hi] *)
      first [destruct x; staged_solve | destruct x; [idtac|staged_solve ..]; staged_solve]
  | |- staged _ _ _ (let _ := _ in _) => cbv zeta; staged_solve
  | |- staged _ _ _ _ =>
      first [ apply staged_silent; staged_quiet
            | apply staged_silent_le; [staged_quiet|staged_side]
            | progress autounfold with script; staged_solve ]
  end.

Lemma role_script_staged R environ json_dumps :
  staged role_rank 0 5 (DomainConnectionRole.script R environ json_dumps).
Proof. staged_solve. Qed.

(** X20.  The order of the changes of the role script.  In every run the
    mutating calls come in one fixed order, each kind at most once: the
    creation of the role, the rewriting of its trust policy, the inline
    policy, the user profile, the ownership of the domain unit.  No other
    mutating call is made. *)
Theorem role_script_changes_in_order
    (R : remote) (environ : gmap string string) (json_dumps : json → string) (h : log) :
  ascending 0 (role_rank <$> mutations (DomainConnectionRole.script R environ json_dumps h).2).
Proof. apply role_script_staged. Qed.

Lemma main_staged R H : staged setup_rank 0 8 (main R H).
Proof. staged_solve. Qed.

(** X21.  The order of the changes of the set-up script.  In every run
    the mutating calls come in one fixed order, each kind at most once:
    the creation of the bucket, the upload of the template, the creation
    or update of the blueprint, its enabling, the grant
    CREATE_ENVIRONMENT_PROFILE, the grant
    CREATE_ENVIRONMENT_FROM_BLUEPRINT, the creation or update of the
    project profile, the all-users grant.  No other mutating call is
    made. *)
Theorem setup_changes_in_order (R : remote) (H : host) (h : log) :
  ascending 0 (setup_rank <$> mutations (main R H h).2).
Proof. apply main_staged. Qed.

(** ** What flows from one step to the next *)

Section Flows.
Context (S : entry → Prop) (T : string → entry → Prop).

Lemma flows_neutral {A} (m : M A) : emits (Forall S) m → flows S T m.
Proof. intros Hm h. left. apply Hm. Qed.

Lemma flows_bind_neutral {A B} (m : M A) (f : A → M B) :
  emits (Forall (λ e, S e ∧ ∀ x, T x e)) m → (∀ a, flows S T (f a)) →
  flows S T (bind m f).
Proof.
  intros Hm Hf h. rewrite bind_run. specialize (Hm h).
  destruct (m h) as [[a|e|n] l1]; cbn [fst snd] in *.
  - unfold after. cbn [snd]. destruct (Hf a (h ++ l1)) as [HS|[x HT]].
    + left. apply Forall_app. split; [|done].
      eapply Forall_impl; [exact Hm|]. by intros ? [? _].
    + right. exists x. apply Forall_app. split; [|done].
      eapply Forall_impl; [exact Hm|]. intros ? [_ ?]. done.
  - left. eapply Forall_impl; [exact Hm|]. by intros ? [? _].
  - left. eapply Forall_impl; [exact Hm|]. by intros ? [? _].
Qed.

Lemma flows_bind_source {B} (m : M string) (f : string → M B) :
  emits (Forall S) m → (∀ h x, (m h).1 = Ret x → Forall (T x) (m h).2) →
  (∀ x, emits (Forall (T x)) (f x)) →
  flows S T (bind m f).
Proof.
  intros Hm Hret Hf h. rewrite bind_run. specialize (Hm h). specialize (Hret h).
  destruct (m h) as [[x|e|n] l1]; cbn [fst snd] in *; [|by left|by left].
  right. exists x. unfold after. cbn [snd]. apply Forall_app. split; [by apply Hret|apply Hf].
Qed.
End Flows.

(** the entries of the goal's log that came before the value was known *)
Ltac flows_neutral_leaf :=
  on_calls_leaf ltac:(idtac);
  first [ done
        | split; [done|intros ?; split; [by repeat split; intros [=]|try done]] ].

(** *** The blueprint, from its writing to its use *)

Lemma in_calls_Forall P l c : c ∈ calls l → Forall (on_calls P) l → P c.
Proof. intros Hc Hl%Forall_on_calls. by apply (proj1 (Forall_forall _ _) Hl). Qed.

(** calls that neither write nor use the blueprint *)
Lemma blueprint_neutral e :
  on_calls (λ c, is_blueprint_write c = false ∧ is_enable c = false ∧ is_grant c = false ∧
                 is_profile_write c = false) e →
  on_calls (λ c, needs_blueprint c = false) e ∧ ∀ bp, blueprint_flow bp e.
Proof.
  destruct e as [c r|c ps|s]; simpl; [| |done].
  - intros (Hw & He & Hg & Hp). split.
    { unfold needs_blueprint. by rewrite Hg, Hp. }
    intros bp. split; [|split; congruence].
    apply (writes_blueprint_silent bp (Called c r)). done.
  - intros (Hw & He & Hg & Hp). split.
    { unfold needs_blueprint. by rewrite Hg, Hp. }
    intros bp. split; [done|split; congruence].
Qed.

Ltac neutral_leaf := on_calls_leaf ltac:(first [done | by repeat split]).

Lemma blueprint_flow_of_profile R domain_id profile_name bp tooling region account :
  emits (Forall (blueprint_flow bp))
    (create_or_update_project_profile R domain_id profile_name bp tooling region account).
Proof.
  intros h.
  pose proof (profile_writes_in_order R domain_id profile_name bp tooling region account h)
    as Horder.
  assert (Forall (on_calls (λ c, is_blueprint_write c = false ∧ is_enable c = false ∧
                                 is_grant c = false))
            (create_or_update_project_profile R domain_id profile_name bp tooling region
               account h).2) as Hsilent.
  { apply emits_run. emits_steps neutral_leaf. }
  apply Forall_forall. intros e He.
  apply (proj1 (Forall_forall _ _) Horder) in He as Ho.
  apply (proj1 (Forall_forall _ _) Hsilent) in He as Hs.
  destruct e as [c r|c ps|s]; simpl in *; [| |done].
  - destruct Hs as (Hw & Hen & Hg). split.
    + apply (writes_blueprint_silent bp (Called c r)). done.
    + split; [congruence|]. intros Hp. exists tooling. done.
  - destruct Hs as (Hw & Hen & Hg). split; [done|].
    split; [congruence|]. intros Hp. exists tooling. done.
Qed.

Ltac blueprint_flow_leaf :=
  apply Forall_singleton; split;
  [ first [done | cbn [writes_blueprint]; repeat split; first [done | by intros [=]]]
  | first [ done
          | cbn [on_calls]; split;
            [ first [by intros [=] | by intros _ [=] | intros _ _; by eexists]
            | by intros [=] ] ] ].

Lemma main_blueprint_flows R H :
  flows (on_calls (λ c, needs_blueprint c = false)) blueprint_flow (main R H).
Proof.
  unfold main.
  repeat lazymatch goal with
  | |- flows _ _ (bind (create_or_update_nemo_tooling_blueprint _ _ _ _ _ _ _) _) =>
      apply flows_bind_source;
      [ emits_steps neutral_leaf
      | intros h bp Hret
      | intros bp ]
  | |- flows _ _ (bind ?m _) =>
      apply flows_bind_neutral;
      [ eapply emits_Forall_impl; [apply blueprint_neutral|]; emits_steps neutral_leaf
      | intros ? ]
  | |- flows _ _ (match ?x with _ => _ end) => destruct x
  | |- flows _ _ (let _ := _ in _) => cbv zeta
  end.
  - pose proof (blueprint_returned_written _ _ _ _ _ _ _ _ _ Hret) as Hw.
    match type of Hret with
    | (?run).1 = _ =>
        assert (Forall (on_calls (λ c, is_grant c = false ∧ is_profile_write c = false))
                  run.2) as Hs
    end.
    { apply emits_run. emits_steps neutral_leaf. }
    apply Forall_forall. intros e He.
    apply (proj1 (Forall_forall _ _) Hw) in He as Hwe.
    apply (proj1 (Forall_forall _ _) Hs) in He as Hse.
    split; [done|]. destruct e as [c r|c ps|s]; simpl in *; [| |done];
      destruct Hse as [Hg Hp]; split; congruence.
  - repeat first
      [ apply blueprint_flow_of_profile
      | emits_step blueprint_flow_leaf ].
Qed.

(** X22.  The blueprint, from its writing to its use.  In every run of
    the script, each blueprint grant and each call that creates or
    updates the project profile refers to one blueprint: the entity of
    the grant ends with its id, the second configuration of the profile
    is for it.  It is the blueprint that this run updated, or whose
    creation was answered with that id, and that this run enabled. *)
Theorem written_blueprint_is_the_one_used (R : remote) (H : host) (h : log) (c : call) :
  c ∈ calls (main R H h).2 → needs_blueprint c = true →
  ∃ bp, uses_blueprint bp c ∧ Forall (writes_blueprint bp) (main R H h).2.
Proof.
  intros Hc Hn. destruct (main_blueprint_flows R H h) as [HS|[bp HT]].
  - pose proof (in_calls_Forall _ _ _ Hc HS) as Hf. simpl in Hf. congruence.
  - exists bp. split.
    + apply (in_calls_Forall (uses_blueprint bp) _ _ Hc).
      eapply Forall_impl; [exact HT|]. by intros ? [_ ?].
    + eapply Forall_impl; [exact HT|]. by intros ? [? _].
Qed.

(** *** The profile, from its writing to its grant *)

Lemma profile_neutral e :
  on_calls profile_untouched e →
  on_calls (λ c, is_all_users_grant c = false) e ∧ ∀ profile_id, profile_flow profile_id e.
Proof.
  destruct e as [c r|c ps|s]; simpl; [| |done].
  - intros (Hg & Hu & Hc & Ha). split; [done|]. intros profile_id. split.
    + split; [by intros [?|?]|done].
    + simpl. congruence.
  - intros (Hg & Hu & Hc & Ha). split; [done|]. intros profile_id. split; [done|].
    simpl. congruence.
Qed.

Ltac untouched_leaf := on_calls_leaf ltac:(first [done | by repeat split]).

Ltac profile_flow_leaf :=
  apply Forall_singleton; split;
  [ first [done | cbn [writes_profile]; split; first [done | by intros [=] | by intros [[=]|[=]]]]
  | first [ done | cbn [on_calls]; first [by intros [=] | intros _; apply grants_profile_sent] ] ].

Lemma main_profile_flows R H :
  flows (on_calls (λ c, is_all_users_grant c = false)) profile_flow (main R H).
Proof.
  unfold main.
  repeat lazymatch goal with
  | |- flows _ _ (bind (create_or_update_project_profile _ _ _ _ _ _ _) _) =>
      apply flows_bind_source;
      [ emits_steps untouched_leaf
      | intros h profile_id Hret
      | intros profile_id ]
  | |- flows _ _ (bind ?m _) =>
      apply flows_bind_neutral;
      [ eapply emits_Forall_impl; [apply profile_neutral|]; emits_steps untouched_leaf
      | intros ? ]
  | |- flows _ _ (match ?x with _ => _ end) => destruct x
  | |- flows _ _ (let _ := _ in _) => cbv zeta
  end.
  - pose proof (profile_returned_written _ _ _ _ _ _ _ _ _ Hret) as Hw.
    match type of Hret with
    | (?run).1 = _ =>
        assert (Forall (on_calls (λ c, is_all_users_grant c = false)) run.2) as Hs
    end.
    { apply emits_run. emits_steps untouched_leaf. }
    apply Forall_forall. intros e He.
    apply (proj1 (Forall_forall _ _) Hw) in He as Hwe.
    apply (proj1 (Forall_forall _ _) Hs) in He as Hse.
    split; [done|]. destruct e as [c r|c ps|s]; simpl in *; congruence.
  - emits_steps profile_flow_leaf.
Qed.

(** X23.  The profile, from its writing to its grant.  In every run of
    the script, an all-users grant holds, in its target list, the id of
    the profile that this run updated, or whose creation was answered
    with that id; the details read for the grant are those of that
    profile. *)
Theorem written_profile_is_the_one_granted (R : remote) (H : host) (h : log) (c : call) :
  c ∈ calls (main R H h).2 → is_all_users_grant c = true →
  ∃ profile_id,
    grants_profile profile_id c ∧ Forall (writes_profile profile_id) (main R H h).2.
Proof.
  intros Hc Hn. destruct (main_profile_flows R H h) as [HS|[profile_id HT]].
  - pose proof (in_calls_Forall _ _ _ Hc HS) as Hf. simpl in Hf. congruence.
  - exists profile_id. split.
    + apply (in_calls_Forall (λ c, is_all_users_grant c = true → grants_profile profile_id c)
               _ _ Hc); [|done].
      eapply Forall_impl; [exact HT|]. by intros ? [_ ?].
    + eapply Forall_impl; [exact HT|]. by intros ? [? _].
Qed.

(** *** The role, from its creation to its registration *)

Lemma role_neutral e :
  on_calls role_untouched e →
  on_calls (λ c, registers_role c = false) e ∧ ∀ role_arn, role_flow role_arn e.
Proof.
  destruct e as [c r|c ps|s]; simpl; [| |done].
  - intros (Hc & Hg & Hr). split; [done|]. intros role_arn. split; [by intros [?|?]|].
    unfold registers_role in Hr.
    apply orb_false_iff in Hr as [[Hcu Hgu]%orb_false_iff Hown].
    split.
    + intros [Hop|Hop]; rewrite Hop in *; done.
    + intros Hop. rewrite Hop in *. done.
  - intros (Hc & Hg & Hr). split; [done|]. intros role_arn. split; [done|].
    unfold registers_role in Hr.
    apply orb_false_iff in Hr as [[Hcu Hgu]%orb_false_iff Hown].
    split.
    + intros [Hop|Hop]; rewrite Hop in *; done.
    + intros Hop. rewrite Hop in *. done.
Qed.

(** reading the ARN of an answer fails with a plain exception only *)
Lemma role_arn_of_error d e : DomainConnectionRole.role_arn_of d = inl e → exn_code e = None.
Proof.
  unfold DomainConnectionRole.role_arn_of, dict_index, py_index, rbind.
  destruct (dict_get d "Role") as [role|]; [|by intros [= <-]].
  destruct role as [| | | | |d']; try by intros [= <-].
  destruct (dict_get d' "Arn") as [[]|]; by intros [= <-].
Qed.

Lemma create_role_returns R json_dumps account_id domain_id h role_arn :
  (DomainConnectionRole.create_role R json_dumps account_id domain_id h).1 = Ret role_arn →
  Forall (role_flow role_arn)
    (DomainConnectionRole.create_role R json_dumps account_id domain_id h).2.
Proof.
  unfold DomainConnectionRole.create_role. cbv zeta.
  rewrite print_then, try_client_error_run, sdk_then.
  assert (∀ c, op c = "create_role" ∨ op c = "update_assume_role_policy" ∨ op c = "get_role" →
               names_role role_arn c) as Hnames.
  { intros c Hop. split; [intros [Hc|Hc]|intros Hc]; rewrite Hc in Hop;
      by destruct Hop as [?|[?|?]]. }
  destruct (invoke R _ _) as [e|d]; cbv beta iota.
  - destruct (exn_code e) as [code|]; [|by intros [=]]. cbv beta iota.
    destruct (String.eqb code "EntityAlreadyExists"); exec; [|by intros [=]].
    destruct (invoke R _ _) as [e'|d']; exec; [by intros [=]|].
    destruct (invoke R _ _) as [e''|d'']; exec; [by intros [=]|].
    destruct (DomainConnectionRole.role_arn_of d'') as [e3|arn] eqn:Harn; exec; [by intros [=]|].
    intros [= <-]. rewrite !Forall_cons, Forall_nil. repeat split; try done.
    all: try (apply Hnames; cbn; tauto).
    all: try (by intros _ ? [= <-]).
    all: by intros [[=]|[=]].
  - exec. destruct (DomainConnectionRole.role_arn_of d) as [e3|arn] eqn:Harn; exec.
    { rewrite (role_arn_of_error _ _ Harn). by intros [=]. }
    intros [= <-]. rewrite !Forall_cons, Forall_nil. repeat split; try done.
    all: try (apply Hnames; cbn; tauto).
    all: by intros _ ? [= <-].
Qed.

Ltac role_flow_leaf :=
  apply Forall_singleton; split;
  [ first [done | cbn [answers_role]; by intros [[=]|[=]]]
  | first [ done | cbn [on_calls]; split; first [by intros [=] | by intros [[=]|[=]] | by intros _] ] ].

Lemma role_main_flows R environ json_dumps :
  flows (on_calls (λ c, registers_role c = false)) role_flow
    (DomainConnectionRole.main R environ json_dumps).
Proof.
  unfold DomainConnectionRole.main.
  repeat lazymatch goal with
  | |- flows _ _ (bind (DomainConnectionRole.create_role _ _ _ _) _) =>
      apply flows_bind_source;
      [ emits_steps untouched_leaf
      | intros h role_arn Hret; by apply create_role_returns
      | intros role_arn; emits_steps role_flow_leaf ]
  | |- flows _ _ (bind ?m _) =>
      apply flows_bind_neutral;
      [ eapply emits_Forall_impl; [apply role_neutral|]; emits_steps untouched_leaf
      | intros ? ]
  | |- flows _ _ (match ?x with _ => _ end) => destruct x
  | |- flows _ _ (let _ := _ in _) => cbv zeta
  | |- flows _ _ _ => apply flows_neutral; emits_steps untouched_leaf
  end.
Qed.

(** X24.  The role, from its creation to its registration.  In every run
    of the role script, the call that creates the user profile, the call
    that reads it back and the call that adds the owner all name one
    ARN: the one in the answer to the creation of the role, or, when the
    role existed, in the answer to reading it. *)
Theorem registered_role_is_the_one_created
    (R : remote) (environ : gmap string string) (json_dumps : json → string) (h : log)
    (c : call) :
  c ∈ calls (DomainConnectionRole.main R environ json_dumps h).2 → registers_role c = true →
  ∃ role_arn,
    names_role role_arn c ∧
    Forall (answers_role role_arn) (DomainConnectionRole.main R environ json_dumps h).2.
Proof.
  intros Hc Hn. destruct (role_main_flows R environ json_dumps h) as [HS|[role_arn HT]].
  - pose proof (in_calls_Forall _ _ _ Hc HS) as Hf. simpl in Hf. congruence.
  - exists role_arn. split.
    + apply (in_calls_Forall (names_role role_arn) _ _ Hc).
      eapply Forall_impl; [exact HT|]. by intros ? [_ ?].
    + eapply Forall_impl; [exact HT|]. by intros ? [? _].
Qed.

(** *** The account, from STS to the policy documents *)

Lemma account_neutral json_dumps domain_id e :
  on_calls account_untouched e →
  on_calls (λ c, carries_document c = false) e ∧
  ∀ account_id, account_flow json_dumps domain_id account_id e.
Proof.
  destruct e as [c r|c ps|s]; simpl; [| |done].
  - intros (Hi & Hd). split; [done|]. intros account_id. split; [by intros Hop|].
    unfold carries_document in Hd.
    apply orb_false_iff in Hd as [[Hc Hu]%orb_false_iff Hp].
    repeat split; intros Hop; rewrite Hop in *; done.
  - intros (Hi & Hd). split; [done|]. intros account_id. split; [done|].
    unfold carries_document in Hd.
    apply orb_false_iff in Hd as [[Hc Hu]%orb_false_iff Hp].
    repeat split; intros Hop; rewrite Hop in *; done.
Qed.

Lemma get_account_id_returns R json_dumps domain_id h account_id :
  (DomainConnectionRole.get_account_id R h).1 = Ret account_id →
  Forall (account_flow json_dumps domain_id account_id) (DomainConnectionRole.get_account_id R h).2.
Proof.
  unfold DomainConnectionRole.get_account_id. exec.
  destruct (invoke R _ _) as [e|d]; exec; [done|].
  destruct (rbind (dict_index d "Account") as_str) as [e|account] eqn:Hacc; exec; [done|].
  intros [= <-]. apply Forall_singleton. split.
  - intros _ ? [= <-]. unfold dict_index, py_index in Hacc.
    destruct (dict_get d "Account") as [[]|]; by simplify_eq/=.
  - repeat split; by intros [=].
Qed.

Ltac account_flow_leaf :=
  apply Forall_singleton; split;
  [ first [done | cbn [answers_account]; by intros [=]]
  | first [ done | cbn [on_calls]; repeat split; first [by intros [=] | by intros _] ] ].

Lemma role_main_account_flows R environ json_dumps :
  flows (on_calls (λ c, carries_document c = false))
    (account_flow json_dumps (default "" (environ !! "DOMAIN_ID")))
    (DomainConnectionRole.main R environ json_dumps).
Proof.
  unfold DomainConnectionRole.main.
  repeat lazymatch goal with
  | |- flows _ _ (bind (DomainConnectionRole.get_account_id _) _) =>
      apply flows_bind_source;
      [ emits_steps untouched_leaf
      | intros h account_id Hret; by apply get_account_id_returns
      | intros account_id; emits_steps account_flow_leaf ]
  | |- flows _ _ (bind ?m _) =>
      apply flows_bind_neutral;
      [ eapply emits_Forall_impl; [apply account_neutral|]; emits_steps untouched_leaf
      | intros ? ]
  | |- flows _ _ (match ?x with _ => _ end) => destruct x
  | |- flows _ _ (let _ := _ in _) => cbv zeta
  | |- flows _ _ _ => apply flows_neutral; emits_steps untouched_leaf
  end.
Qed.

(** X25.  The account, from STS to the policy documents.  In every run of
    the role script, each call that carries a policy document is the
    call built for the domain of the environment and for one account:
    the trust policy on creation and on rewriting, the inline policy on
    attaching it.  It is the account that STS answered with. *)
Theorem documents_name_the_callers_account
    (R : remote) (environ : gmap string string) (json_dumps : json → string) (h : log)
    (c : call) :
  c ∈ calls (DomainConnectionRole.main R environ json_dumps h).2 → carries_document c = true →
  ∃ account_id,
    documents_for json_dumps account_id (default "" (environ !! "DOMAIN_ID")) c ∧
    Forall (answers_account account_id) (DomainConnectionRole.main R environ json_dumps h).2.
Proof.
  intros Hc Hn.
  destruct (role_main_account_flows R environ json_dumps h) as [HS|[account_id HT]].
  - pose proof (in_calls_Forall _ _ _ Hc HS) as Hf. simpl in Hf. congruence.
  - exists account_id. split.
    + apply (in_calls_Forall (documents_for _ _ _) _ _ Hc).
      eapply Forall_impl; [exact HT|]. by intros ? [_ ?].
    + eapply Forall_impl; [exact HT|]. by intros ? [? _].
Qed.

(** ** The steps of a run that returns *)

Lemma once_sdk W R s o args h :
  W (MkCall s o args) = true → once_if_returns W (sdk R s o args h).
Proof.
  intros HW. rewrite sdk_run.
  destruct (invoke R _ _); unfold once_if_returns, count_calls; cbn; rewrite HW; cbn;
    (split; [lia|done]).
Qed.

Ltac once_quiet := solve [emits_steps silent_leaf].

(** [once_steps here] follows a run up to the one step that makes the
    call; [here] proves that this step makes it once *)
Ltac once_step here :=
  lazymatch goal with
  | |- once_if_returns ?W (bind ?m _ _) =>
      tryif (let Hq := fresh in
             assert (emits (Forall (on_calls (λ c, W c = false))) m) as Hq by once_quiet;
             clear Hq)
      then (apply once_bind_silent; [once_quiet|intros ? ?])
      else (apply once_then_silent; [here|intros ?; once_quiet])
  | |- once_if_returns _ ((match ?x with _ => _ end) _) => destruct x
  | |- once_if_returns _ ((let _ := _ in _) _) => cbv zeta
  end.

Ltac once_steps here := repeat once_step here.

Lemma template_uploaded_once R H bucket_name region account_id h :
  once_if_returns is_upload (upload_nemo_tooling_template R H bucket_name region account_id h).
Proof. unfold upload_nemo_tooling_template. once_steps ltac:(by apply once_sdk). Qed.

Lemma blueprint_uploads_once R H domain_id role arn region account_id h :
  once_if_returns is_upload
    (create_or_update_nemo_tooling_blueprint R H domain_id role arn region account_id h).
Proof.
  unfold create_or_update_nemo_tooling_blueprint.
  once_steps ltac:(apply template_uploaded_once).
Qed.

Lemma blueprint_enabled_once R H domain_id role arn region account_id h :
  once_if_returns is_enable
    (create_or_update_nemo_tooling_blueprint R H domain_id role arn region account_id h).
Proof.
  unfold create_or_update_nemo_tooling_blueprint. cbv zeta.
  apply once_bind_silent; [once_quiet|intros url h1].
  apply once_bind_silent; [once_quiet|intros existing h2].
  apply once_bind_silent; [once_quiet|intros blueprint_id h3].
  exec. destruct (invoke R _ _) as [e|d]; exec; (split; [by cbv|by intros ? _]).
Qed.

Lemma main_steps_once R H h :
  once_if_returns is_upload (main R H h) ∧
  once_if_returns is_blueprint_write (main R H h) ∧
  once_if_returns is_enable (main R H h) ∧
  once_if_returns is_profile_write (main R H h).
Proof.
  split; [|split; [|split]]; unfold main.
  - once_steps ltac:(apply blueprint_uploads_once).
  - once_steps ltac:(apply blueprint_written_once).
  - once_steps ltac:(apply blueprint_enabled_once).
  - once_steps ltac:(apply profile_written_once).
Qed.

(** X26.  The steps of a run that returns.  A run of the script that
    returns has uploaded the template, created or updated the blueprint,
    sent the call that enables it and created or updated the project
    profile, each exactly once. *)
Theorem completed_run_did_every_step (R : remote) (H : host) (h : log) :
  (main R H h).1 = Ret tt → steps_done (main R H h).2.
Proof.
  intros Hret. destruct (main_steps_once R H h) as ((_ & Hu) & (_ & Hw) & (_ & He) & (_ & Hp)).
  repeat split; eauto.
Qed.

(** ** The domain that is addressed *)

Lemma get_config_domain H h cfg :
  (get_config H h).1 = Ret cfg → DOMAIN_ID cfg = default "" (environ H !! "DOMAIN_ID").
Proof.
  unfold get_config. destruct (missing (environ H)); exec; [|done].
  by intros [= <-].
Qed.

Ltac addresses_leaf :=
  on_calls_leaf ltac:(first [done | by intros [=] | by intros _]).

Lemma main_addresses R H :
  emits (Forall (on_calls (addresses (default "" (environ H !! "DOMAIN_ID"))))) (main R H).
Proof.
  unfold main.
  repeat first
    [ lazymatch goal with
      | |- emits _ (bind (get_config _) _) =>
          apply (emits_bind_post _
                   (λ cfg, DOMAIN_ID cfg = default "" (environ H !! "DOMAIN_ID")));
          [ emits_steps addresses_leaf
          | intros h cfg; apply get_config_domain
          | intros cfg Hcfg; cbv zeta; rewrite !Hcfg ]
      | |- emits _ (sdk _ _ _ (match ?x with _ => _ end)) => destruct x
      end
    | emits_step addresses_leaf ].
Qed.

Lemma role_main_addresses R environ json_dumps :
  emits (Forall (on_calls (addresses (default "" (environ !! "DOMAIN_ID")))))
    (DomainConnectionRole.script R environ json_dumps).
Proof. emits_steps addresses_leaf. Qed.

(** X27.  The domain that is addressed.  Every call that either script
    makes to the data service names the domain of the environment
    variable DOMAIN_ID, whatever the remote side answers: the scripts
    never act on a domain they learn of at run time. *)
Theorem scripts_address_the_configured_domain
    (R : remote) (H : host) (environ : gmap string string) (json_dumps : json → string)
    (h : log) :
  Forall (addresses (default "" (SetupBlueprint.environ H !! "DOMAIN_ID")))
    (calls (main R H h).2) ∧
  Forall (addresses (default "" (environ !! "DOMAIN_ID")))
    (calls (DomainConnectionRole.script R environ json_dumps h).2).
Proof.
  split.
  - apply Forall_on_calls, emits_run, main_addresses.
  - apply Forall_on_calls, emits_run, role_main_addresses.
Qed.

(** ** The steps of the role script *)

(** reading the id of an answer fails with a plain exception only *)
Lemma id_error (d : dict) e : rbind (dict_index d "id") as_str = inl e → exn_code e = None.
Proof.
  unfold dict_index, py_index, rbind.
  destruct (dict_get d "id") as [[]|]; by intros [= <-].
Qed.

Lemma role_main_steps R environ json_dumps h :
  truthy_opt (environ !! "DOMAIN_ID") = true →
  once_if_returns (is_op "create_role") (DomainConnectionRole.main R environ json_dumps h) ∧
  once_if_returns (is_op "put_role_policy") (DomainConnectionRole.main R environ json_dumps h) ∧
  once_if_returns (is_op "create_user_profile")
    (DomainConnectionRole.main R environ json_dumps h) ∧
  once_if_returns (is_op "add_entity_owner") (DomainConnectionRole.main R environ json_dumps h).
Proof.
  intros Hd. unfold DomainConnectionRole.main. cbv zeta. rewrite Hd. cbn [negb].
  split; [|split; [|split]].
  - once_steps ltac:(idtac).
    unfold DomainConnectionRole.create_role. cbv zeta.
    apply once_bind_silent; [once_quiet|intros _ h1].
    rewrite try_client_error_run, sdk_then.
    destruct (invoke R _ _) as [e|d]; exec.
    + destruct (exn_code e) as [code|]; [|split; [by cbv|done]].
      cbv beta iota. destruct (String.eqb code "EntityAlreadyExists"); exec.
      * destruct (invoke R _ _) as [e'|d']; exec; [split; [by cbv|done]|].
        destruct (invoke R _ _) as [e''|d'']; exec; [split; [by cbv|done]|].
        destruct (DomainConnectionRole.role_arn_of d''); exec; split; by cbv.
      * split; [by cbv|done].
    + destruct (DomainConnectionRole.role_arn_of d) as [e|arn] eqn:Harn; exec.
      * rewrite (role_arn_of_error _ _ Harn). split; [by cbv|done].
      * split; by cbv.
  - once_steps ltac:(unfold DomainConnectionRole.attach_policy;
                     once_steps ltac:(by apply once_sdk)).
  - once_steps ltac:(idtac).
    unfold DomainConnectionRole.create_user_profile.
    rewrite try_client_error_run, sdk_then.
    destruct (invoke R _ _) as [e|d]; exec.
    + destruct (exn_code e) as [code|]; [|split; [by cbv|done]].
      cbv beta iota. destruct (_ || _); exec.
      * destruct (invoke R _ _) as [e'|d']; exec; [split; [by cbv|done]|].
        destruct (rbind _ _); exec; split; by cbv.
      * split; [by cbv|done].
    + destruct (rbind _ _) as [e|id] eqn:Hid; exec.
      * rewrite (id_error _ _ Hid). split; [by cbv|done].
      * split; by cbv.
  - once_steps ltac:(idtac).
    unfold DomainConnectionRole.add_as_domain_owner.
    rewrite try_client_error_run, sdk_then.
    destruct (invoke R _ _) as [e|d]; exec.
    + destruct (exn_code e) as [code|]; [|split; [by cbv|done]].
      cbv beta iota. destruct (_ && _); exec; split; by cbv.
    + split; by cbv.
Qed.

(** X28.  The steps of a role run that succeeds.  A run of the role
    script whose entry point returns status 0 had a non-empty DOMAIN_ID
    and has sent the creation of the role, the inline policy, the
    creation of the user profile and the addition of the owner, each
    exactly once: a role or a profile that exists is still asked for
    first. *)
Theorem successful_role_run_did_every_step
    (R : remote) (environ : gmap string string) (json_dumps : json → string) (h : log) :
  (DomainConnectionRole.main R environ json_dumps h).1 = Ret 0%Z →
  truthy_opt (environ !! "DOMAIN_ID") = true ∧
  role_steps_done (DomainConnectionRole.main R environ json_dumps h).2.
Proof.
  destruct (truthy_opt (environ !! "DOMAIN_ID")) eqn:Hd.
  - intros Hret. split; [done|].
    destruct (role_main_steps R environ json_dumps h Hd)
      as ((_ & H1) & (_ & H2) & (_ & H3) & (_ & H4)).
    repeat split; eauto.
  - unfold DomainConnectionRole.main. cbv zeta. rewrite Hd. cbn [negb]. by exec.
Qed.

(** ** The further properties on concrete runs *)

Lemma upload_template_witness :
  upload_nemo_tooling_template Scenario.fresh_domain Cases.host_no_template
    "nemo-hyperpod-templates-111122223333-us-west-2" "us-west-2" "111122223333" [] =
    (Exit 1, [Printed "Error: Template not found at /repo/blueprints/nemo-tooling-blueprint.yaml"]) ∧
  count_calls is_create_bucket
    (upload_nemo_tooling_template Scenario.fresh_domain Scenario.host_full
       "nemo-hyperpod-templates-111122223333-us-west-2" "us-west-2" "111122223333" []).2 = 0.
Proof.
  split.
  - destruct (upload_template_behaviour Scenario.fresh_domain Cases.host_no_template
                "nemo-hyperpod-templates-111122223333-us-west-2" "us-west-2" "111122223333" [])
      as (Hmissing & _).
    apply Hmissing. reflexivity.
  - destruct (upload_template_behaviour Scenario.fresh_domain Scenario.host_full
                "nemo-hyperpod-templates-111122223333-us-west-2" "us-west-2" "111122223333" [])
      as (_ & _ & Hhead & _).
    apply (Hhead []). apply list_elem_of_In. vm_compute. find_entry.
Defined.

Lemma tooling_blueprint_selection_witness :
  get_tooling_blueprint_config Scenario.fresh_domain "dzd_1" [] =
    (Ret (Some "bp-tooling", None),
     [Paginated (tooling_list_call "dzd_1")
        (paginate Scenario.fresh_domain [] (tooling_list_call "dzd_1"));
      Called (tooling_config_call "dzd_1" "bp-tooling") (inr [])]).
Proof.
  destruct (tooling_blueprint_selection Scenario.fresh_domain "dzd_1"
              [[Cases.tooling_blueprint]] []) as (_ & _ & Hfound).
  - repeat constructor.
  - repeat constructor. intros d [= <-]. eexists. reflexivity.
  - reflexivity.
  - destruct (Hfound Cases.tooling_blueprint "bp-tooling") as (_ & Hread);
      [reflexivity|reflexivity|discriminate|].
    apply (Hread [] None); reflexivity.
Defined.

Lemma tooling_listing_failure_witness :
  get_tooling_blueprint_config Scenario.throttled_listing "dzd_1" [] =
    (Raise Scenario.throttled,
     [Paginated (tooling_list_call "dzd_1")
        (paginate Scenario.throttled_listing [] (tooling_list_call "dzd_1"))]).
Proof.
  destruct (tooling_listing_failure_propagates Scenario.throttled_listing "dzd_1"
              Scenario.throttled []) as (_ & Hraised); [reflexivity|].
  apply (Hraised [[Scenario.other_blueprint]]).
  - repeat constructor.
  - repeat constructor. intros d [=].
Defined.

Lemma main_mutates_witness :
  missing (environ Scenario.host_full) = [] ∧
  template_exists Scenario.host_full = true ∧
  ∃ ps i,
    Paginated (tooling_list_call (default "" (environ Scenario.host_full !! "DOMAIN_ID"))) ps
      ∈ (main Scenario.fresh_domain Scenario.host_full []).2 ∧
    scan_tooling (ps_pages ps) (ps_error ps) None = inr (Some i) ∧
    i ≠ "".
Proof.
  apply (main_mutates_only_when_prepared Scenario.fresh_domain Scenario.host_full []).
  vm_compute. discriminate.
Defined.

Lemma returned_blueprint_witness :
  Forall (writes_blueprint "bp-nemo")
    (create_or_update_nemo_tooling_blueprint Scenario.fresh_domain Scenario.host_full "dzd_1"
       "arn:aws:iam::111122223333:role/service-role/AmazonSageMakerProvisioning-111122223333"
       None "us-west-2" "111122223333" []).2.
Proof.
  apply (returned_blueprint_is_the_one_written Scenario.fresh_domain Scenario.host_full "dzd_1"
           "arn:aws:iam::111122223333:role/service-role/AmazonSageMakerProvisioning-111122223333"
           None "us-west-2" "111122223333" [] "bp-nemo").
  vm_compute. reflexivity.
Defined.

Lemma no_domain_unit_witness :
  authorize_all_users Cases.details_denied "dzd_1" "prof-1" [] =
    (Ret tt,
     [Printed "Authorizing all users for project profile...";
      Called (get_profile_call "dzd_1" "prof-1") (inl Scenario.access_denied);
      Printed ("Warning: Could not get profile details: " +:+ exn_str Scenario.access_denied)]) ∧
  authorize_all_users Scenario.two_page_listing "dzd_1" "prof-1" [] =
    (Ret tt,
     [Printed "Authorizing all users for project profile...";
      Called (get_profile_call "dzd_1" "prof-1") (inr []);
      Printed "Warning: No domain unit ID found on profile"]).
Proof.
  split.
  - destruct (no_domain_unit_no_grant Cases.details_denied "dzd_1" "prof-1" []) as (Hfail & _).
    apply Hfail. reflexivity.
  - destruct (no_domain_unit_no_grant Scenario.two_page_listing "dzd_1" "prof-1" [])
      as (_ & Hnone).
    apply Hnone; [reflexivity|]. left. reflexivity.
Defined.

Lemma all_users_grant_witness :
  grants_profile "P3" (all_users_grant_call "dzd_1" "root" ["P3"]) ∧
  ∃ profile,
    Called (get_profile_call "dzd_1" "P3") (inr profile)
      ∈ (authorize_all_users Scenario.grants_unlistable "dzd_1" "P3" []).2 ∧
    for_unit_of profile (all_users_grant_call "dzd_1" "root" ["P3"]).
Proof.
  destruct (all_users_grant_names_the_profile Scenario.grants_unlistable "dzd_1" "P3" [])
    as (_ & Hgrant).
  apply Hgrant. apply list_elem_of_In. vm_compute. find_entry.
Defined.

Lemma update_without_details_witness :
  ∃ r,
    (create_or_update_project_profile Cases.details_denied "dzd_1" "NeMo-HyperPod-Profile"
       "bp-nemo" "bp-tooling" "us-west-2" "111122223333" []).2 =
      [Paginated (list_profiles_call "dzd_1")
         (paginate Cases.details_denied [] (list_profiles_call "dzd_1"));
       Printed "Project profile 'NeMo-HyperPod-Profile' exists (ID: prof-1)"] ++
      [Called (get_profile_call "dzd_1" "prof-1") (inl Scenario.access_denied);
       Printed ("Warning: Could not get profile details: " +:+ exn_str Scenario.access_denied);
       Printed "Updating project profile...";
       Called (update_profile_call "dzd_1" "prof-1"
                 (fresh_configs "bp-tooling" "bp-nemo" "us-west-2" "111122223333")) r]
      ++ updated_line r.
Proof.
  destruct (update_goes_on_without_details Cases.details_denied "dzd_1"
              "NeMo-HyperPod-Profile" "bp-nemo" "bp-tooling" "us-west-2" "111122223333"
              [[Scenario.listed_profile]] Scenario.listed_profile "prof-1" [])
    as (Hdenied & _); [repeat constructor|reflexivity|reflexivity|].
  apply Hdenied. reflexivity.
Defined.

Lemma malformed_entry_witness :
  ∃ warning r,
    (create_or_update_project_profile Cases.malformed_profile "dzd_1" "NeMo-HyperPod-Profile"
       "bp-nemo" "bp-tooling" "us-west-2" "111122223333" []).2 =
      [Paginated (list_profiles_call "dzd_1")
         (paginate Cases.malformed_profile [] (list_profiles_call "dzd_1"));
       Printed "Project profile 'NeMo-HyperPod-Profile' exists (ID: prof-1)";
       Called (get_profile_call "dzd_1" "prof-1") (inr Cases.malformed_details);
       Printed warning;
       Printed "Updating project profile...";
       Called (update_profile_call "dzd_1" "prof-1"
                 (JArr [JObj (tooling_config "bp-tooling" "us-west-2" "111122223333"
                              ++ [("id", JStr "E0")]);
                        JObj (nemo_tooling_config "bp-nemo" "us-west-2" "111122223333")])) r]
      ++ updated_line r.
Proof.
  apply (ids_read_before_a_malformed_entry_stay Cases.malformed_profile "dzd_1"
           "NeMo-HyperPod-Profile" "bp-nemo" "bp-tooling" "us-west-2" "111122223333"
           [[Scenario.listed_profile]] Scenario.listed_profile Cases.malformed_details "prof-1"
           [Cases.tooling_entry] JNull [JObj Cases.nemo_entry] []);
    [discriminate|repeat constructor|reflexivity|reflexivity|reflexivity|reflexivity
    |reflexivity].
Defined.

Lemma returned_profile_witness :
  Forall (writes_profile "prof-1")
    (create_or_update_project_profile Scenario.second_run "dzd_1" "NeMo-HyperPod-Profile"
       "bp-nemo" "bp-tooling" "us-west-2" "111122223333" []).2.
Proof.
  apply (returned_profile_is_the_one_written Scenario.second_run "dzd_1"
           "NeMo-HyperPod-Profile" "bp-nemo" "bp-tooling" "us-west-2" "111122223333" []
           "prof-1").
  vm_compute. reflexivity.
Defined.

Lemma role_script_needs_a_domain_witness :
  DomainConnectionRole.main Scenario.role_in_place ∅ Scenario.show_json [] =
    (Ret 1%Z, [Printed "Error: DOMAIN_ID not set"]) ∧
  DomainConnectionRole.script Scenario.role_in_place ∅ Scenario.show_json [] =
    (Exit 1, [Printed "Error: DOMAIN_ID not set"]).
Proof.
  destruct (role_script_needs_a_domain Scenario.role_in_place ∅ Scenario.show_json [])
    as (Hunset & _).
  apply Hunset. reflexivity.
Defined.

Lemma existing_user_profile_witness :
  (DomainConnectionRole.create_user_profile Cases.user_profile_in_place "dzd_1"
     Scenario.role_arn []).1 = Ret "user-1".
Proof.
  destruct (existing_user_profile_is_read_back Cases.user_profile_in_place "dzd_1"
              Scenario.role_arn Cases.user_profile_conflict []) as (Hexists & _);
    [reflexivity|].
  destruct Hexists as (_ & _ & Hid & _); [reflexivity|].
  apply (Hid [("id", JStr "user-1")]); reflexivity.
Defined.

Lemma existing_owner_witness :
  DomainConnectionRole.add_as_domain_owner Cases.owner_in_place "dzd_1" "root"
    Scenario.role_arn [] =
    (Ret tt,
     [Called (add_owner_call "dzd_1" "root" Scenario.role_arn) (inl Cases.owner_exists_error);
      Printed "Already a domain owner"]).
Proof.
  apply (existing_owner_is_accepted Cases.owner_in_place "dzd_1" "root" Scenario.role_arn
           Cases.owner_exists_error []).
  reflexivity.
Defined.

Lemma written_blueprint_witness :
  ∃ bp,
    uses_blueprint bp
      (blueprint_grant_call "dzd_1" "bp-nemo" "root" "111122223333"
         "CREATE_ENVIRONMENT_FROM_BLUEPRINT"
         (JObj [("createEnvironmentFromBlueprint", JObj [])])) ∧
    Forall (writes_blueprint bp) (main Scenario.fresh_domain Scenario.host_full []).2.
Proof.
  apply (written_blueprint_is_the_one_used Scenario.fresh_domain Scenario.host_full []).
  - apply list_elem_of_In. vm_compute. find_entry.
  - reflexivity.
Defined.

Lemma written_profile_witness :
  ∃ profile_id,
    grants_profile profile_id (all_users_grant_call "dzd_1" "root" ["prof-1"]) ∧
    Forall (writes_profile profile_id)
      (main Scenario.grants_unlistable Scenario.host_full []).2.
Proof.
  apply (written_profile_is_the_one_granted Scenario.grants_unlistable Scenario.host_full []).
  - apply list_elem_of_In. vm_compute. find_entry.
  - reflexivity.
Defined.

Lemma registered_role_witness :
  ∃ role_arn,
    names_role role_arn (add_owner_call "dzd_1" "root" Scenario.role_arn) ∧
    Forall (answers_role role_arn)
      (DomainConnectionRole.main Scenario.role_in_place Cases.role_environ
         Scenario.show_json []).2.
Proof.
  apply (registered_role_is_the_one_created Scenario.role_in_place Cases.role_environ
           Scenario.show_json []).
  - apply list_elem_of_In. vm_compute. find_entry.
  - reflexivity.
Defined.

Lemma documents_witness :
  ∃ account_id,
    documents_for Scenario.show_json account_id
      (default "" (Cases.role_environ !! "DOMAIN_ID"))
      (put_policy_call Scenario.show_json "111122223333" "dzd_1") ∧
    Forall (answers_account account_id)
      (DomainConnectionRole.main Scenario.role_in_place Cases.role_environ
         Scenario.show_json []).2.
Proof.
  apply (documents_name_the_callers_account Scenario.role_in_place Cases.role_environ
           Scenario.show_json []).
  - apply list_elem_of_In. vm_compute. find_entry.
  - reflexivity.
Defined.

Lemma completed_run_witness :
  steps_done (main Scenario.fresh_domain Scenario.host_full []).2.
Proof.
  apply (completed_run_did_every_step Scenario.fresh_domain Scenario.host_full []).
  vm_compute. reflexivity.
Defined.

Lemma successful_role_run_witness :
  truthy_opt (Cases.role_environ !! "DOMAIN_ID") = true ∧
  role_steps_done
    (DomainConnectionRole.main Scenario.role_in_place Cases.role_environ
       Scenario.show_json []).2.
Proof.
  apply (successful_role_run_did_every_step Scenario.role_in_place Cases.role_environ
           Scenario.show_json []).
  vm_compute. reflexivity.
Defined.
